(** * shuttletracker: the updater (feed ingestion and route guessing)

    A shallow embedding of [updater.go] (package [updater]) together with the
    parts of Go's standard library and of the [database] package it calls,
    followed by the properties of the ingestion pipeline.

    Conventions.
    - Go [string]s are byte strings: Rocq's [string] (a list of 8-bit [ascii]).
    - Go [int] is the 64-bit signed integer: a [Z], wrapped where the source
      arithmetic can leave the range.
    - Go [float64] is the kernel's binary64 [float].
    - A run-time panic (slice bounds, index out of range) is an explicit
      outcome, never an error value. *)

From Stdlib Require Import ZArith List Ascii String DecimalString Floats Uint63 Lia Bool Permutation Sorted.
From stdpp Require Import gmap strings.

Import ListNotations.
Set Warnings "-inexact-float".
Local Open Scope string_scope.
Local Open Scope Z_scope.

(** ** Outcomes of Go code that can panic *)

Inductive go (A : Type) : Type :=
| Panic : go A
| Ret : A -> go A.
Arguments Panic {A}.
Arguments Ret {A} _.

Definition go_bind {A B} (m : go A) (k : A -> go B) : go B :=
  match m with
  | Panic => Panic
  | Ret a => k a
  end.

Declare Scope go_scope.
Delimit Scope go_scope with go.
Notation "x <~ m ;; k" := (go_bind m (fun x => k))
  (at level 100, m at next level, right associativity) : go_scope.

(** ** Go's [error] values met by the updater *)

Inductive error : Type :=
| ErrSyntax (fn num : string)     (* strconv.NumError with Err = ErrSyntax *)
| ErrRange (fn num : string)      (* strconv.NumError with Err = ErrRange *)
| ErrVehicleNotFound              (* database.ErrVehicleNotFound *)
| ErrUpdateNotFound               (* database.ErrUpdateNotFound *)
| ErrOther (msg : string).        (* any other failure of a collaborator *)

(** ** 64-bit integers *)

Module Int64.

Definition maxInt64 : Z := 2 ^ 63 - 1.
Definition minInt64 : Z := - 2 ^ 63.

(** [uint64(x)]: reduction modulo 2^64. *)
Definition u64 (x : Z) : Z := x mod 2 ^ 64.

(** [int64(x)] / [int(x)]: two's complement wrap-around. *)
Definition i64 (x : Z) : Z := (x + 2 ^ 63) mod 2 ^ 64 - 2 ^ 63.

End Int64.

(** ** Package [strings] *)

Module Strings.

Definition len (s : string) : Z := Z.of_nat (String.length s).

(** The slice expression [s[lo:hi]]: it panics unless [0 <= lo <= hi <= len(s)]. *)
Definition slice (s : string) (lo hi : Z) : go string :=
  if (0 <=? lo) && (lo <=? hi) && (hi <=? len s)
  then Ret (String.substring (Z.to_nat lo) (Z.to_nat (hi - lo)) s)
  else Panic.

(** [s[n:]] for an [n] known to be in range. *)
Fixpoint drop (n : nat) (s : string) : string :=
  match n, s with
  | O, _ => s
  | S n', String _ s' => drop n' s'
  | S _, EmptyString => EmptyString
  end.

(** [strings.Index(s, sep)]: the byte offset of the first [sep] in [s]. *)
Fixpoint Index (s sep : string) : option nat :=
  if String.prefix sep s then Some O
  else match s with
       | EmptyString => None
       | String _ s' => option_map S (Index s' sep)
       end.

(** The loop of [strings.genSplit] for a non-empty separator and [n < 0]: cut
    at each successive occurrence.  Every round consumes at least one byte,
    so [String.length s] rounds are as many as the loop can make. *)
Fixpoint genSplit (rounds : nat) (s sep : string) : list string :=
  match rounds with
  | O => [s]
  | S r =>
      match Index s sep with
      | None => [s]
      | Some m =>
          String.substring 0 m s :: genSplit r (drop (m + String.length sep) s) sep
      end
  end.

(** [strings.Split(s, sep)] for [sep <> ""]. *)
Definition Split (s sep : string) : list string :=
  genSplit (String.length s) s sep.

(** [strings.Replace(s, old, new, -1)] for [old <> ""]: every non-overlapping
    occurrence of [old], found left to right, becomes [new]. *)
Fixpoint replaceLoop (rounds : nat) (s old new : string) : string :=
  match rounds with
  | O => s
  | S r =>
      match Index s old with
      | None => s
      | Some m =>
          String.substring 0 m s ++ new
            ++ replaceLoop r (drop (m + String.length old) s) old new
      end
  end.

Definition Replace (s old new : string) : string :=
  replaceLoop (String.length s) s old new.

End Strings.

(** ** Package [strconv]: [Atoi] *)

Module Strconv.

Definition isDigit (c : ascii) : bool :=
  let n := nat_of_ascii c in (Nat.leb 48 n && Nat.leb n 57)%bool.

Definition digitVal (c : ascii) : Z := Z.of_nat (nat_of_ascii c) - 48.

(** The value of a run of decimal digits, [None] when some byte is no digit. *)
Fixpoint digits (acc : Z) (s : string) : option Z :=
  match s with
  | EmptyString => Some acc
  | String c s' => if isDigit c then digits (10 * acc + digitVal c) s' else None
  end.

(** [strconv.Atoi]: an optional sign, then one or more decimal digits; the
    value is returned with a nil error when it fits [int], otherwise the
    nearest bound with [ErrRange]; any other string gives [0] with
    [ErrSyntax]. *)
Definition Atoi (s : string) : Z * option error :=
  let syntax := (0, Some (ErrSyntax "Atoi" s)) in
  match s with
  | EmptyString => syntax
  | String c rest =>
      let neg := Ascii.eqb c "-" in
      let body := if (neg || Ascii.eqb c "+")%bool then rest else s in
      match body with
      | EmptyString => syntax
      | _ =>
          match digits 0 body with
          | None => syntax
          | Some un =>
              if negb neg && (2 ^ 63 <=? un) then (Int64.maxInt64, Some (ErrRange "Atoi" s))
              else if neg && (2 ^ 63 <? un) then (Int64.minInt64, Some (ErrRange "Atoi" s))
              else (if neg then - un else un, None)
          end
      end
  end.

End Strconv.


(** ** Package [time]

    A [Time] without monotonic reading is the struct [{wall, ext, loc}] with
    [wall] the nanoseconds within the second and [ext] the seconds since
    January 1, year 1 00:00:00 UTC.  [time.UTC] is the location of every
    timestamp the updater builds; [Local], the location of [time.Now()], is
    taken to be a zone of offset zero. *)

Module GoTime.
Import Int64.

Inductive Location : Type := UTC | Local.

Record Time : Type := mkTime { wall : Z; ext : Z; loc : Location }.

(** [time.Time{}] *)
Definition zeroTime : Time := mkTime 0 0 UTC.

Definition Location_eqb (a b : Location) : bool :=
  match a, b with
  | UTC, UTC | Local, Local => true
  | _, _ => false
  end.

(** The comparison [t == u] of two [time.Time] structs: field by field. *)
Definition Time_eqb (t u : Time) : bool :=
  (wall t =? wall u) && (ext t =? ext u) && Location_eqb (loc t) (loc u).

(** [t.Before(u)] on times without monotonic reading. *)
Definition Before (t u : Time) : bool :=
  (ext t <? ext u) || ((ext t =? ext u) && (wall t <? wall u)).

(** [t.After(u)] *)
Definition After (t u : Time) : bool := Before u t.

Definition secondsPerMinute : Z := 60.
Definition secondsPerHour : Z := 3600.
Definition secondsPerDay : Z := 86400.
Definition daysPer400Years : Z := 365 * 400 + 97.
Definition daysPer100Years : Z := 365 * 100 + 24.
Definition daysPer4Years : Z := 365 * 4 + 1.
Definition absoluteZeroYear : Z := -292277022399.
Definition absoluteToInternal : Z := -9223371966579724800.
Definition internalToAbsolute : Z := - absoluteToInternal.
Definition unixToInternal : Z := 62135596800.
Definition internalToUnix : Z := - unixToInternal.

(** [daysBefore[m]]: days in a non-leap year before month [m+1]. *)
Definition daysBefore (m : Z) : Z :=
  nth (Z.to_nat m) [0; 31; 59; 90; 120; 151; 181; 212; 243; 273; 304; 334; 365] 0.

Definition isLeap (year : Z) : bool :=
  (Z.rem year 4 =? 0) && (negb (Z.rem year 100 =? 0) || (Z.rem year 400 =? 0)).

(** [norm(hi, lo, base)]: bring [lo] into [[0, base)], carrying into [hi]. *)
Definition norm (hi lo base : Z) : Z * Z :=
  let '(hi, lo) :=
    if lo <? 0 then
      let n := Z.quot (- lo - 1) base + 1 in (i64 (hi - n), i64 (lo + n * base))
    else (hi, lo) in
  if base <=? lo then
    let n := Z.quot lo base in (i64 (hi + n), i64 (lo - n * base))
  else (hi, lo).

(** [time.Date(year, month, day, hour, min, sec, nsec, loc)] *)
Definition Date (year month day hour min sec nsec : Z) (l : Location) : Time :=
  let m := i64 (month - 1) in
  let '(year, m) := norm year m 12 in
  let month := m + 1 in
  let '(sec, nsec) := norm sec nsec 1000000000 in
  let '(min, sec) := norm min sec 60 in
  let '(hour, min) := norm hour min 60 in
  let '(day, hour) := norm day hour 24 in
  let y := u64 (year - absoluteZeroYear) in
  let n := y / 400 in
  let y := y - 400 * n in
  let d := daysPer400Years * n in
  let n := y / 100 in
  let y := y - 100 * n in
  let d := d + daysPer100Years * n in
  let n := y / 4 in
  let y := y - 4 * n in
  let d := d + daysPer4Years * n in
  let n := y in
  let d := d + 365 * n in
  let d := d + daysBefore (month - 1) in
  let d := if isLeap year && (3 <=? month) then d + 1 else d in
  let d := u64 (d + (day - 1)) in
  let abs := u64 (d * secondsPerDay) in
  let abs := u64 (abs + (hour * secondsPerHour + min * secondsPerMinute + sec)) in
  let unix := i64 (abs + (absoluteToInternal + internalToUnix)) in
  mkTime nsec (i64 (unix + unixToInternal)) l.

(** [t.abs()]: seconds since the absolute zero year. *)
Definition abs (t : Time) : Z := u64 (ext t + internalToAbsolute).

(** [absDate(abs, true)]: year, month, day of month, day of year. *)
Definition absDate (abs : Z) : Z * Z * Z * Z :=
  let d := abs / secondsPerDay in
  let n := d / daysPer400Years in
  let y := 400 * n in
  let d := d - daysPer400Years * n in
  let n := d / daysPer100Years in
  let n := n - Z.shiftr n 2 in
  let y := y + 100 * n in
  let d := d - daysPer100Years * n in
  let n := d / daysPer4Years in
  let y := y + 4 * n in
  let d := d - daysPer4Years * n in
  let n := d / 365 in
  let n := n - Z.shiftr n 2 in
  let y := y + n in
  let d := d - 365 * n in
  let year := i64 (y + absoluteZeroYear) in
  let yday := d in
  let day := yday in
  if isLeap year && (day =? 31 + 29 - 1) then (year, 2, 29, yday)
  else
    let day := if isLeap year && (31 + 29 - 1 <? day) then day - 1 else day in
    let month := day / 31 in
    let e := daysBefore (month + 1) in
    let '(month, begin) :=
      if e <=? day then (month + 1, e) else (month, daysBefore month) in
    (year, month + 1, day - begin + 1, yday).

(** [absClock(abs)]: hour, minute, second within the day. *)
Definition absClock (abs : Z) : Z * Z * Z :=
  let sec := abs mod secondsPerDay in
  let hour := sec / secondsPerHour in
  let sec := sec - hour * secondsPerHour in
  let min := sec / secondsPerMinute in
  (hour, min, sec - min * secondsPerMinute).

(** [t.Date()] *)
Definition DateOf (t : Time) : Z * Z * Z :=
  let '(year, month, day, _) := absDate (abs t) in (year, month, day).

(** [t.Clock()] *)
Definition Clock (t : Time) : Z * Z * Z := absClock (abs t).

(** [t.Month()] *)
Definition Month (t : Time) : Z :=
  let '(_, month, _) := DateOf t in month.

(** [t.AddDate(years, months, days)] *)
Definition AddDate (t : Time) (years months days : Z) : Time :=
  let '(year, month, day) := DateOf t in
  let '(hour, min, sec) := Clock t in
  Date (i64 (year + years)) (i64 (month + months)) (i64 (day + days))
       hour min sec (wall t) (loc t).

(** [t.Add(d)] for a duration [d] in nanoseconds. *)
Definition Add (t : Time) (d : Z) : Time :=
  let dsec := Z.quot d 1000000000 in
  let nsec := wall t + Z.rem d 1000000000 in
  let '(dsec, nsec) :=
    if 1000000000 <=? nsec then (dsec + 1, nsec - 1000000000)
    else if nsec <? 0 then (dsec - 1, nsec + 1000000000)
    else (dsec, nsec) in
  mkTime nsec (i64 (ext t + dsec)) (loc t).

(** [time.Minute] *)
Definition Minute : Z := 60 * 1000000000.

(** [t.Unix()] *)
Definition Unix (t : Time) : Z := ext t + internalToUnix.

End GoTime.

(** ** [generateTimestamp] *)

Module Timestamp.
Import GoTime.
Local Open Scope go_scope.

(** [generateTimestamp] takes iTrak time and date strings and returns the
    [time.Time] they stand for.  Slices come first in each statement, so a
    token that is too short panics before anything is parsed. *)
Definition generateTimestamp (itrakTime itrakDate : string) : go (Time * option error) :=
  s <~ Strings.slice itrakDate 2 4 ;;
  let '(day, err) := Strconv.Atoi s in
  if err is Some e then Ret (zeroTime, Some e) else
  s <~ Strings.slice itrakDate 4 8 ;;
  let '(year, err) := Strconv.Atoi s in
  if err is Some e then Ret (zeroTime, Some e) else
  s <~ Strings.slice itrakDate 0 2 ;;
  let '(monthNum, err) := Strconv.Atoi s in
  if err is Some e then Ret (zeroTime, Some e) else
  let monthTime := AddDate zeroTime 0 (Int64.i64 (monthNum - 1)) 0 in
  let month := Month monthTime in
  let n := Strings.len itrakTime in
  s <~ Strings.slice itrakTime 0 (n - 4) ;;
  let '(hour, err) := Strconv.Atoi s in
  if err is Some e then Ret (zeroTime, Some e) else
  s <~ Strings.slice itrakTime (n - 4) (n - 2) ;;
  let '(minute, err) := Strconv.Atoi s in
  if err is Some e then Ret (zeroTime, Some e) else
  s <~ Strings.slice itrakTime (n - 2) n ;;
  let '(second, err) := Strconv.Atoi s in
  if err is Some e then Ret (zeroTime, Some e) else
  Ret (Date year month day hour minute second 0 UTC, None).

End Timestamp.

(** ** Package [math] *)

Module GoMath.
Local Open Scope float_scope.

(** [math.Inf(0)] *)
Definition Inf : float := infinity.

(** [math.Sqrt] *)
Definition Sqrt (x : float) : float := PrimFloat.sqrt x.

(** [math.Pow(x, 2)], the only exponent the updater uses: the special cases
    for [x = 1], NaN, zero and infinity, then one squaring of the mantissa
    that [Frexp] returns and a final [Ldexp]. *)
Definition Pow_2 (x : float) : float :=
  if x =? 1 then 1
  else if is_nan x then nan
  else if x =? 0 then 0
  else if is_infinity x then infinity
  else
    let '(x1, xe) := Z.frexp x in
    let x1 := x1 * x1 in
    let xe := (2 * xe)%Z in
    let '(x1, xe) := if x1 <? 0.5 then (x1 + x1, (xe - 1)%Z) else (x1, xe) in
    Z.ldexp (1 * x1) (0 + xe)%Z.

End GoMath.

(** ** Package [strconv]: floating point

    [ParseFloat] is modelled on the strings the feed grammar can hand to it:
    an optional sign, decimal digits and at most one decimal point.  The
    exponent, hexadecimal and named forms ([1e5], [0x1p-2], [Inf], [NaN])
    contain bytes the grammar's character classes exclude; on them the model
    reports a syntax error. *)

Module StrconvFloat.
Import Strconv.

(** State of the scan of [readFloat]: mantissa digits read so far, number of
    them after the point, whether a point and whether a digit was seen. *)
Fixpoint readFloat (s : string) (mant frac : Z) (sawdot sawdigits : bool) : option (Z * Z) :=
  match s with
  | EmptyString => if sawdigits then Some (mant, frac) else None
  | String c s' =>
      if Ascii.eqb c "." then
        if sawdot then None else readFloat s' mant frac true sawdigits
      else if isDigit c then
        readFloat s' (10 * mant + digitVal c) (if sawdot then frac + 1 else frac) sawdot true
      else None
  end.

(** The binary64 value nearest to [mant / 10^frac] (ties to even), with the
    sign [neg]; an infinity when the value is out of range. *)
Definition decimalToFloat (neg : bool) (mant frac : Z) : spec_float :=
  match mant with
  | Zpos m => SFdiv prec emax (S754_finite neg m 0) (S754_finite false (Z.to_pos (10 ^ frac)) 0)
  | _ => S754_zero neg
  end.

(** [strconv.ParseFloat(s, 64)]: the nearest [float64] and a nil error; [0]
    with [ErrSyntax] for an ill-formed string; [±Inf] with [ErrRange] for a
    well-formed number beyond the largest [float64]. *)
Definition ParseFloat (s : string) : float * option error :=
  let syntax := (0%float, Some (ErrSyntax "ParseFloat" s)) in
  match s with
  | EmptyString => syntax
  | String c rest =>
      let neg := Ascii.eqb c "-" in
      let body := if (neg || Ascii.eqb c "+")%bool then rest else s in
      match readFloat body 0 0 false false with
      | None => syntax
      | Some (mant, frac) =>
          let f := decimalToFloat neg mant frac in
          match f with
          | S754_infinity _ => (SF2Prim f, Some (ErrRange "ParseFloat" s))
          | _ => (SF2Prim f, None)
          end
      end
  end.

(** Decimal digits of a natural number. *)
Definition itoa (n : Z) : string :=
  DecimalString.NilZero.string_of_uint (N.to_uint (Z.to_N n)).

(** [strconv.FormatFloat(x, 'f', prec, 64)]: the exact decimal expansion of
    [x] rounded (ties to even) to [prec] digits after the point. *)
Definition FormatFloat (x : float) (prec : Z) : string :=
  match Prim2SF x with
  | S754_nan => "NaN"
  | S754_infinity s => if s then "-Inf" else "+Inf"
  | S754_zero s =>
      (if s then "-" else "") ++ "0"
        ++ (if 0 <? prec then "." ++ Strings.drop 1 (itoa (10 ^ prec)) else "")
  | S754_finite s m e =>
      let num := if 0 <=? e then Zpos m * 2 ^ e * 10 ^ prec else Zpos m * 10 ^ prec in
      let den := if 0 <=? e then 1 else 2 ^ (- e) in
      let q := num / den in
      let r := num mod den in
      let q := if (den <? 2 * r) || ((2 * r =? den) && Z.odd q) then q + 1 else q in
      (if s then "-" else "") ++ itoa (q / 10 ^ prec)
        ++ (if 0 <? prec then "." ++ Strings.drop 1 (itoa (10 ^ prec + q mod 10 ^ prec)) else "")
  end.

End StrconvFloat.

(** ** Package [regexp], as far as the feed grammar needs it

    The grammar uses literals, one-or-more repetitions of a character class,
    concatenation and capturing groups.  Matching is leftmost-first: the
    repetition is greedy and gives bytes back, longest first, when the rest
    of the pattern fails. *)

Module Regexp.

Inductive re : Type :=
| Lit (s : string)
| Plus (cls : ascii -> bool)
| Cat (r1 r2 : re)
| Group (name : string) (r : re).

(** Submatches in the order of the opening parentheses: group name and text. *)
Definition submatches : Type := list (string * string).

(** The bytes of [s] in front of its suffix [rest]. *)
Definition consumed (s rest : string) : string :=
  String.substring 0 (String.length s - String.length rest) s.

(** Greedy repetition, entered after a first byte of the class was read. *)
Fixpoint plusLoop {R} (cls : ascii -> bool) (s : string) (k : string -> option R) : option R :=
  match s with
  | String c s' =>
      if cls c then
        match plusLoop cls s' k with
        | Some r => Some r
        | None => k s
        end
      else k s
  | EmptyString => k s
  end.

(** Match [r] at the start of [s], then continue with [k] on the rest. *)
Fixpoint matchHere {R} (r : re) (s : string) (caps : submatches)
    (k : string -> submatches -> option R) : option R :=
  match r with
  | Lit l => if String.prefix l s then k (Strings.drop (String.length l) s) caps else None
  | Plus cls =>
      match s with
      | String c s' => if cls c then plusLoop cls s' (fun rest => k rest caps) else None
      | EmptyString => None
      end
  | Cat r1 r2 => matchHere r1 s caps (fun rest caps' => matchHere r2 rest caps' k)
  | Group name r1 =>
      let i := List.length caps in
      matchHere r1 s (caps ++ [(name, "")])%list
        (fun rest caps' => k rest (<[i := (name, consumed s rest)]> caps'))
  end.

(** The leftmost match of [r] in [s]: what [FindStringSubmatch] returns and
    the first element of [FindAllStringSubmatch(s, -1)]. *)
Fixpoint find (r : re) (s : string) : option submatches :=
  match matchHere r s [("", "")]
          (fun rest caps => Some (<[O := ("", consumed s rest)]> caps)) with
  | Some caps => Some caps
  | None =>
      match s with
      | EmptyString => None
      | String _ s' => find r s'
      end
  end.

(** [FindAllStringSubmatch(s, -1)[0]]: indexing the empty result panics. *)
Definition firstSubmatch (r : re) (s : string) : go submatches :=
  match find r s with
  | Some caps => Ret caps
  | None => Panic
  end.

End Regexp.

(** ** Package [model] (as the updater uses it) *)

Module Coord.
Record t : Type := mk { Lat : float; Lng : float }.
End Coord.

Module Route.
Record t : Type := mk { ID : string; Name : string; Enabled : bool; Coords : list Coord.t }.
(** [model.Route{}] *)
Definition zero : t := mk "" "" false [].
End Route.

Module Vehicle.
Record t : Type := mk { ID : Z; ITrakID : Z; Name : string; Enabled : bool }.
(** [model.Vehicle{}] *)
Definition zero : t := mk 0 0 "" false.
End Vehicle.

Module Update.
Record t : Type := mk {
  ID : Z;
  VehicleID : Z;
  Latitude : float;
  Longitude : float;
  Heading : string;
  Speed : string;
  Lock : string;
  Timestamp : GoTime.Time;
  Created : GoTime.Time;
  Route : string
}.
(** [model.Update{}] *)
Definition zero : t :=
  mk 0 0 0%float 0%float "" "" "" GoTime.zeroTime GoTime.zeroTime "".
End Update.

(** ** Package [database]: the interface the updater is written against

    A method returns its result together with Go's [error] ([None] is [nil]);
    the two methods that write return the new state of the store. *)

Class Database (DB : Type) : Type := {
  GetRoute : DB -> string -> Route.t * option error;
  GetRoutes : DB -> list Route.t * option error;
  GetVehicleByITrakID : DB -> Z -> Vehicle.t * option error;
  CreateUpdate : DB -> Update.t -> DB * option error;
  DeleteUpdatesBefore : DB -> GoTime.Time -> DB * (Z * option error);
  GetUpdatesForVehicleSince : DB -> Z -> GoTime.Time -> list Update.t * option error;
  GetLastUpdateForVehicle : DB -> Z -> Update.t * option error
}.

(** *** An in-memory store with the queries of [postgres.go]

    Tables are lists of rows in insertion order, a row being a value of the
    model type.  The store keeps the [WHERE], [ORDER BY] and [LIMIT] clauses
    of each query, the [serial] ids of the updates and their [created]
    default ([current_timestamp], the store's own clock); an insert writes
    the columns the [INSERT] statement lists.  Connection failures and the
    column types of SQL are outside the model. *)

Module MemDB.
Import GoTime.

Record t : Type := mk {
  vehicles : list Vehicle.t;
  routes : list Route.t;
  updates : list Update.t;
  nextID : Z;                    (* the [serial] sequence of [updates.id] *)
  current_timestamp : Time
}.

(** [ORDER BY created DESC]: insertion sort, stable among equal keys. *)
Fixpoint insertByCreated (u : Update.t) (l : list Update.t) : list Update.t :=
  match l with
  | [] => [u]
  | v :: l' =>
      if Before (Update.Created u) (Update.Created v)
      then v :: insertByCreated u l'
      else u :: l
  end.

Definition orderByCreatedDesc (l : list Update.t) : list Update.t :=
  fold_right insertByCreated [] l.

Definition getRoute (db : t) (routeID : string) : Route.t * option error :=
  match List.find (fun r => String.eqb (Route.ID r) routeID) (routes db) with
  | Some r => (r, None)
  | None => (Route.zero, Some (ErrOther "sql: no rows in result set"))
  end.

Definition getRoutes (db : t) : list Route.t * option error := (routes db, None).

Definition getVehicleByITrakID (db : t) (itrakID : Z) : Vehicle.t * option error :=
  match List.find (fun v => Vehicle.ITrakID v =? itrakID) (vehicles db) with
  | Some v => (v, None)
  | None => (Vehicle.zero, Some ErrVehicleNotFound)
  end.

(** [INSERT INTO updates (latitude, longitude, vehicle_id, heading, speed,
    timestamp) ... RETURNING id, created] *)
Definition createUpdate (db : t) (u : Update.t) : t * option error :=
  let row :=
    Update.mk (nextID db) (Update.VehicleID u) (Update.Latitude u) (Update.Longitude u)
      (Update.Heading u) (Update.Speed u) "" (Update.Timestamp u)
      (current_timestamp db) "" in
  (mk (vehicles db) (routes db) (updates db ++ [row])%list (nextID db + 1) (current_timestamp db),
   None).

(** [DELETE FROM updates WHERE created < $1] *)
Definition deleteUpdatesBefore (db : t) (before : Time) : t * (Z * option error) :=
  let keep := List.filter (fun u => negb (Before (Update.Created u) before)) (updates db) in
  (mk (vehicles db) (routes db) keep (nextID db) (current_timestamp db),
   (Z.of_nat (List.length (updates db)) - Z.of_nat (List.length keep), None)).

(** [SELECT * FROM updates WHERE vehicle_id = $1 and created > $2
    ORDER BY created DESC] *)
Definition getUpdatesForVehicleSince (db : t) (vehicleID : Z) (since : Time)
    : list Update.t * option error :=
  (orderByCreatedDesc
     (List.filter (fun u => (Update.VehicleID u =? vehicleID) && After (Update.Created u) since)
        (updates db)),
   None).

(** [SELECT * FROM updates WHERE vehicle_id = $1 ORDER BY created DESC LIMIT 1] *)
Definition getLastUpdateForVehicle (db : t) (vehicleID : Z) : Update.t * option error :=
  match orderByCreatedDesc
          (List.filter (fun u => Update.VehicleID u =? vehicleID) (updates db)) with
  | u :: _ => (u, None)
  | [] => (Update.zero, Some ErrUpdateNotFound)
  end.

End MemDB.

#[export] Instance MemDB_Database : Database MemDB.t := {
  GetRoute := MemDB.getRoute;
  GetRoutes := MemDB.getRoutes;
  GetVehicleByITrakID := MemDB.getVehicleByITrakID;
  CreateUpdate := MemDB.createUpdate;
  DeleteUpdatesBefore := MemDB.deleteUpdatesBefore;
  GetUpdatesForVehicleSince := MemDB.getUpdatesForVehicleSince;
  GetLastUpdateForVehicle := MemDB.getLastUpdateForVehicle
}.

(** ** Package [log]: what gets written, in order *)

Module Log.
Inductive level : Type := DebugLevel | WarnLevel | ErrorLevel.
(** An entry: level, message (the format string as written in the source)
    and the error attached with [WithError] or passed to [log.Error]. *)
Record entry : Type := mk { lvl : level; msg : string; cause : option error }.
Definition Debugf (m : string) : entry := mk DebugLevel m None.
Definition Warnf (m : string) : entry := mk WarnLevel m None.
Definition Error (e : error) : entry := mk ErrorLevel "" (Some e).
Definition WithError (e : error) (m : string) : entry := mk ErrorLevel m (Some e).
End Log.

(** ** Goroutine bodies: state, early return, panic *)

Inductive outcome (S A : Type) : Type :=
| Panicked                   (* a run-time panic, not recovered *)
| Returned (s : S)           (* the function has returned *)
| Next (a : A) (s : S).      (* execution goes on with [a] *)
Arguments Panicked {S A}.
Arguments Returned {S A} _.
Arguments Next {S A} _ _.

Definition task (S A : Type) : Type := S -> outcome S A.

Definition tret {S A} (a : A) : task S A := fun s => Next a s.

Definition tbind {S A B} (m : task S A) (k : A -> task S B) : task S B :=
  fun s =>
    match m s with
    | Panicked => Panicked
    | Returned s' => Returned s'
    | Next a s' => k a s'
    end.

(** The statement [return] of the goroutine's function. *)
Definition exit {S A} : task S A := fun s => Returned s.

(** An expression that may panic. *)
Definition lift {S A} (g : go A) : task S A :=
  fun s => match g with Panic => Panicked | Ret a => Next a s end.

Declare Scope task_scope.
Delimit Scope task_scope with task.
Notation "'let*' x := m 'in' k" := (tbind m (fun x => k))
  (at level 10, x pattern, m at level 100, k at level 200) : task_scope.
Notation "m ;; k" := (tbind m (fun _ => k))
  (at level 100, k at level 200, right associativity) : task_scope.

(** ** Package [updater] *)

Module Updater.
Import GoTime GoMath Strconv StrconvFloat Regexp.


Definition digitOrDot (c : ascii) : bool := isDigit c || Ascii.eqb c ".".
Definition digitDotOrMinus (c : ascii) : bool := isDigit c || Ascii.eqb c "." || Ascii.eqb c "-".

(** [(?P<name>tag(class+))] *)
Definition field (name tag : string) (cls : ascii -> bool) : re :=
  Group name (Cat (Lit tag) (Group "" (Plus cls))).

(** [updater.dataRegexp], compiled in [New]. *)
Definition dataRegexp : re :=
  Cat (field "id" "Vehicle ID:" digitOrDot) (Cat (Lit " ")
  (Cat (field "lat" "lat:" digitDotOrMinus) (Cat (Lit " ")
  (Cat (field "lng" "lon:" digitDotOrMinus) (Cat (Lit " ")
  (Cat (field "heading" "dir:" digitDotOrMinus) (Cat (Lit " ")
  (Cat (field "speed" "spd:" digitDotOrMinus) (Cat (Lit " ")
  (Cat (field "lock" "lck:" digitDotOrMinus) (Cat (Lit " ")
  (Cat (field "time" "time:" isDigit) (Cat (Lit " ")
  (Cat (field "date" "date:" isDigit) (Cat (Lit " ")
       (field "status" "trig:" isDigit)))))))))))))))).

(** [result[SubexpNames()[i]] = item] for every submatch, in order. *)
Definition namedGroups (m : submatches) : gmap string string :=
  fold_left (fun result '(name, item) => <[name := item]> result) m ∅.

(** [result[key]]: a missing key reads as the empty string. *)
Definition get (result : gmap string string) (key : string) : string :=
  default "" (result !! key).

(** Convert km/h to mph. *)
Definition kphToMPH (kmh : float) : float := (kmh * 0.621371192)%float.

(** [float64(n)] for a length [n]. *)
Definition float64 (n : nat) : float := of_uint63 (Uint63.of_Z (Z.of_nat n)).

(** *** Route guessing *)

(** [routeDistances[id]]: a missing key reads as zero. *)
Definition dist (routeDistances : gmap string float) (id : string) : float :=
  default 0%float (routeDistances !! id).

(** Distance of a position to one coordinate, in degrees. *)
Definition distance (updateLatitude updateLongitude : float) (coord : Coord.t) : float :=
  Sqrt (Pow_2 (updateLatitude - Coord.Lat coord) + Pow_2 (updateLongitude - Coord.Lng coord))%float.

(** The loop over [route.Coords]: the running minimum, from [+Inf]. *)
Definition nearestDistance (updateLatitude updateLongitude : float) (coords : list Coord.t) : float :=
  fold_left
    (fun nearest coord =>
       let d := distance updateLatitude updateLongitude coord in
       if (d <? nearest)%float then d else nearest)
    coords Inf.

(** [routeDistances[route.ID] = 0] for every route. *)
Definition zeroDistances (routes : list Route.t) : gmap string float :=
  fold_left (fun rd route => <[Route.ID route := 0%float]> rd) routes ∅.

(** The body of the loop over [routes], for one update. *)
Definition scoreRoute (update : Update.t) (routeDistances : gmap string float) (route : Route.t)
    : gmap string float :=
  let id := Route.ID route in
  let routeDistances :=
    if negb (Route.Enabled route)
    then <[id := (dist routeDistances id + Inf)%float]> routeDistances
    else routeDistances in
  let nearest :=
    nearestDistance (Update.Latitude update) (Update.Longitude update) (Route.Coords route) in
  let nearest := if (0.003 <? nearest)%float then (nearest + 50)%float else nearest in
  <[id := (dist routeDistances id + nearest)%float]> routeDistances.

(** The two nested loops: every update against every route. *)
Definition accumulate (routes : list Route.t) (updates : list Update.t)
    (routeDistances : gmap string float) : gmap string float :=
  fold_left (fun rd update => fold_left (scoreRoute update) routes rd) updates routeDistances.

(** The body of the selection loop, on the key and its average. *)
Definition minStep (st : float * string) (entry : string * float) : float * string :=
  let '(minDistance, minRouteID) := st in
  let '(id, distance) := entry in
  if (distance <? minDistance)%float
  then (distance, if (5 <? distance)%float then "" else id)
  else (minDistance, minRouteID).

(** The selection loop over keys and averages in the order of iteration. *)
Definition selectMin (averages : list (string * float)) : float * string :=
  fold_left minStep averages (Inf, "").

(** [routeDistances[id] / float64(len(updates))] for the keys [ids]. *)
Definition averages (routeDistances : gmap string float) (n : nat) (ids : list string)
    : list (string * float) :=
  map (fun id => (id, (dist routeDistances id / float64 n)%float)) ids.

Section WithDatabase.

Context {DB : Type} `{Database DB}.

(** The order in which [range] walks the keys of a map: Go leaves it
    unspecified, so it is a parameter of the model. *)
Variable rangeKeys : gmap string float -> list string.

(** [GuessRouteForVehicle] returns a guess at what route the vehicle is on,
    with what it logs.  [err] is the named result: the error of the updates
    query is what the bare [return] hands back. *)
Definition GuessRouteForVehicle (db : DB) (now : Time) (vehicle : Vehicle.t)
    : Route.t * option error * list Log.entry :=
  let '(routes, err) := GetRoutes db in
  let log := if err is Some e then [Log.Error e] else [] in
  let routeDistances := zeroDistances routes in
  let '(updates, err) :=
    GetUpdatesForVehicleSince db (Vehicle.ID vehicle) (Add now (Minute * -15)) in
  if (List.length updates <? 5)%nat then
    (Route.zero, err,
     log ++ [Log.Debugf "%v has too few recent updates (%d) to guess route."])%list
  else
    let routeDistances := accumulate routes updates routeDistances in
    let '(minDistance, minRouteID) :=
      selectMin (averages routeDistances (List.length updates) (rangeKeys routeDistances)) in
    if String.eqb minRouteID "" then
      (Route.zero, None,
       log ++ [Log.Debugf "%v not on route; distance from nearest: %v"])%list
    else
      let '(route, err) := GetRoute db minRouteID in
      if err is Some e then (route, Some e, log)
      else (route, None, log ++ [Log.Debugf "%v on %s route."])%list.

(** *** One vehicle record *)

Definition state : Type := DB * list Log.entry.

Definition logEntry (e : Log.entry) : task state unit :=
  fun '(db, log) => Next tt (db, log ++ [e])%list.

Definition query {A} (q : DB -> A) : task state A :=
  fun '(db, log) => Next (q db) (db, log).

Definition guessRoute (now : Time) (vehicle : Vehicle.t) : task state (Route.t * option error) :=
  fun '(db, log) =>
    let '(route, err, l) := GuessRouteForVehicle db now vehicle in
    Next (route, err) (db, log ++ l)%list.

Definition createUpdate (u : Update.t) : task state (option error) :=
  fun '(db, log) => let '(db', err) := CreateUpdate db u in Next err (db', log).

Local Open Scope task_scope.

(** The function literal that [update] starts as a goroutine for each
    vehicle record. *)
Definition updateVehicle (now : Time) (vehicleData : string) : task state unit :=
  let* match_ := lift (firstSubmatch dataRegexp vehicleData) in
  let result := namedGroups match_ in
  let vehicleIDStr := Strings.Replace (get result "id") "Vehicle ID:" "" in
  let '(vehicleID, err) := Atoi vehicleIDStr in
  if err is Some e then
    logEntry (Log.WithError e "Unable to parse vehicle ID to int from string.") ;; exit
  else
  let* (vehicle, err) := query (fun db => GetVehicleByITrakID db vehicleID) in
  match err with
  | Some ErrVehicleNotFound =>
      logEntry (Log.Warnf "Unknown iTrak vehicle ID %d. Make sure all vehicles have been added.")
      ;; exit
  | Some e => logEntry (Log.WithError e "Unable to fetch vehicle.") ;; exit
  | None =>
  let '(speedKMH, err) := ParseFloat (Strings.Replace (get result "speed") "spd:" "") in
  if err is Some e then logEntry (Log.Error e) ;; exit else
  let speedMPH := kphToMPH speedKMH in
  let speedMPHString := FormatFloat speedMPH 5 in
  let* (lastUpdate, err) := query (fun db => GetLastUpdateForVehicle db (Vehicle.ID vehicle)) in
  let* gotLastUpdate :=
    match err with
    | None => tret true
    | Some ErrUpdateNotFound => tret false
    | Some e => logEntry (Log.WithError e "Unable to retrieve last update.") ;; exit
    end in
  let itrakTime := Strings.Replace (get result "time") "time:" "" in
  let itrakDate := Strings.Replace (get result "date") "date:" "" in
  let* (timestamp, err) := lift (Timestamp.generateTimestamp itrakTime itrakDate) in
  if err is Some e then
    logEntry (Log.WithError e "Unable to generate update timestamp.") ;; exit
  else
  if gotLastUpdate && Time_eqb (Update.Timestamp lastUpdate) timestamp then exit else
  logEntry (Log.Debugf "Updating %s.") ;;
  let* (route, err) := guessRoute now vehicle in
  if err is Some e then
    logEntry (Log.WithError e "Unable to guess route for vehicle.") ;; exit
  else
  let '(latitude, err) := ParseFloat (Strings.Replace (get result "lat") "lat:" "") in
  (if err is Some e then logEntry (Log.Error e) else tret tt) ;;
  let '(longitude, err) := ParseFloat (Strings.Replace (get result "lng") "lon:" "") in
  (if err is Some e then logEntry (Log.Error e) else tret tt) ;;
  let update :=
    Update.mk 0 (Vehicle.ID vehicle) latitude longitude
      (Strings.Replace (get result "heading") "dir:" "")
      speedMPHString
      (Strings.Replace (get result "lock") "lck:" "")
      timestamp now (Route.ID route) in
  let* err := createUpdate update in
  if err is Some e then logEntry (Log.WithError e "Could not insert vehicle update.")
  else tret tt
  end.

(** *** One polling cycle *)

(** What the HTTP client delivers. *)
Inductive fetch : Type :=
| GetFailed (e : error)
| ReadFailed (e : error)
| Body (body : string).

(** How a cycle ends: normally, or with the process brought down by a
    goroutine that panicked. *)
Inductive run : Type :=
| Crashed (s : state)
| Finished (s : state).

(** The goroutines, and [wg.Wait()].  Go runs them concurrently; here each
    runs to completion before the next starts, in the order they are
    started, which is one of the schedules Go may choose.  A panic in any
    of them is not recovered and ends the process. *)
Fixpoint runAll (now : Time) (vehiclesData : list string) (s : state) : run :=
  match vehiclesData with
  | [] => Finished s
  | vehicleData :: rest =>
      match updateVehicle now vehicleData s with
      | Panicked => Crashed s
      | Returned s' | Next _ s' => runAll now rest s'
      end
  end.

(** The records of a response body: split on the delimiter, drop the last. *)
Definition vehiclesData (body : string) : list string :=
  let parts := Strings.Split body "eof" in
  firstn (List.length parts - 1) parts.

Definition prune (now : Time) (s : state) : state :=
  let '(db, log) := s in
  let '(db', (deleted, err)) := DeleteUpdatesBefore db (AddDate now 0 (-1) 0) in
  if err is Some e then (db', log ++ [Log.WithError e "Unable to remove old updates."])%list
  else if 0 <? deleted then (db', log ++ [Log.Debugf "Removed %d old updates."])%list
  else (db', log).

(** [update]: fetch the feed, store the new records, remove old ones. *)
Definition update (feed : fetch) (now : Time) (db : DB) : run :=
  match feed with
  | GetFailed e => Finished (db, [Log.WithError e "Could not get data feed."])
  | ReadFailed e => Finished (db, [Log.WithError e "Could not read data feed."])
  | Body body =>
      let data := vehiclesData body in
      let log :=
        if (List.length data <=? 1)%nat
        then [Log.Warnf "Found no vehicles delineated by '%s'."] else [] in
      match runAll now data (db, log) with
      | Crashed s => Crashed s
      | Finished (db', log') =>
          Finished (prune now (db', log' ++ [Log.Debugf "Updated vehicles."])%list)
      end
  end.

End WithDatabase.

End Updater.

(** ** Notions used to state the properties *)

Module Spec.
Import Updater GoMath.
Local Open Scope float_scope.

(** [+Inf] and NaN: the values a running sum cannot leave once it holds one
    of them, and that never compare below anything. *)
Definition stuck (x : float) : Prop := x = infinity \/ x = nan.

(** The sign of a float is clear (NaN has none). *)
Definition nonneg_SF (f : spec_float) : Prop :=
  match f with
  | S754_zero s | S754_infinity s | S754_finite s _ _ => s = false
  | S754_nan => True
  end.

(** The two-pass selection of the design notes.  First pass: the minimum
    average over all candidates, with the first key that attains it. *)
Definition findStep (st : float * string) (entry : string * float) : float * string :=
  let '(minDistance, minRouteID) := st in
  let '(id, distance) := entry in
  if distance <? minDistance then (distance, id) else (minDistance, minRouteID).

Definition findMin (averages : list (string * float)) : float * string :=
  fold_left findStep averages (Inf, "").

(** Then the absolute threshold, applied once to the final minimum. *)
Definition twoPass (averages : list (string * float)) : float * string :=
  let '(minDistance, minRouteID) := findMin averages in
  (minDistance, if 5 <? minDistance then "" else minRouteID).

(** The distance of an update to the nearest coordinate of a path, plus 50
    beyond the closeness threshold. *)
Definition capped (route : Route.t) (update : Update.t) : float :=
  let d := nearestDistance (Update.Latitude update) (Update.Longitude update)
             (Route.Coords route) in
  if 0.003 <? d then d + 50 else d.



(** A token made of decimal digits only, and its value. *)
Definition allDigits (s : string) : bool :=
  forallb Strconv.isDigit (list_ascii_of_string s).

Definition decimalStep (n : Z) (c : ascii) : Z := (10 * n + Strconv.digitVal c)%Z.

Definition decimal (s : string) : Z :=
  fold_left decimalStep (list_ascii_of_string s) 0%Z.

(** A record the field grammar matches somewhere. *)
Definition wellFormed (vehicleData : string) : Prop :=
  Regexp.find dataRegexp vehicleData <> None.

(** The text of a named field of a record, its tag removed. *)
Definition fieldOf (vehicleData name tag : string) : string :=
  match Regexp.find dataRegexp vehicleData with
  | Some m => Strings.Replace (get (namedGroups m) name) tag ""
  | None => ""
  end.

(** The update that a well-formed record leads to: what is handed to
    [CreateUpdate] once the vehicle, the speed, the timestamp and the route
    are known.  Latitude and longitude are whatever [ParseFloat] returned,
    error or not. *)
Definition builtUpdate (vehicleData : string) (vehicle : Vehicle.t) (speedKMH : float)
    (timestamp now : GoTime.Time) (route : Route.t) : Update.t :=
  Update.mk 0 (Vehicle.ID vehicle)
    (fst (StrconvFloat.ParseFloat (fieldOf vehicleData "lat" "lat:")))
    (fst (StrconvFloat.ParseFloat (fieldOf vehicleData "lng" "lon:")))
    (fieldOf vehicleData "heading" "dir:")
    (StrconvFloat.FormatFloat (kphToMPH speedKMH) 5)
    (fieldOf vehicleData "lock" "lck:")
    timestamp now (Route.ID route).

(** What the parsing of the position logs: the error of the latitude, then
    the error of the longitude, when there is one. *)
Definition positionLog (vehicleData : string) : list Log.entry :=
  ((if snd (StrconvFloat.ParseFloat (fieldOf vehicleData "lat" "lat:")) is Some e
    then [Log.Error e] else [])
   ++ (if snd (StrconvFloat.ParseFloat (fieldOf vehicleData "lng" "lon:")) is Some e
       then [Log.Error e] else []))%list.


End Spec.

(** ** The records of the feed, as the grammar reads them *)

Module Grammar.
Import Updater.

(** Every byte of a string belongs to a class. *)
Definition over (cls : ascii -> bool) (s : string) : bool :=
  forallb cls (list_ascii_of_string s).

(** A value the grammar accepts in a field: one byte or more, all of them
    of the class of the field. *)
Definition value (cls : ascii -> bool) (v : string) : Prop :=
  v <> "" /\ over cls v = true.

(** The nine values of a record. *)
Record fields : Type := mkFields {
  fID : string;
  fLat : string;
  fLng : string;
  fHeading : string;
  fSpeed : string;
  fLock : string;
  fTime : string;
  fDate : string;
  fStatus : string
}.

Definition admissible (f : fields) : Prop :=
  value digitOrDot (fID f)
  /\ value digitDotOrMinus (fLat f)
  /\ value digitDotOrMinus (fLng f)
  /\ value digitDotOrMinus (fHeading f)
  /\ value digitDotOrMinus (fSpeed f)
  /\ value digitDotOrMinus (fLock f)
  /\ value Strconv.isDigit (fTime f)
  /\ value Strconv.isDigit (fDate f)
  /\ value Strconv.isDigit (fStatus f).

(** The text of a record: the tagged values, one space between them. *)
Definition render (f : fields) : string :=
  "Vehicle ID:" ++ fID f ++ " lat:" ++ fLat f ++ " lon:" ++ fLng f ++ " dir:" ++ fHeading f
    ++ " spd:" ++ fSpeed f ++ " lck:" ++ fLock f ++ " time:" ++ fTime f ++ " date:" ++ fDate f
    ++ " trig:" ++ fStatus f.

End Grammar.

(** ** What a cycle may do to the in-memory store *)

Module Stored.
Import GoTime.

(** [db'] is [db] with the rows [added] appended: the vehicles, the routes
    and the clock as they were, the sequence of ids advanced by one for each
    row; a row carries the next id, the reading of the store's clock as its
    time of creation, and neither lock nor route, which are no columns of
    the table. *)
Definition appended (db db' : MemDB.t) (added : list Update.t) : Prop :=
  MemDB.vehicles db' = MemDB.vehicles db
  /\ MemDB.routes db' = MemDB.routes db
  /\ MemDB.current_timestamp db' = MemDB.current_timestamp db
  /\ MemDB.updates db' = (MemDB.updates db ++ added)%list
  /\ MemDB.nextID db' = MemDB.nextID db + Z.of_nat (List.length added)
  /\ forall (i : nat) (row : Update.t),
       nth_error added i = Some row ->
       Update.ID row = MemDB.nextID db + Z.of_nat i
       /\ Update.Created row = MemDB.current_timestamp db
       /\ Update.Lock row = "" /\ Update.Route row = "".

(** The rows that the pruning at the end of a cycle keeps: those not
    created before the same day of the month before. *)
Definition kept (now : Time) (u : Update.t) : bool :=
  negb (Before (Update.Created u) (AddDate now 0 (-1) 0)).

(** The store after the pruning. *)
Definition pruned (now : Time) (db : MemDB.t) : MemDB.t :=
  MemDB.mk (MemDB.vehicles db) (MemDB.routes db) (List.filter (kept now) (MemDB.updates db))
    (MemDB.nextID db) (MemDB.current_timestamp db).

End Stored.

(** ** Order of creation, and positions that are no numbers *)

Module Ordered.
Import GoTime.

(** [a] was not created before [b]. *)
Definition notOlder (a b : Update.t) : Prop :=
  Before (Update.Created a) (Update.Created b) = false.

End Ordered.

Module Position.
Local Open Scope float_scope.

(** A coordinate that is no number of degrees: an infinity or NaN. *)
Definition nonfinite (x : float) : Prop := x = infinity \/ x = neg_infinity \/ x = nan.

End Position.

(** ** The count of days of [Date] *)

Module Calendar.
Import GoTime.

(** The days before the first of a month, counted from the absolute zero
    year as [Date] counts them. *)
Definition daysTo (year month : Z) : Z :=
  let y := year - absoluteZeroYear in
  let n := y / 400 in
  let y := y - 400 * n in
  let d := daysPer400Years * n in
  let n := y / 100 in
  let y := y - 100 * n in
  let d := d + daysPer100Years * n in
  let n := y / 4 in
  let y := y - 4 * n in
  let d := d + daysPer4Years * n in
  let d := d + 365 * y in
  let d := d + daysBefore (month - 1) in
  if isLeap year && (3 <=? month) then d + 1 else d.

End Calendar.

(** ** Bodies made of records *)

Module Feed.
(** The body that carries the records [records], each followed by the
    delimiter, and then [last]. *)
Definition framed (records : list string) (last : string) : string :=
  fold_right (fun r acc => r ++ "eof" ++ acc) last records.
End Feed.

(** ** A small store and a few records, for the examples *)

Module Example.
Import GoTime.

(** One order in which [range] may walk a map. *)
Definition keys (m : gmap string float) : list string := (map_to_list m).*1.

Definition shuttle : Vehicle.t := Vehicle.mk 7 1831394611 "Shuttle 7" true.

Definition east : Route.t :=
  Route.mk "east" "East Campus" true [Coord.mk 42.731 (-73.67); Coord.mk 42.735 (-73.66)].

(** A disabled route that passes exactly where the shuttle reports. *)
Definition west : Route.t := Route.mk "west" "West Campus" false [Coord.mk 42.73 (-73.67)].

(** A stored update of the shuttle with the event time 09:19:02. *)
Definition seen (id : Z) (created : Time) : Update.t :=
  Update.mk id 7 42.73 (-73.67) "270" "6.52440" "" (Date 2017 11 12 9 19 2 0 UTC) created "".

Definition at_ (h m s : Z) : Time := Date 2017 11 12 h m s 0 UTC.

(** The store before the first sample, after one, and after five. *)
Definition fresh : MemDB.t := MemDB.mk [shuttle] [east; west] [] 1 (at_ 9 19 5).

Definition once : MemDB.t := MemDB.mk [shuttle] [east; west] [seen 1 (at_ 9 19 5)] 2 (at_ 9 19 15).

(** The same store as it would read if the timestamp of the stored update
    came back as the same instant in another location. *)
Definition seenLocal (id : Z) (created : Time) : Update.t :=
  Update.mk id 7 42.73 (-73.67) "270" "6.52440" ""
    (mkTime 0 (ext (Date 2017 11 12 9 19 2 0 UTC)) Local) created "".

Definition onceLocal : MemDB.t :=
  MemDB.mk [shuttle] [east; west] [seenLocal 1 (at_ 9 19 5)] 2 (at_ 9 19 15).

Definition busy : MemDB.t :=
  MemDB.mk [shuttle] [east; west]
    [seen 1 (at_ 9 15 5); seen 2 (at_ 9 16 5); seen 3 (at_ 9 17 5); seen 4 (at_ 9 18 5);
     seen 5 (at_ 9 19 5)]
    6 (at_ 9 19 15).

(** The reading of [time.Now()] during the cycle. *)
Definition now : Time := mkTime 0 (ext (at_ 9 19 16)) Local.

Definition sample (lat time : string) : string :=
  "Vehicle ID:1831394611 lat:" ++ lat ++ " lon:-73.67667 dir:270 spd:10.5 lck:1 time:"
    ++ time ++ " date:11122017 trig:1".

(** The record whose timestamp is stored in [once], one a second earlier and
    one ten seconds later. *)
Definition same : string := sample "42.73043" "91902".
Definition earlier : string := sample "42.73043" "91901".
Definition later : string := sample "42.73043" "91912".

(** A latitude with two minus signs, and one of 310 digits. *)
Definition dashes : string := sample "--" "91912".

Fixpoint zeros (n : nat) : string :=
  match n with
  | O => ""
  | S n' => String "0" (zeros n')
  end.

Definition huge : string := sample ("1" ++ zeros 309) "91912".

(** The rows of the store once a goroutine is over. *)
Definition storedAfter {A} (o : outcome (MemDB.t * list Log.entry) A) : option (list Update.t) :=
  match o with
  | Panicked => None
  | Returned (db, _) | Next _ (db, _) => Some (MemDB.updates db)
  end.

End Example.

(** ** A store behind a failing connection, and more stores and records *)

Module Outage.

(** The in-memory store behind a connection on which some of the queries
    fail: as in [postgres.go], a query that fails answers with the zero
    value or no rows, and the error. *)
Record t : Type := mk {
  store : MemDB.t;
  vehiclesDown : bool;
  lastDown : bool;
  recentDown : bool;
  routesDown : bool
}.

Definition refused : error := ErrOther "dial tcp 127.0.0.1:5432: connect: connection refused".

End Outage.

#[export] Instance Outage_Database : Database Outage.t := {
  GetRoute db := MemDB.getRoute (Outage.store db);
  GetRoutes db :=
    if Outage.routesDown db then ([], Some Outage.refused) else MemDB.getRoutes (Outage.store db);
  GetVehicleByITrakID db itrakID :=
    if Outage.vehiclesDown db then (Vehicle.zero, Some Outage.refused)
    else MemDB.getVehicleByITrakID (Outage.store db) itrakID;
  CreateUpdate db u :=
    let '(s, err) := MemDB.createUpdate (Outage.store db) u in
    (Outage.mk s (Outage.vehiclesDown db) (Outage.lastDown db) (Outage.recentDown db)
       (Outage.routesDown db), err);
  DeleteUpdatesBefore db before :=
    let '(s, r) := MemDB.deleteUpdatesBefore (Outage.store db) before in
    (Outage.mk s (Outage.vehiclesDown db) (Outage.lastDown db) (Outage.recentDown db)
       (Outage.routesDown db), r);
  GetUpdatesForVehicleSince db vehicleID since :=
    if Outage.recentDown db then ([], Some Outage.refused)
    else MemDB.getUpdatesForVehicleSince (Outage.store db) vehicleID since;
  GetLastUpdateForVehicle db vehicleID :=
    if Outage.lastDown db then (Update.zero, Some Outage.refused)
    else MemDB.getLastUpdateForVehicle (Outage.store db) vehicleID
}.

Module Cases.
Import GoTime Example.

(** A record of a vehicle the store does not know. *)
Definition stranger : string :=
  "Vehicle ID:42 lat:42.73043 lon:-73.67667 dir:270 spd:10.5 lck:1 time:91912 date:11122017 trig:1".

(** A record whose vehicle id holds a point. *)
Definition dotted : string :=
  "Vehicle ID:18.3 lat:42.73043 lon:-73.67667 dir:270 spd:10.5 lck:1 time:91912 date:11122017 trig:1".

(** The fields of the record [later]. *)
Definition laterFields : Grammar.fields :=
  Grammar.mkFields "1831394611" "42.73043" "-73.67667" "270" "10.5" "1" "91912" "11122017" "1".

(** The store [once] with the query for the last update failing, and with
    the query for the recent updates failing. *)
Definition lastLost : Outage.t := Outage.mk once false true false false.
Definition recentLost : Outage.t := Outage.mk once false false true false.

(** A store that still holds a row of two months before. *)
Definition stale : MemDB.t :=
  MemDB.mk [shuttle] [east; west]
    [seen 1 (Date 2017 9 12 9 19 5 0 UTC); seen 2 (at_ 9 19 5)] 3 (at_ 9 19 15).

(** Five recent updates, the third with a latitude that is [+Inf]. *)
Definition adrift (id : Z) (created : Time) : Update.t :=
  Update.mk id 7 infinity (-73.67) "270" "6.52440" "" (Date 2017 11 12 9 19 2 0 UTC) created "".

Definition spoiled : MemDB.t :=
  MemDB.mk [shuttle] [east; west]
    [seen 1 (at_ 9 15 5); seen 2 (at_ 9 16 5); adrift 3 (at_ 9 17 5); seen 4 (at_ 9 18 5);
     seen 5 (at_ 9 19 5)]
    6 (at_ 9 19 15).

(** A route without coordinates beside the east route, and no route at all. *)
Definition depot : Route.t := Route.mk "depot" "Depot" true [].

Definition withDepot : MemDB.t :=
  MemDB.mk [shuttle] [depot; east] (MemDB.updates busy) 6 (at_ 9 19 15).

Definition routeless : MemDB.t :=
  MemDB.mk [shuttle] [] (MemDB.updates busy) 6 (at_ 9 19 15).

End Cases.

(** * Properties

    ** Binary64 arithmetic and order *)

Module FloatFacts.
Import Spec.

Ltac cmp_cases :=
  repeat match goal with
  | H : context [Z.compare ?a ?b] |- _ => destruct (Z.compare_spec a b)
  | |- context [Z.compare ?a ?b] => destruct (Z.compare_spec a b)
  | H : context [Pos.compare_cont Eq ?a ?b] |- _ =>
      change (Pos.compare_cont Eq a b) with (Pos.compare a b) in H
  | |- context [Pos.compare_cont Eq ?a ?b] =>
      change (Pos.compare_cont Eq a b) with (Pos.compare a b)
  | H : context [Pos.compare ?a ?b] |- _ => destruct (Pos.compare_spec a b)
  | |- context [Pos.compare ?a ?b] => destruct (Pos.compare_spec a b)
  end.

Ltac sf_order :=
  unfold SFltb, SFeqb, SFcompare;
  repeat match goal with
  | x : spec_float |- _ => destruct x
  | b : bool |- _ => destruct b
  end;
  simpl; try congruence; intros; cmp_cases; simpl in *;
  try congruence; try lia.

Lemma SFltb_trans x y z : SFltb x y = true -> SFltb y z = true -> SFltb x z = true.
Proof. sf_order. Qed.

Lemma SFltb_irrefl x : SFltb x x = false.
Proof. sf_order. Qed.

Lemma SFltb_self x y : SFltb x y = true -> SFeqb x x = true.
Proof. sf_order. Qed.

Lemma SF_total x y :
  SFeqb x x = true -> SFeqb y y = true ->
  SFltb x y = false -> SFltb y x = false -> SFeqb x y = true.
Proof. sf_order. Qed.

Lemma SFeqb_ltb_r x y z : SFeqb x y = true -> SFltb z x = SFltb z y.
Proof. sf_order. Qed.

Lemma SFltb_inf_l y : SFltb (S754_infinity false) y = false.
Proof. sf_order. Qed.

Lemma SFltb_nan_l y : SFltb S754_nan y = false.
Proof. sf_order. Qed.

Local Open Scope float_scope.

Lemma ltb_trans (x y z : float) : (x <? y) = true -> (y <? z) = true -> (x <? z) = true.
Proof. rewrite !FloatAxioms.ltb_spec. apply SFltb_trans. Qed.

Lemma ltb_irrefl (x : float) : (x <? x) = false.
Proof. rewrite FloatAxioms.ltb_spec. apply SFltb_irrefl. Qed.

Lemma ltb_asym (x y : float) : (x <? y) = true -> (y <? x) = false.
Proof.
  intros H. destruct (y <? x) eqn:E; [|reflexivity].
  rewrite <- (ltb_irrefl x). symmetry. exact (ltb_trans _ _ _ H E).
Qed.

(** A float that compares below another is a number. *)
Lemma ltb_number (x y : float) : (x <? y) = true -> (x =? x) = true.
Proof. rewrite FloatAxioms.ltb_spec, FloatAxioms.eqb_spec. apply SFltb_self. Qed.

Lemma ltb_total (x y : float) :
  (x =? x) = true -> (y =? y) = true ->
  (x <? y) = false -> (y <? x) = false -> (x =? y) = true.
Proof. rewrite !FloatAxioms.ltb_spec, !FloatAxioms.eqb_spec. apply SF_total. Qed.

Lemma eqb_ltb_r (x y z : float) : (x =? y) = true -> (z <? x) = (z <? y).
Proof. rewrite !FloatAxioms.ltb_spec, FloatAxioms.eqb_spec. apply SFeqb_ltb_r. Qed.

Lemma Prim2SF_infinity : Prim2SF infinity = S754_infinity false.
Proof. reflexivity. Qed.

Lemma Prim2SF_nan : Prim2SF nan = S754_nan.
Proof. reflexivity. Qed.

Lemma is_infinity_SF (x : float) : Prim2SF x = S754_infinity false -> x = infinity.
Proof. intros E. apply Prim2SF_inj. now rewrite E. Qed.

Lemma is_nan_SF (x : float) : Prim2SF x = S754_nan -> x = nan.
Proof. intros E. apply Prim2SF_inj. now rewrite E. Qed.

Lemma infinity_not_ltb (y : float) : (infinity <? y) = false.
Proof. rewrite FloatAxioms.ltb_spec, Prim2SF_infinity. apply SFltb_inf_l. Qed.

Lemma stuck_SF (x : float) :
  stuck x <-> Prim2SF x = S754_infinity false \/ Prim2SF x = S754_nan.
Proof.
  split.
  - intros [-> | ->]; [left | right]; reflexivity.
  - intros [E | E]; [left; now apply is_infinity_SF | right; now apply is_nan_SF].
Qed.

Lemma stuck_add (x y : float) : stuck x -> stuck (x + y).
Proof.
  rewrite !stuck_SF, FloatAxioms.add_spec.
  intros [-> | ->]; destruct (Prim2SF y) as [ | [] | | ]; simpl; auto.
Qed.

Lemma stuck_add_infinity (x : float) : stuck (x + infinity).
Proof.
  rewrite stuck_SF, FloatAxioms.add_spec, Prim2SF_infinity.
  destruct (Prim2SF x) as [ | [] | | ]; simpl; auto.
Qed.

Lemma stuck_not_ltb (x y : float) : stuck x -> (x <? y) = false.
Proof.
  rewrite stuck_SF, FloatAxioms.ltb_spec.
  intros [-> | ->]; [apply SFltb_inf_l | apply SFltb_nan_l].
Qed.


Lemma binary_normalize_nonneg (z : Z) :
  (0 <= z)%Z -> nonneg_SF (binary_normalize prec emax z 0 false).
Proof.
  intros Hz. unfold binary_normalize. destruct z as [ | p | p]; [reflexivity | | lia].
  unfold binary_round. destruct (shl_align _ _ _) as [mz ez].
  unfold binary_round_aux.
  destruct (shr_fexp _ _ _ _ _) as [mrs e'].
  destruct (shr_fexp _ _ _ _ _) as [mrs'' e''].
  destruct (shr_m mrs''); [reflexivity | destruct (Z.leb _ _); reflexivity | exact I].
Qed.

Lemma stuck_div_of_uint63 (x : float) (k : int) : stuck x -> stuck (x / of_uint63 k).
Proof.
  rewrite !stuck_SF, FloatAxioms.div_spec, FloatAxioms.of_uint63_spec.
  pose proof (binary_normalize_nonneg (to_Z k) (proj1 (to_Z_bounded k))) as Hs.
  intros [-> | ->]; destruct (binary_normalize _ _ _ _ _); simpl in *; subst; auto.
Qed.

End FloatFacts.

(** ** The selection loop *)

Module Selection.
Import Updater Spec GoMath FloatFacts.
Local Open Scope float_scope.

(** The one-pass loop and the first pass of the two-pass design run in
    lockstep: same minimum, and the key of the loop is the key of the scan
    with the threshold applied. *)
Lemma minStep_lockstep (l : list (string * float)) (m : float) (i : string) :
  fold_left minStep l (m, if 5 <? m then "" else i)
  = (let '(m', i') :=
       fold_left findStep l (m, i) in
     (m', if 5 <? m' then "" else i')).
Proof.
  revert m i. induction l as [ | [id d] l IH]; intros m i; [reflexivity | ].
  cbn [fold_left]. unfold minStep at 2, findStep at 2.
  destruct (d <? m); apply IH.
Qed.

Lemma selectMin_twoPass (l : list (string * float)) : selectMin l = twoPass l.
Proof.
  unfold selectMin, twoPass, findMin.
  change (Inf, "") with (Inf, if 5 <? Inf then "" else "") at 1.
  apply minStep_lockstep.
Qed.

(** What the scan for the minimum returns, from any starting value:
    it only moves down, nothing in the list lies below it, and it is either
    the starting value or the average of the key it returns. *)
Lemma findMin_scan (l : list (string * float)) (m0 : float) (i0 : string) :
  let r := fold_left findStep l (m0, i0) in
  ((fst r <? m0) = true \/ fst r = m0)
  /\ (forall id d, In (id, d) l -> (d <? fst r) = false)
  /\ (r = (m0, i0) \/ In (snd r, fst r) l).
Proof.
  revert m0 i0. induction l as [ | [id d] l IH]; intros m0 i0.
  - cbn. repeat split; auto. intros _ _ [].
  - cbn [fold_left].
    replace (findStep (m0, i0) (id, d))
      with (if d <? m0 then (d, id) else (m0, i0)) by reflexivity.
    destruct (d <? m0) eqn:E.
    + specialize (IH d id). cbv zeta in IH |- *.
      set (r := fold_left findStep l (d, id)) in *.
      destruct IH as (Hdown & Hlow & Hin). repeat split.
      * left. destruct Hdown as [H | H]; [exact (ltb_trans _ _ _ H E) | now rewrite H].
      * intros id' d' [[= <- <-] | Hl]; [ | exact (Hlow _ _ Hl)].
        destruct Hdown as [H | H]; [now apply ltb_asym | rewrite H; apply ltb_irrefl].
      * right. destruct Hin as [H | H]; [left; now rewrite H | right; exact H].
    + specialize (IH m0 i0). cbv zeta in IH |- *.
      set (r := fold_left findStep l (m0, i0)) in *.
      destruct IH as (Hdown & Hlow & Hin). repeat split.
      * exact Hdown.
      * intros id' d' [[= <- <-] | Hl]; [ | exact (Hlow _ _ Hl)].
        destruct Hdown as [H | H]; [ | now rewrite H].
        apply not_true_is_false. intros E'.
        rewrite (ltb_trans _ _ _ E' H) in E. discriminate.
      * destruct Hin as [H | H]; [left; exact H | right; right; exact H].
Qed.

Lemma findMin_spec (l : list (string * float)) :
  ((fst (findMin l) <? Inf) = true \/ fst (findMin l) = Inf)
  /\ (forall id d, In (id, d) l -> (d <? fst (findMin l)) = false)
  /\ (findMin l = (Inf, "") \/ In (snd (findMin l), fst (findMin l)) l).
Proof. apply (findMin_scan l Inf ""). Qed.

Lemma findMin_number (l : list (string * float)) : (fst (findMin l) =? fst (findMin l)) = true.
Proof.
  destruct (findMin_spec l) as ([H | ->] & _); [exact (ltb_number _ _ H) | reflexivity].
Qed.

(** The minimum does not depend on the order of iteration. *)
Lemma findMin_perm (l l' : list (string * float)) :
  Permutation l l' -> (fst (findMin l') =? fst (findMin l)) = true.
Proof.
  intros HP.
  assert (Hle : forall a b : list (string * float), Permutation a b ->
            (fst (findMin a) <? fst (findMin b)) = false).
  { intros a b Hab.
    destruct (findMin_spec a) as (_ & _ & [-> | Hin]); [apply infinity_not_ltb | ].
    destruct (findMin_spec b) as (_ & Hlow & _).
    apply (Hlow (snd (findMin a))). eapply Permutation_in; eassumption. }
  apply ltb_total; auto using findMin_number.
  apply Hle. now symmetry.
Qed.

End Selection.

(** ** The accumulation loops *)

Module Scoring.
Import Updater Spec GoMath FloatFacts Selection.
Local Open Scope float_scope.

Lemma dist_insert (rd : gmap string float) (k id : string) (v : float) :
  dist (<[k := v]> rd) id = if decide (k = id) then v else dist rd id.
Proof. unfold dist. rewrite lookup_insert. destruct (decide (k = id)); reflexivity. Qed.

Lemma dist_scoreRoute (update : Update.t) (rd : gmap string float) (route : Route.t) (id : string) :
  dist (scoreRoute update rd route) id
  = if decide (Route.ID route = id)
    then (if Route.Enabled route then dist rd id + capped route update
          else dist rd id + Inf + capped route update)
    else dist rd id.
Proof.
  unfold scoreRoute, capped. cbv zeta. rewrite dist_insert.
  destruct (decide (Route.ID route = id)) as [<- | Hne].
  - destruct (Route.Enabled route); cbn [negb]; [reflexivity | ].
    rewrite dist_insert. now destruct (decide _).
  - destruct (Route.Enabled route); cbn [negb]; [reflexivity | ].
    rewrite dist_insert. now destruct (decide _).
Qed.







(** *** Disabled routes *)

Lemma stuck_scoreRoute (update : Update.t) (rd : gmap string float) (route : Route.t) (id : string) :
  stuck (dist rd id) -> stuck (dist (scoreRoute update rd route) id).
Proof.
  intros Hs. rewrite dist_scoreRoute. destruct (decide _); [ | exact Hs].
  destruct (Route.Enabled route); repeat apply stuck_add; exact Hs.
Qed.

Lemma stuck_scoreRoute_disabled (update : Update.t) (rd : gmap string float) (route : Route.t) :
  Route.Enabled route = false ->
  stuck (dist (scoreRoute update rd route) (Route.ID route)).
Proof.
  intros Hd. rewrite dist_scoreRoute, Hd. destruct (decide _) as [_ | []]; [ | reflexivity].
  apply stuck_add, stuck_add_infinity.
Qed.

Lemma stuck_routes (update : Update.t) (routes : list Route.t) (rd : gmap string float) (id : string) :
  stuck (dist rd id) \/ (exists r, In r routes /\ Route.ID r = id /\ Route.Enabled r = false) ->
  stuck (dist (fold_left (scoreRoute update) routes rd) id).
Proof.
  revert rd. induction routes as [ | r1 routes IH]; intros rd H.
  - destruct H as [H | (r & [] & _)]. exact H.
  - cbn [fold_left]. apply IH. destruct H as [H | (r & [<- | Hin] & Hid & Hd)].
    + left. now apply stuck_scoreRoute.
    + left. subst id. now apply stuck_scoreRoute_disabled.
    + right. exists r. auto.
Qed.

Lemma stuck_accumulate (routes : list Route.t) (updates : list Update.t)
    (rd : gmap string float) (r : Route.t) :
  updates <> [] -> In r routes -> Route.Enabled r = false ->
  stuck (dist (accumulate routes updates rd) (Route.ID r)).
Proof.
  intros Hne Hin Hd. unfold accumulate.
  assert (Hkeep : forall us rd', stuck (dist rd' (Route.ID r)) ->
            stuck (dist (fold_left (fun rd update => fold_left (scoreRoute update) routes rd)
                           us rd') (Route.ID r))).
  { induction us as [ | u us IH]; intros rd' Hs; [exact Hs | ].
    cbn [fold_left]. apply IH, stuck_routes. now left. }
  destruct updates as [ | u updates]; [contradiction | ].
  cbn [fold_left]. apply Hkeep, stuck_routes. right. exists r. auto.
Qed.

Lemma averages_In (rd : gmap string float) (n : nat) (ids : list string) (id : string) (d : float) :
  In (id, d) (averages rd n ids) -> d = dist rd id / float64 n.
Proof.
  unfold averages. rewrite in_map_iff. intros (id' & [= <- <-] & _). reflexivity.
Qed.

(** A key that [selectMin] returns carries an average below [+Inf]. *)
Lemma selectMin_key (l : list (string * float)) :
  snd (selectMin l) <> "" ->
  In (snd (selectMin l), fst (selectMin l)) l /\ (fst (selectMin l) <? Inf) = true.
Proof.
  rewrite selectMin_twoPass. unfold twoPass.
  destruct (findMin_spec l) as (Hdown & _ & Hin).
  destruct (findMin l) as [m i]. cbn [fst snd] in *.
  destruct (5 <? m) eqn:E; [congruence | ]. intros _.
  destruct Hdown as [H | ->]; [ | discriminate E].
  split; [ | exact H]. destruct Hin as [[= -> ->] | Hin]; [discriminate E | exact Hin].
Qed.

End Scoring.

(** ** Route guessing *)

Section GuessRoute.
Import Updater Spec GoMath GoTime FloatFacts Selection Scoring.
Local Open Scope float_scope.

Context {DB : Type} `{Database DB}.
Variable rangeKeys : gmap string float -> list string.

(** C5.  With fewer than five updates in the last fifteen minutes the guess
    is the empty route and a nil error, whatever the positions and the
    routes are: nothing is scored, and the only thing logged besides a
    failure to list the routes is the debug line about too few updates. *)
Theorem too_few_updates_no_route (db : DB) (now : Time) (vehicle : Vehicle.t)
    (updates : list Update.t) :
  GetUpdatesForVehicleSince db (Vehicle.ID vehicle) (Add now (Minute * -15)) = (updates, None) ->
  (List.length updates < 5)%nat ->
  GuessRouteForVehicle rangeKeys db now vehicle
  = (Route.zero, None,
     (if snd (GetRoutes db) is Some e then [Log.Error e] else [])
       ++ [Log.Debugf "%v has too few recent updates (%d) to guess route."])%list.
Proof.
  intros Hq Hlen. unfold GuessRouteForVehicle.
  destruct (GetRoutes db) as [routes err]. rewrite Hq. cbn [snd].
  apply Nat.ltb_lt in Hlen. rewrite Hlen. reflexivity.
Qed.

(** C7.  Whatever the store holds, a route that [GuessRouteForVehicle] looks
    up carries a key that no disabled route of the route list has: the
    result is the empty route, or what [GetRoute] answers for such a key. *)
Theorem disabled_route_never_selected (db : DB) (now : Time) (vehicle : Vehicle.t)
    (route : Route.t) (err : option error) (log : list Log.entry) :
  GuessRouteForVehicle rangeKeys db now vehicle = (route, err, log) ->
  route = Route.zero
  \/ exists id, id <> "" /\ GetRoute db id = (route, err)
       /\ forall r, In r (fst (GetRoutes db)) -> Route.ID r = id -> Route.Enabled r = true.
Proof.
  unfold GuessRouteForVehicle.
  destruct (GetRoutes db) as [routes e1]. cbn [fst].
  destruct (GetUpdatesForVehicleSince _ _ _) as [updates e2].
  destruct (List.length updates <? 5)%nat eqn:Hlen; [intros [= <- _ _]; now left | ].
  set (rd := accumulate routes updates (zeroDistances routes)).
  set (l := averages rd (List.length updates) (rangeKeys rd)).
  pose proof (selectMin_key l) as Hkey.
  destruct (selectMin l) as [minDistance minRouteID]. cbn [fst snd] in Hkey.
  destruct (String.eqb minRouteID "") eqn:Hid; [intros [= <- _ _]; now left | ].
  apply String.eqb_neq in Hid. destruct (Hkey Hid) as [Hin Hlt].
  intros Hres. right. exists minRouteID. repeat split; [exact Hid | | ].
  - destruct (GetRoute db minRouteID) as [route' [e | ]]; now inversion Hres.
  - intros r Hr Hrid. destruct (Route.Enabled r) eqn:Hen; [reflexivity | exfalso].
    assert (Hs : stuck minDistance).
    { rewrite (averages_In _ _ _ _ _ Hin). apply stuck_div_of_uint63.
      rewrite <- Hrid. apply stuck_accumulate; auto.
      intros ->. discriminate Hlen. }
    rewrite (stuck_not_ltb _ _ Hs) in Hlt. discriminate.
Qed.


End GuessRoute.

Section Scores.
Import Updater Spec GoMath GoTime FloatFacts Selection Scoring.
Local Open Scope float_scope.

(** C8.  The one-pass loop returns what the two-pass selection returns.  Its
    minimum is a lower bound of all averages; above 5 (in particular when no
    average compares below [+Inf]) the key is empty, otherwise the key is one
    whose average is the minimum; and the minimum and the threshold test come
    out the same for every order of iteration. *)
Theorem selectMin_is_two_pass (averages : list (string * float)) :
  selectMin averages = twoPass averages
  /\ (forall id d, In (id, d) averages -> (d <? fst (selectMin averages)) = false)
  /\ ((5 <? fst (selectMin averages)) = true -> snd (selectMin averages) = "")
  /\ ((5 <? fst (selectMin averages)) = false ->
        In (snd (selectMin averages), fst (selectMin averages)) averages)
  /\ ((forall id d, In (id, d) averages -> (d <? Inf) = false) ->
        selectMin averages = (Inf, ""))
  /\ (forall averages', Permutation averages averages' ->
        (fst (selectMin averages') =? fst (selectMin averages)) = true
        /\ (5 <? fst (selectMin averages')) = (5 <? fst (selectMin averages))).
Proof.
  assert (Hfst : forall l, fst (selectMin l) = fst (findMin l)).
  { intros l. rewrite selectMin_twoPass. unfold twoPass. now destruct (findMin l). }
  split; [apply selectMin_twoPass | ].
  rewrite Hfst.
  destruct (findMin_spec averages) as (Hdown & Hlow & Hin).
  rewrite selectMin_twoPass. unfold twoPass.
  destruct (findMin averages) as [m i] eqn:Hfm. cbn [fst snd] in *.
  repeat split.
  - exact Hlow.
  - now intros ->.
  - intros E. rewrite E. destruct Hin as [[= -> ->] | Hin]; [discriminate E | exact Hin].
  - intros Hnone. destruct Hin as [[= -> ->] | Hin]; [reflexivity | ].
    destruct Hdown as [Hlt | ->]; [ | reflexivity].
    rewrite (Hnone _ _ Hin) in Hlt. discriminate.
  - rewrite Hfst. replace m with (fst (findMin averages)) by now rewrite Hfm.
    now apply findMin_perm.
  - rewrite Hfst. apply eqb_ltb_r.
    replace m with (fst (findMin averages)) by now rewrite Hfm.
    now apply findMin_perm.
Qed.

End Scores.

(** ** Tokens of decimal digits *)

Module Tokens.
Import Strconv Spec GoTime Timestamp.

Lemma isDigit_spec (c : ascii) :
  isDigit c = true ->
  Ascii.eqb c "-" = false /\ Ascii.eqb c "+" = false /\ 0 <= digitVal c <= 9.
Proof.
  destruct c as [[] [] [] [] [] [] [] []]; cbv; intros H;
    (discriminate H || (repeat split; congruence)).
Qed.

Lemma allDigits_cons (c : ascii) (s : string) :
  allDigits (String c s) = true <-> isDigit c = true /\ allDigits s = true.
Proof. unfold allDigits. cbn. apply andb_true_iff. Qed.

Lemma digits_fold (s : string) (acc : Z) :
  allDigits s = true ->
  digits acc s = Some (fold_left decimalStep (list_ascii_of_string s) acc).
Proof.
  revert acc. induction s as [ | c s IH]; intros acc Hd; [reflexivity | ].
  apply allDigits_cons in Hd as [Hc Hs]. cbn. rewrite Hc. now apply IH.
Qed.

Lemma fold_step_bound (s : string) (acc : Z) :
  allDigits s = true -> 0 <= acc ->
  0 <= fold_left decimalStep (list_ascii_of_string s) acc
    < (acc + 1) * 10 ^ Z.of_nat (String.length s).
Proof.
  revert acc. induction s as [ | c s IH]; intros acc Hd Hacc.
  - cbn. lia.
  - apply allDigits_cons in Hd as [Hc Hs]. apply isDigit_spec in Hc as (_ & _ & Hc).
    cbn [list_ascii_of_string fold_left String.length].
    assert (Hstep : 0 <= decimalStep acc c) by (unfold decimalStep; lia).
    specialize (IH (decimalStep acc c) Hs Hstep).
    rewrite Nat2Z.inj_succ, Z.pow_succ_r by lia.
    assert (Hpos : 0 < 10 ^ Z.of_nat (String.length s)) by (apply Z.pow_pos_nonneg; lia).
    assert (Hle : (decimalStep acc c + 1) * 10 ^ Z.of_nat (String.length s)
                  <= (10 * (acc + 1)) * 10 ^ Z.of_nat (String.length s))
      by (apply Z.mul_le_mono_nonneg_r; unfold decimalStep; lia).
    lia.
Qed.

Lemma decimal_fold (s : string) : fold_left decimalStep (list_ascii_of_string s) 0 = decimal s.
Proof. reflexivity. Qed.

Lemma decimal_bound (s : string) :
  allDigits s = true -> 0 <= decimal s < 10 ^ Z.of_nat (String.length s).
Proof.
  intros Hd. pose proof (fold_step_bound s 0 Hd ltac:(lia)) as H.
  rewrite decimal_fold in H. lia.
Qed.

(** [Atoi] on a token of one to eighteen digits: its decimal value, no error. *)
Lemma Atoi_digits (s : string) :
  s <> "" -> allDigits s = true -> (String.length s <= 18)%nat ->
  Atoi s = (decimal s, None).
Proof.
  intros Hne Hd Hlen. pose proof (decimal_bound s Hd) as Hb.
  assert (Hpow : 10 ^ Z.of_nat (String.length s) <= 10 ^ 18)
    by (apply Z.pow_le_mono_r; lia).
  destruct s as [ | c s]; [contradiction | ].
  pose proof Hd as Hd'. apply allDigits_cons in Hd' as [Hc _].
  apply isDigit_spec in Hc as (Hm & Hp & _).
  unfold Atoi. rewrite Hm, Hp. cbn [orb negb andb].
  rewrite (digits_fold _ 0 Hd), decimal_fold.
  replace (2 ^ 63 <=? decimal (String c s)) with false by (symmetry; apply Z.leb_gt; lia).
  reflexivity.
Qed.

Lemma allDigits_substring (a b : nat) (s : string) :
  allDigits s = true -> allDigits (String.substring a b s) = true.
Proof.
  revert a b. induction s as [ | c s IH]; intros a b Hs.
  - destruct a, b; exact Hs.
  - apply allDigits_cons in Hs as [Hc Hs]. destruct a as [ | a].
    + destruct b as [ | b]; [reflexivity | ]. cbn [String.substring].
      apply allDigits_cons. split; [exact Hc | now apply IH].
    + cbn [String.substring]. now apply IH.
Qed.

Lemma length_substring_le (a b : nat) (s : string) :
  (String.length (String.substring a b s) <= b)%nat.
Proof.
  revert a b. induction s as [ | c s IH]; intros a b.
  - destruct a, b; cbn; lia.
  - destruct a as [ | a].
    + destruct b as [ | b]; cbn [String.substring String.length]; [lia | ].
      specialize (IH 0%nat b). lia.
    + cbn [String.substring]. apply IH.
Qed.

(** The month that [AddDate] and [Month] make of a month number. *)
Lemma Month_of_number (m : Z) :
  1 <= m <= 12 -> Month (AddDate zeroTime 0 (Int64.i64 (m - 1)) 0) = m.
Proof.
  intros Hm.
  assert (Hcases : m = 1 \/ m = 2 \/ m = 3 \/ m = 4 \/ m = 5 \/ m = 6 \/ m = 7 \/ m = 8
            \/ m = 9 \/ m = 10 \/ m = 11 \/ m = 12) by lia.
  repeat (destruct Hcases as [-> | Hcases]; [vm_compute; reflexivity | ]).
  subst m. vm_compute. reflexivity.
Qed.

End Tokens.

(** ** The clock reading of a date *)

Module ClockFacts.
Import GoTime Int64.

Lemma norm_id (hi lo base : Z) : 0 <= lo < base -> norm hi lo base = (hi, lo).
Proof.
  intros Hlo. unfold norm.
  replace (lo <? 0) with false by (symmetry; apply Z.ltb_ge; lia).
  replace (base <=? lo) with false by (symmetry; apply Z.leb_gt; lia).
  reflexivity.
Qed.

Lemma u64_i64_add (x y : Z) : u64 (i64 x + y) = u64 (x + y).
Proof. unfold u64, i64. change (2 ^ 64) with 18446744073709551616. change (2 ^ 63) with 9223372036854775808. Z.div_mod_to_equations. lia. Qed.

Lemma u64_small (x : Z) : 0 <= x < 2 ^ 64 -> u64 x = x.
Proof. intros Hx. unfold u64. now apply Z.mod_small. Qed.

Lemma i64_small (x : Z) : - 2 ^ 63 <= x < 2 ^ 63 -> i64 x = x.
Proof. intros Hx. unfold i64. rewrite Z.mod_small; lia. Qed.

Lemma daysBefore_bound (m : Z) : 0 <= daysBefore m <= 365.
Proof.
  unfold daysBefore.
  destruct (Z.to_nat m) as [ | [ | [ | [ | [ | [ | [ | [ | [ | [ | [ | [ | [ | [ | n]]]]]]]]]]]]]];
    cbn; lia.
Qed.

(** The clock reading of a date built from in-range fields is the hour,
    minute and second that went in. *)
Lemma Clock_Date (year month day hour min sec : Z) :
  0 <= year <= 9999 -> 1 <= month <= 12 -> 0 <= day <= 99 ->
  0 <= hour < 24 -> 0 <= min < 60 -> 0 <= sec < 60 ->
  Clock (Date year month day hour min sec 0 UTC) = (hour, min, sec)
  /\ loc (Date year month day hour min sec 0 UTC) = UTC.
Proof.
  intros Hy Hm Hd Hh Hmi Hs.
  unfold Clock, abs, Date.
  rewrite (i64_small (month - 1)) by lia.
  rewrite (norm_id year (month - 1) 12) by lia.
  rewrite (norm_id sec 0 1000000000) by lia.
  rewrite (norm_id min sec 60) by lia.
  rewrite (norm_id hour min 60) by lia.
  rewrite (norm_id day hour 24) by lia.
  cbv zeta. cbn [wall ext loc]. split; [ | reflexivity].
  replace (month - 1 + 1) with month by lia.
  rewrite (u64_small (year - absoluteZeroYear)) by (unfold absoluteZeroYear; lia).
  pose proof (daysBefore_bound (month - 1)) as Hdb.
  set (y0 := year - absoluteZeroYear).
  assert (Hy0 : 292277022399 <= y0 <= 292277032398) by (unfold y0, absoluteZeroYear; lia).
  set (dsum := (if isLeap year && (3 <=? month)
                then daysPer400Years * (y0 / 400)
                     + daysPer100Years * ((y0 - 400 * (y0 / 400)) / 100)
                     + daysPer4Years
                       * ((y0 - 400 * (y0 / 400) - 100 * ((y0 - 400 * (y0 / 400)) / 100)) / 4)
                     + 365 * (y0 - 400 * (y0 / 400) - 100 * ((y0 - 400 * (y0 / 400)) / 100)
                              - 4 * ((y0 - 400 * (y0 / 400)
                                      - 100 * ((y0 - 400 * (y0 / 400)) / 100)) / 4))
                     + daysBefore (month - 1) + 1
                else daysPer400Years * (y0 / 400)
                     + daysPer100Years * ((y0 - 400 * (y0 / 400)) / 100)
                     + daysPer4Years
                       * ((y0 - 400 * (y0 / 400) - 100 * ((y0 - 400 * (y0 / 400)) / 100)) / 4)
                     + 365 * (y0 - 400 * (y0 / 400) - 100 * ((y0 - 400 * (y0 / 400)) / 100)
                              - 4 * ((y0 - 400 * (y0 / 400)
                                      - 100 * ((y0 - 400 * (y0 / 400)) / 100)) / 4))
                     + daysBefore (month - 1))).
  assert (Hdsum : 100000000000000 <= dsum <= 110000000000000).
  { subst dsum. unfold daysPer400Years, daysPer100Years, daysPer4Years.
    destruct (isLeap year && (3 <=? month)); Z.div_mod_to_equations; lia. }
  rewrite (u64_small (dsum + (day - 1))) by lia.
  unfold secondsPerDay, secondsPerHour, secondsPerMinute.
  rewrite (u64_small ((dsum + (day - 1)) * 86400)) by lia.
  rewrite (u64_small ((dsum + (day - 1)) * 86400 + _)) by lia.
  rewrite u64_i64_add, <- Z.add_assoc, u64_i64_add.
  unfold internalToAbsolute, internalToUnix. unfold absoluteToInternal, unixToInternal.
  rewrite u64_small by lia.
  unfold absClock, secondsPerDay, secondsPerHour, secondsPerMinute.
  set (t := hour * 3600 + min * 60 + sec).
  cbv zeta.
  match goal with
  | |- context [?a mod 86400] =>
      replace a with (t + (dsum + (day - 1)) * 86400) by lia
  end.
  rewrite Z.mod_add by lia. rewrite (Z.mod_small t) by (subst t; lia). subst t.
  assert (Hq1 : (hour * 3600 + min * 60 + sec) / 3600 = hour)
    by (symmetry; apply (Z.div_unique _ _ _ (min * 60 + sec)); lia).
  rewrite Hq1.
  replace (hour * 3600 + min * 60 + sec - hour * 3600) with (min * 60 + sec) by lia.
  assert (Hq2 : (min * 60 + sec) / 60 = min)
    by (symmetry; apply (Z.div_unique _ _ _ sec); lia).
  rewrite Hq2. f_equal. lia.
Qed.

End ClockFacts.

Section GenerateTimestamp.
Import Strconv Spec GoTime Timestamp Tokens ClockFacts.

Ltac split_digits H :=
  repeat match type of H with
  | allDigits (String _ _) = true =>
      let Hc := fresh "Hc" in apply allDigits_cons in H as [Hc H]
  end.

Ltac atoi :=
  rewrite Atoi_digits;
  [ | discriminate
    | repeat (apply allDigits_cons; split; [assumption | ]); reflexivity
    | cbn; lia ].

(** The value [generateTimestamp] returns on tokens of digits. *)
Lemma generateTimestamp_digits (itrakTime itrakDate : string) :
  allDigits itrakDate = true -> String.length itrakDate = 8%nat ->
  allDigits itrakTime = true ->
  (String.length itrakTime = 5 \/ String.length itrakTime = 6)%nat ->
  1 <= decimal (String.substring 0 2 itrakDate) <= 12 ->
  let n := String.length itrakTime in
  generateTimestamp itrakTime itrakDate
  = Ret (Date (decimal (String.substring 4 4 itrakDate))
              (decimal (String.substring 0 2 itrakDate))
              (decimal (String.substring 2 2 itrakDate))
              (decimal (String.substring 0 (n - 4) itrakTime))
              (decimal (String.substring (n - 4) 2 itrakTime))
              (decimal (String.substring (n - 2) 2 itrakTime))
              0 UTC,
         None).
Proof.
  intros HD HlenD HT HlenT Hmonth n. subst n.
  destruct itrakDate as [ | c1 [ | c2 [ | c3 [ | c4 [ | c5 [ | c6 [ | c7 [ | c8 [ | ? ?]]]]]]]]];
    try discriminate HlenD. clear HlenD.
  split_digits HD.
  cbn [String.substring] in Hmonth |- *.
  unfold generateTimestamp.
  change (Strings.slice _ 2 4) with (Ret (String c3 (String c4 ""))).
  change (Strings.slice _ 4 8)
    with (Ret (String c5 (String c6 (String c7 (String c8 ""))))).
  change (Strings.slice _ 0 2) with (Ret (String c1 (String c2 ""))).
  cbn [go_bind]. do 3 atoi. rewrite Month_of_number by exact Hmonth.
  destruct HlenT as [HlenT | HlenT].
  + destruct itrakTime as [ | t1 [ | t2 [ | t3 [ | t4 [ | t5 [ | ? ?]]]]]];
      try discriminate HlenT. clear HlenT.
    split_digits HT.
    change (Strings.slice _ 0 _) with (Ret (String t1 "")).
    change (Strings.slice _ _ (_ - 2)) with (Ret (String t2 (String t3 ""))).
    change (Strings.slice _ _ _) with (Ret (String t4 (String t5 ""))).
    cbn [go_bind]. do 3 atoi. reflexivity.
  + destruct itrakTime as [ | t1 [ | t2 [ | t3 [ | t4 [ | t5 [ | t6 [ | ? ?]]]]]]];
      try discriminate HlenT. clear HlenT.
    split_digits HT.
    change (Strings.slice _ 0 _) with (Ret (String t1 (String t2 ""))).
    change (Strings.slice _ _ (_ - 2)) with (Ret (String t3 (String t4 ""))).
    change (Strings.slice _ _ _) with (Ret (String t5 (String t6 ""))).
    cbn [go_bind]. do 3 atoi. reflexivity.
Qed.


(** C3.  The two tokens of the repository's test map to 2017-11-12T09:19:02Z
    and 2020-01-01T22:01:20Z; and for every date token of eight digits with
    a month from 01 to 12 and every time token of five or six digits the
    result is, with a nil error, the UTC time [Date] builds from the year,
    month and day of the date token, the last two pairs of digits of the
    time token as minute and second and the digits before them as hour:
    a time in UTC whose clock reads that hour, minute and second whenever
    they are below 24, 60 and 60. *)
Theorem generateTimestamp_digit_tokens :
  (exists t, generateTimestamp "91902" "11122017" = Ret (t, None)
     /\ t = Date 2017 11 12 9 19 2 0 UTC /\ Unix t = 1510478342
     /\ DateOf t = (2017, 11, 12) /\ Clock t = (9, 19, 2) /\ loc t = UTC)
  /\ (exists t, generateTimestamp "220120" "01012020" = Ret (t, None)
     /\ t = Date 2020 1 1 22 1 20 0 UTC /\ Unix t = 1577916080
     /\ DateOf t = (2020, 1, 1) /\ Clock t = (22, 1, 20) /\ loc t = UTC)
  /\ forall itrakTime itrakDate : string,
       allDigits itrakDate = true -> String.length itrakDate = 8%nat ->
       allDigits itrakTime = true ->
       (String.length itrakTime = 5 \/ String.length itrakTime = 6)%nat ->
       1 <= decimal (String.substring 0 2 itrakDate) <= 12 ->
       let n := String.length itrakTime in
       let year := decimal (String.substring 4 4 itrakDate) in
       let month := decimal (String.substring 0 2 itrakDate) in
       let day := decimal (String.substring 2 2 itrakDate) in
       let hour := decimal (String.substring 0 (n - 4) itrakTime) in
       let minute := decimal (String.substring (n - 4) 2 itrakTime) in
       let second := decimal (String.substring (n - 2) 2 itrakTime) in
       exists t,
         generateTimestamp itrakTime itrakDate = Ret (t, None)
         /\ t = Date year month day hour minute second 0 UTC
         /\ loc t = UTC
         /\ (hour < 24 -> minute < 60 -> second < 60 -> Clock t = (hour, minute, second)).
Proof.
  split; [ | split].
  - eexists. split; [vm_compute; reflexivity | ]. repeat split; vm_compute; reflexivity.
  - eexists. split; [vm_compute; reflexivity | ]. repeat split; vm_compute; reflexivity.
  - intros itrakTime itrakDate HD HlenD HT HlenT Hmonth n year month day hour minute second.
    eexists. split; [now apply generateTimestamp_digits | ]. split; [reflexivity | ].
    assert (Hsub : forall a b s, allDigits s = true ->
              0 <= decimal (String.substring a b s) < 10 ^ Z.of_nat b).
    { intros a b s Hs.
      pose proof (decimal_bound _ (allDigits_substring a b s Hs)) as Hb.
      pose proof (length_substring_le a b s) as Hl.
      assert (10 ^ Z.of_nat (String.length (String.substring a b s)) <= 10 ^ Z.of_nat b)
        by (apply Z.pow_le_mono_r; lia).
      lia. }
    pose proof (Hsub 4 4 itrakDate HD)%nat as Hy.
    pose proof (Hsub 2 2 itrakDate HD)%nat as Hd.
    pose proof (Hsub 0 (n - 4) itrakTime HT)%nat as Hh.
    pose proof (Hsub (n - 4) 2 itrakTime HT)%nat as Hmi.
    pose proof (Hsub (n - 2) 2 itrakTime HT)%nat as Hs.
    fold year in Hy. fold day in Hd. fold hour in Hh. fold minute in Hmi. fold second in Hs.
    change (10 ^ Z.of_nat 4) with 10000 in Hy. change (10 ^ Z.of_nat 2) with 100 in Hd.
    assert (Hclock : hour < 24 -> minute < 60 -> second < 60 ->
              Clock (Date year month day hour minute second 0 UTC) = (hour, minute, second)
              /\ loc (Date year month day hour minute second 0 UTC) = UTC)
      by (intros; apply Clock_Date; lia).
    split; [ | intros H1 H2 H3; now apply Hclock].
    unfold Date. repeat match goal with |- context [norm ?a ?b ?c] => destruct (norm a b c) end.
    reflexivity.
Qed.

End GenerateTimestamp.

(** ** One vehicle record *)

Section OneRecord.
Import Updater Spec GoMath GoTime Strconv StrconvFloat Timestamp Regexp.

Context {DB : Type} `{Database DB}.
Variable rangeKeys : gmap string float -> list string.

(** A record the grammar does not match makes the goroutine panic. *)
Lemma updateVehicle_malformed (now : Time) (vehicleData : string) (s : state) :
  ~ wellFormed vehicleData -> updateVehicle rangeKeys now vehicleData s = Panicked.
Proof.
  unfold wellFormed, updateVehicle, tbind, lift, firstSubmatch. intros Hm.
  destruct (find dataRegexp vehicleData); [exfalso; apply Hm; discriminate | reflexivity].
Qed.

(** The path of a well-formed record of a known vehicle up to the stored
    update: dropped when its timestamp is that of the last update, handed to
    [CreateUpdate] otherwise, unless the route guess fails. *)
Lemma updateVehicle_known (now : Time) (vehicleData : string) (db : DB) (log : list Log.entry)
    (vehicleID : Z) (vehicle : Vehicle.t) (speedKMH : float)
    (lastUpdate : Update.t) (elast : option error) (timestamp : Time) :
  wellFormed vehicleData ->
  Atoi (fieldOf vehicleData "id" "Vehicle ID:") = (vehicleID, None) ->
  GetVehicleByITrakID db vehicleID = (vehicle, None) ->
  ParseFloat (fieldOf vehicleData "speed" "spd:") = (speedKMH, None) ->
  GetLastUpdateForVehicle db (Vehicle.ID vehicle) = (lastUpdate, elast) ->
  elast = None \/ elast = Some ErrUpdateNotFound ->
  generateTimestamp (fieldOf vehicleData "time" "time:") (fieldOf vehicleData "date" "date:")
  = Ret (timestamp, None) ->
  updateVehicle rangeKeys now vehicleData (db, log)
  = if (if elast is None then true else false)
       && Time_eqb (Update.Timestamp lastUpdate) timestamp
    then Returned (db, log)
    else
      let '(route, err, l) := GuessRouteForVehicle rangeKeys db now vehicle in
      match err with
      | Some e =>
          Returned (db, (log ++ [Log.Debugf "Updating %s."] ++ l
                           ++ [Log.WithError e "Unable to guess route for vehicle."])%list)
      | None =>
          let '(db', e) :=
            CreateUpdate db (builtUpdate vehicleData vehicle speedKMH timestamp now route) in
          Next tt
            (db', (log ++ [Log.Debugf "Updating %s."] ++ l ++ positionLog vehicleData
                     ++ (if e is Some e' then [Log.WithError e' "Could not insert vehicle update."]
                         else []))%list)
      end.
Proof.
  unfold wellFormed, builtUpdate, positionLog, fieldOf.
  destruct (find dataRegexp vehicleData) as [m | ] eqn:Hfind; [ | intros []; reflexivity].
  intros _ Hid Hveh Hspd Hlast Helast Hts.
  unfold updateVehicle, firstSubmatch. rewrite Hfind.
  unfold tbind at 1. unfold lift at 1. cbv zeta.
  rewrite Hid. unfold tbind at 1. unfold query at 1. rewrite Hveh.
  rewrite Hspd. unfold tbind at 1. unfold query at 1. rewrite Hlast.
  assert (Htail : forall gotLastUpdate : bool,
    (let* pat := lift (generateTimestamp
                         (Strings.Replace (get (namedGroups m) "time") "time:" "")
                         (Strings.Replace (get (namedGroups m) "date") "date:" "")) in
     match pat with
     | (timestamp0, Some e) =>
         logEntry (Log.WithError e "Unable to generate update timestamp.");; exit
     | (timestamp0, None) =>
         if gotLastUpdate && Time_eqb (Update.Timestamp lastUpdate) timestamp0 then exit
         else
           logEntry (Log.Debugf "Updating %s.");;
           let* pat0 := guessRoute rangeKeys now vehicle in
           match pat0 with
           | (route, Some e) =>
               logEntry (Log.WithError e "Unable to guess route for vehicle.");; exit
           | (route, None) =>
               let '(latitude, err1) :=
                 ParseFloat (Strings.Replace (get (namedGroups m) "lat") "lat:" "") in
               (if err1 is Some e then logEntry (Log.Error e) else tret ());;
               let '(longitude, err2) :=
                 ParseFloat (Strings.Replace (get (namedGroups m) "lng") "lon:" "") in
               (if err2 is Some e then logEntry (Log.Error e) else tret ());;
               let* err3 :=
                 createUpdate
                   (Update.mk 0 (Vehicle.ID vehicle) latitude longitude
                      (Strings.Replace (get (namedGroups m) "heading") "dir:" "")
                      (FormatFloat (kphToMPH speedKMH) 5)
                      (Strings.Replace (get (namedGroups m) "lock") "lck:" "")
                      timestamp0 now (Route.ID route)) in
               if err3 is Some e
               then logEntry (Log.WithError e "Could not insert vehicle update.")
               else tret ()
           end
     end)%task (db, log)
    = if gotLastUpdate && Time_eqb (Update.Timestamp lastUpdate) timestamp
      then Returned (db, log)
      else
        let '(route, err, l) := GuessRouteForVehicle rangeKeys db now vehicle in
        match err with
        | Some e =>
            Returned (db, (log ++ [Log.Debugf "Updating %s."] ++ l
                             ++ [Log.WithError e "Unable to guess route for vehicle."])%list)
        | None =>
            let '(db', e) :=
              CreateUpdate db
                (Update.mk 0 (Vehicle.ID vehicle)
                   (fst (ParseFloat (Strings.Replace (get (namedGroups m) "lat") "lat:" "")))
                   (fst (ParseFloat (Strings.Replace (get (namedGroups m) "lng") "lon:" "")))
                   (Strings.Replace (get (namedGroups m) "heading") "dir:" "")
                   (FormatFloat (kphToMPH speedKMH) 5)
                   (Strings.Replace (get (namedGroups m) "lock") "lck:" "")
                   timestamp now (Route.ID route)) in
            Next tt
              (db', (log ++ [Log.Debugf "Updating %s."] ++ l
                       ++ ((if snd (ParseFloat (Strings.Replace (get (namedGroups m) "lat") "lat:" ""))
                               is Some e then [Log.Error e] else [])
                           ++ (if snd (ParseFloat (Strings.Replace (get (namedGroups m) "lng") "lon:" ""))
                                  is Some e then [Log.Error e] else []))
                       ++ (if e is Some e' then [Log.WithError e' "Could not insert vehicle update."]
                           else []))%list)
        end).
  { intros got. unfold tbind at 1. unfold lift at 1. rewrite Hts.
    destruct (got && Time_eqb (Update.Timestamp lastUpdate) timestamp); [reflexivity | ].
    unfold tbind at 1. unfold logEntry at 1. unfold tbind at 1. unfold guessRoute.
    destruct (GuessRouteForVehicle rangeKeys db now vehicle) as [[route [e | ]] l].
    - unfold tbind, logEntry, exit. now rewrite <- !app_assoc.
    - destruct (ParseFloat (Strings.Replace (get (namedGroups m) "lat") "lat:" ""))
        as [latitude [e1 | ]];
      destruct (ParseFloat (Strings.Replace (get (namedGroups m) "lng") "lon:" ""))
        as [longitude [e2 | ]];
      unfold tbind, logEntry, createUpdate, tret; cbn [fst snd];
      destruct (CreateUpdate db _) as [db' [e3 | ]];
      cbn [app]; rewrite <- ?app_assoc; cbn [app]; rewrite ?app_nil_r; reflexivity. }
  destruct Helast as [-> | ->]; unfold tbind at 1; unfold tret at 1; apply Htail.
Qed.

End OneRecord.

Section Abandoned.
Import Updater Spec GoMath GoTime Strconv StrconvFloat Timestamp Regexp.

Context {DB : Type} `{Database DB}.
Variable rangeKeys : gmap string float -> list string.

(** The failures that end the goroutine before anything is stored. *)
Lemma updateVehicle_bad_id (now : Time) (vehicleData : string) (db : DB) (log : list Log.entry)
    (vehicleID : Z) (e : error) :
  wellFormed vehicleData ->
  Atoi (fieldOf vehicleData "id" "Vehicle ID:") = (vehicleID, Some e) ->
  updateVehicle rangeKeys now vehicleData (db, log)
  = Returned (db, (log ++ [Log.WithError e "Unable to parse vehicle ID to int from string."])%list).
Proof.
  unfold wellFormed, fieldOf.
  destruct (find dataRegexp vehicleData) as [m | ] eqn:Hfind; [ | intros []; reflexivity].
  intros _ Hid. unfold updateVehicle, firstSubmatch. rewrite Hfind.
  unfold tbind at 1. unfold lift at 1. cbv zeta. rewrite Hid. reflexivity.
Qed.

Lemma updateVehicle_bad_speed (now : Time) (vehicleData : string) (db : DB) (log : list Log.entry)
    (vehicleID : Z) (vehicle : Vehicle.t) (speedKMH : float) (e : error) :
  wellFormed vehicleData ->
  Atoi (fieldOf vehicleData "id" "Vehicle ID:") = (vehicleID, None) ->
  GetVehicleByITrakID db vehicleID = (vehicle, None) ->
  ParseFloat (fieldOf vehicleData "speed" "spd:") = (speedKMH, Some e) ->
  updateVehicle rangeKeys now vehicleData (db, log) = Returned (db, (log ++ [Log.Error e])%list).
Proof.
  unfold wellFormed, fieldOf.
  destruct (find dataRegexp vehicleData) as [m | ] eqn:Hfind; [ | intros []; reflexivity].
  intros _ Hid Hveh Hspd. unfold updateVehicle, firstSubmatch. rewrite Hfind.
  unfold tbind at 1. unfold lift at 1. cbv zeta.
  rewrite Hid. unfold tbind at 1. unfold query at 1. rewrite Hveh, Hspd. reflexivity.
Qed.

Lemma updateVehicle_bad_timestamp (now : Time) (vehicleData : string) (db : DB)
    (log : list Log.entry) (vehicleID : Z) (vehicle : Vehicle.t) (speedKMH : float)
    (lastUpdate : Update.t) (elast : option error) (timestamp : Time) (e : error) :
  wellFormed vehicleData ->
  Atoi (fieldOf vehicleData "id" "Vehicle ID:") = (vehicleID, None) ->
  GetVehicleByITrakID db vehicleID = (vehicle, None) ->
  ParseFloat (fieldOf vehicleData "speed" "spd:") = (speedKMH, None) ->
  GetLastUpdateForVehicle db (Vehicle.ID vehicle) = (lastUpdate, elast) ->
  elast = None \/ elast = Some ErrUpdateNotFound ->
  generateTimestamp (fieldOf vehicleData "time" "time:") (fieldOf vehicleData "date" "date:")
  = Ret (timestamp, Some e) ->
  updateVehicle rangeKeys now vehicleData (db, log)
  = Returned (db, (log ++ [Log.WithError e "Unable to generate update timestamp."])%list).
Proof.
  unfold wellFormed, fieldOf.
  destruct (find dataRegexp vehicleData) as [m | ] eqn:Hfind; [ | intros []; reflexivity].
  intros _ Hid Hveh Hspd Hlast Helast Hts.
  unfold updateVehicle, firstSubmatch. rewrite Hfind.
  unfold tbind at 1. unfold lift at 1. cbv zeta.
  rewrite Hid. unfold tbind at 1. unfold query at 1. rewrite Hveh.
  rewrite Hspd. unfold tbind at 1. unfold query at 1. rewrite Hlast.
  destruct Helast as [-> | ->]; unfold tbind at 1; unfold tret at 1;
    unfold tbind at 1; unfold lift at 1; rewrite Hts; reflexivity.
Qed.

End Abandoned.

Module ParseFacts.
Import Strconv StrconvFloat.

(** What [ParseFloat] returns along with an error. *)
Lemma ParseFloat_error (s : string) (x : float) (e : error) :
  ParseFloat s = (x, Some e) ->
  (e = ErrSyntax "ParseFloat" s /\ x = 0%float)
  \/ (e = ErrRange "ParseFloat" s /\ (x = infinity \/ x = neg_infinity)).
Proof.
  unfold ParseFloat. destruct s as [ | c rest]; [intros [= <- <-]; now left | ].
  destruct (readFloat _ _ _ _ _) as [[mant frac] | ]; [ | intros [= <- <-]; now left].
  destruct (decimalToFloat _ mant frac) as [ | [] | | ]; intros [= <- <-];
    right; split; auto.
Qed.

End ParseFacts.

Module TimeFacts.
Import GoTime.

Lemma Time_eqb_eq (t u : Time) : Time_eqb t u = true <-> t = u.
Proof.
  unfold Time_eqb. destruct t as [w e l], u as [w' e' l']. cbn [wall ext loc].
  rewrite !andb_true_iff, !Z.eqb_eq. split.
  - intros [[-> ->] Hl]. destruct l, l'; (discriminate Hl || reflexivity).
  - intros [= -> -> ->]. repeat split. now destruct l'.
Qed.

End TimeFacts.

Module StoreFacts.
Import GoTime MemDB.

(** A row created after all the others comes first in [ORDER BY created DESC]. *)
Lemma orderByCreatedDesc_newest (l : list Update.t) (row : Update.t) :
  (forall u, In u l -> Before (Update.Created u) (Update.Created row) = true) ->
  exists rest, orderByCreatedDesc (l ++ [row]) = row :: rest.
Proof.
  unfold orderByCreatedDesc. rewrite fold_right_app. cbn [fold_right insertByCreated].
  induction l as [ | a l IH]; intros Hb; [now exists [] | ].
  destruct IH as [rest Hrest]; [intros u Hu; apply Hb; now right | ].
  cbn [fold_right]. rewrite Hrest. cbn [insertByCreated].
  rewrite (Hb a) by now left. eauto.
Qed.

End StoreFacts.

(** ** De-duplication against the last stored update *)

Section Dedup.
Import Updater Spec GoMath GoTime Strconv StrconvFloat Timestamp Regexp.
Import TimeFacts StoreFacts.

Variable rangeKeys : gmap string float -> list string.

(** C1 (amended).  On the in-memory store, for a well-formed record of a
    known vehicle that has a last update: when the record's timestamp is the
    stored one the goroutine returns with the store and the log untouched;
    when it differs, whether earlier or later, and the route guess returns no
    error, exactly one row with that timestamp is appended; and if the rows of
    that vehicle were all created before the store's clock, processing the
    same record again leaves the store as it is. *)
Theorem only_equal_timestamp_is_dropped (now now' : Time) (vehicleData : string)
    (db : MemDB.t) (log : list Log.entry) (vehicleID : Z) (vehicle : Vehicle.t)
    (speedKMH : float) (lastUpdate : Update.t) (timestamp : Time) :
  wellFormed vehicleData ->
  Atoi (fieldOf vehicleData "id" "Vehicle ID:") = (vehicleID, None) ->
  GetVehicleByITrakID db vehicleID = (vehicle, None) ->
  ParseFloat (fieldOf vehicleData "speed" "spd:") = (speedKMH, None) ->
  GetLastUpdateForVehicle db (Vehicle.ID vehicle) = (lastUpdate, None) ->
  generateTimestamp (fieldOf vehicleData "time" "time:") (fieldOf vehicleData "date" "date:")
  = Ret (timestamp, None) ->
  (Update.Timestamp lastUpdate = timestamp ->
     updateVehicle rangeKeys now vehicleData (db, log) = Returned (db, log))
  /\ (Update.Timestamp lastUpdate <> timestamp ->
      snd (fst (GuessRouteForVehicle rangeKeys db now vehicle)) = None ->
      exists db' log' row,
        updateVehicle rangeKeys now vehicleData (db, log) = Next tt (db', log')
        /\ MemDB.updates db' = (MemDB.updates db ++ [row])%list
        /\ Update.Timestamp row = timestamp
        /\ Update.VehicleID row = Vehicle.ID vehicle
        /\ ((forall u, In u (MemDB.updates db) ->
               Update.VehicleID u = Vehicle.ID vehicle ->
               Before (Update.Created u) (MemDB.current_timestamp db) = true) ->
            updateVehicle rangeKeys now' vehicleData (db', log') = Returned (db', log'))).
Proof.
  intros Hwf Hid Hveh Hspd Hlast Hts. split.
  - intros Heq.
    rewrite (updateVehicle_known rangeKeys now vehicleData db log _ _ _ _ _ _
               Hwf Hid Hveh Hspd Hlast (or_introl eq_refl) Hts).
    apply Time_eqb_eq in Heq. now rewrite Heq.
  - intros Hne Hguess.
    rewrite (updateVehicle_known rangeKeys now vehicleData db log _ _ _ _ _ _
               Hwf Hid Hveh Hspd Hlast (or_introl eq_refl) Hts).
    destruct (Time_eqb (Update.Timestamp lastUpdate) timestamp) eqn:E;
      [apply Time_eqb_eq in E; contradiction | ].
    cbn [andb].
    destruct (GuessRouteForVehicle rangeKeys db now vehicle) as [[route err] l].
    cbn [fst snd] in Hguess. subst err.
    cbn [CreateUpdate MemDB_Database]. unfold MemDB.createUpdate.
    eexists _, _, _. split; [reflexivity | ]. cbn [MemDB.updates].
    repeat split.
    intros Hold.
    set (row := Update.mk _ _ _ _ _ _ _ _ _ _).
    set (db' := MemDB.mk _ _ _ _ _).
    assert (Hlast' : GetLastUpdateForVehicle db' (Vehicle.ID vehicle) = (row, None)).
    { cbn [GetLastUpdateForVehicle MemDB_Database]. unfold MemDB.getLastUpdateForVehicle.
      subst db'. cbn [MemDB.updates]. rewrite List.filter_app. cbn [List.filter].
      subst row. cbn [Update.VehicleID builtUpdate]. rewrite Z.eqb_refl.
      destruct (orderByCreatedDesc_newest
                  (List.filter (fun u => Update.VehicleID u =? Vehicle.ID vehicle) (MemDB.updates db))
                  (Update.mk (MemDB.nextID db) (Vehicle.ID vehicle)
                     (Update.Latitude (builtUpdate vehicleData vehicle speedKMH timestamp now route))
                     (Update.Longitude (builtUpdate vehicleData vehicle speedKMH timestamp now route))
                     (Update.Heading (builtUpdate vehicleData vehicle speedKMH timestamp now route))
                     (Update.Speed (builtUpdate vehicleData vehicle speedKMH timestamp now route))
                     "" timestamp (MemDB.current_timestamp db) ""))
        as [rest Hrest].
      - intros u Hu. apply List.filter_In in Hu as [Hu Hv]. apply Z.eqb_eq in Hv.
        cbn [Update.Created]. now apply Hold.
      - cbn [Update.Timestamp builtUpdate] in Hrest |- *. now rewrite Hrest. }
    assert (Hveh' : GetVehicleByITrakID db' vehicleID = (vehicle, None)) by exact Hveh.
    rewrite (updateVehicle_known rangeKeys now' vehicleData db' _ _ _ _ _ _ _
               Hwf Hid Hveh' Hspd Hlast' (or_introl eq_refl) Hts).
    replace (Time_eqb (Update.Timestamp row) timestamp) with true; [reflexivity | ].
    symmetry. apply Time_eqb_eq. reflexivity.
Qed.

End Dedup.

(** ** Position fields that do not parse *)

Section Position.
Import Updater Spec GoMath GoTime Strconv StrconvFloat Timestamp Regexp ParseFacts.

Context {DB : Type} `{Database DB}.
Variable rangeKeys : gmap string float -> list string.

(** C10 (amended).  For a well-formed record that reaches the route guess
    (known vehicle, speed and timestamp parsed, timestamp not the stored
    one, guess without error), a latitude or longitude that [ParseFloat]
    rejects does not end the goroutine: the error is logged and
    [CreateUpdate] receives an update whose latitude and longitude are the
    values [ParseFloat] returned with the error, [0] for a syntax error and
    an infinity for a range error.  A vehicle id, speed or timestamp that
    does not parse ends the goroutine before [CreateUpdate], the store
    unchanged. *)
Theorem position_parse_error_is_only_logged (now : Time) (vehicleData : string) (db : DB)
    (log : list Log.entry) :
  wellFormed vehicleData ->
  (forall vehicleID vehicle speedKMH lastUpdate elast timestamp route l,
     Atoi (fieldOf vehicleData "id" "Vehicle ID:") = (vehicleID, None) ->
     GetVehicleByITrakID db vehicleID = (vehicle, None) ->
     ParseFloat (fieldOf vehicleData "speed" "spd:") = (speedKMH, None) ->
     GetLastUpdateForVehicle db (Vehicle.ID vehicle) = (lastUpdate, elast) ->
     elast = None /\ Update.Timestamp lastUpdate <> timestamp
       \/ elast = Some ErrUpdateNotFound ->
     generateTimestamp (fieldOf vehicleData "time" "time:") (fieldOf vehicleData "date" "date:")
     = Ret (timestamp, None) ->
     GuessRouteForVehicle rangeKeys db now vehicle = (route, None, l) ->
     let update := builtUpdate vehicleData vehicle speedKMH timestamp now route in
     let lat := ParseFloat (fieldOf vehicleData "lat" "lat:") in
     let lng := ParseFloat (fieldOf vehicleData "lng" "lon:") in
     updateVehicle rangeKeys now vehicleData (db, log)
     = Next tt
         (fst (CreateUpdate db update),
          (log ++ [Log.Debugf "Updating %s."] ++ l ++ positionLog vehicleData
             ++ (if snd (CreateUpdate db update) is Some e
                 then [Log.WithError e "Could not insert vehicle update."] else []))%list)
     /\ Update.Latitude update = fst lat /\ Update.Longitude update = fst lng
     /\ (forall e, snd lat = Some e ->
           In (Log.Error e) (positionLog vehicleData)
           /\ (e = ErrSyntax "ParseFloat" (fieldOf vehicleData "lat" "lat:")
                 /\ Update.Latitude update = 0%float
               \/ e = ErrRange "ParseFloat" (fieldOf vehicleData "lat" "lat:")
                 /\ (Update.Latitude update = infinity
                     \/ Update.Latitude update = neg_infinity)))
     /\ (forall e, snd lng = Some e ->
           In (Log.Error e) (positionLog vehicleData)
           /\ (e = ErrSyntax "ParseFloat" (fieldOf vehicleData "lng" "lon:")
                 /\ Update.Longitude update = 0%float
               \/ e = ErrRange "ParseFloat" (fieldOf vehicleData "lng" "lon:")
                 /\ (Update.Longitude update = infinity
                     \/ Update.Longitude update = neg_infinity))))
  /\ (forall vehicleID e,
        Atoi (fieldOf vehicleData "id" "Vehicle ID:") = (vehicleID, Some e) ->
        updateVehicle rangeKeys now vehicleData (db, log)
        = Returned (db, (log ++ [Log.WithError e
                                   "Unable to parse vehicle ID to int from string."])%list))
  /\ (forall vehicleID vehicle speedKMH e,
        Atoi (fieldOf vehicleData "id" "Vehicle ID:") = (vehicleID, None) ->
        GetVehicleByITrakID db vehicleID = (vehicle, None) ->
        ParseFloat (fieldOf vehicleData "speed" "spd:") = (speedKMH, Some e) ->
        updateVehicle rangeKeys now vehicleData (db, log)
        = Returned (db, (log ++ [Log.Error e])%list))
  /\ (forall vehicleID vehicle speedKMH lastUpdate elast timestamp e,
        Atoi (fieldOf vehicleData "id" "Vehicle ID:") = (vehicleID, None) ->
        GetVehicleByITrakID db vehicleID = (vehicle, None) ->
        ParseFloat (fieldOf vehicleData "speed" "spd:") = (speedKMH, None) ->
        GetLastUpdateForVehicle db (Vehicle.ID vehicle) = (lastUpdate, elast) ->
        elast = None \/ elast = Some ErrUpdateNotFound ->
        generateTimestamp (fieldOf vehicleData "time" "time:")
          (fieldOf vehicleData "date" "date:") = Ret (timestamp, Some e) ->
        updateVehicle rangeKeys now vehicleData (db, log)
        = Returned (db, (log ++ [Log.WithError e
                                   "Unable to generate update timestamp."])%list)).
Proof.
  intros Hwf. split; [ | split; [ | split]].
  - intros vehicleID vehicle speedKMH lastUpdate elast timestamp route l
      Hid Hveh Hspd Hlast Hnew Hts Hguess update lat lng.
    assert (Helast : elast = None \/ elast = Some ErrUpdateNotFound)
      by (destruct Hnew as [[-> _] | ->]; auto).
    rewrite (updateVehicle_known rangeKeys now vehicleData db log _ _ _ _ _ _
               Hwf Hid Hveh Hspd Hlast Helast Hts).
    replace ((if elast is None then true else false)
             && Time_eqb (Update.Timestamp lastUpdate) timestamp) with false.
    2:{ destruct Hnew as [[-> Hne] | ->]; [ | reflexivity]. cbn [andb]. symmetry.
        apply not_true_is_false. intros E. now apply TimeFacts.Time_eqb_eq in E. }
    rewrite Hguess. fold update. destruct (CreateUpdate db update) as [db' e3].
    split; [reflexivity | ]. split; [reflexivity | ]. split; [reflexivity | ].
    subst lat lng. unfold positionLog. split; intros e He.
    + split.
      * rewrite He. apply in_or_app. left. now left.
      * destruct (ParseFloat (fieldOf vehicleData "lat" "lat:")) as [x ex] eqn:Hp.
        cbn [snd] in He. subst ex. subst update. unfold builtUpdate.
        cbn [Update.Latitude]. rewrite Hp. cbn [fst].
        exact (ParseFloat_error _ _ _ Hp).
    + split.
      * rewrite He. apply in_or_app. right. now left.
      * destruct (ParseFloat (fieldOf vehicleData "lng" "lon:")) as [x ex] eqn:Hp.
        cbn [snd] in He. subst ex. subst update. unfold builtUpdate.
        cbn [Update.Longitude]. rewrite Hp. cbn [fst].
        exact (ParseFloat_error _ _ _ Hp).
  - intros. now apply updateVehicle_bad_id with (vehicleID := vehicleID).
  - intros. eapply updateVehicle_bad_speed; eassumption.
  - intros. eapply updateVehicle_bad_timestamp; eassumption.
Qed.

End Position.

(** ** Records the grammar does not match *)

Section Malformed.
Import Updater Spec GoTime Regexp.

Context {DB : Type} `{Database DB}.
Variable rangeKeys : gmap string float -> list string.

Lemma runAll_crashes (now : Time) (records : list string) (s : state) :
  (exists r, In r records /\ ~ wellFormed r) ->
  exists s', runAll rangeKeys now records s = Crashed s'.
Proof.
  revert s. induction records as [ | r0 records IH]; intros s (r & Hin & Hbad);
    [destruct Hin | ].
  cbn [runAll]. destruct (updateVehicle rangeKeys now r0 s) as [ | s' | [] s'] eqn:E.
  - eauto.
  - destruct Hin as [-> | Hin]; [ | apply IH; eauto].
    rewrite updateVehicle_malformed in E by exact Hbad. discriminate.
  - destruct Hin as [-> | Hin]; [ | apply IH; eauto].
    rewrite updateVehicle_malformed in E by exact Hbad. discriminate.
Qed.

End Malformed.

(** C2 (the code departs from the claim).  A record the grammar does not
    match makes its goroutine panic on the index [0] of an empty result;
    nothing recovers the panic, so a cycle that holds such a record ends
    with the process brought down, whatever the other records are.  The
    body of two records below, the first well-formed, is an instance. *)
Theorem malformed_record_crashes_the_cycle :
  forall (DB : Type) (D : Database DB) (rangeKeys : gmap string float -> list string)
         (now : GoTime.Time),
    (forall (s : Updater.state) (vehicleData : string),
        ~ Spec.wellFormed vehicleData ->
        Updater.updateVehicle rangeKeys now vehicleData s = Panicked)
    /\ (forall (db : DB) (body : string),
          (exists r, In r (Updater.vehiclesData body) /\ ~ Spec.wellFormed r) ->
          exists s, Updater.update rangeKeys (Updater.Body body) now db = Updater.Crashed s)
    /\ (forall db : DB,
          Updater.vehiclesData (Example.same ++ "eofgarbageeof") = [Example.same; "garbage"]
          /\ Spec.wellFormed Example.same /\ ~ Spec.wellFormed "garbage"
          /\ exists s,
               Updater.update rangeKeys (Updater.Body (Example.same ++ "eofgarbageeof")) now db
               = Updater.Crashed s).
Proof.
  intros DB D rangeKeys now.
  assert (Hbody : forall (db : DB) (body : string),
            (exists r, In r (Updater.vehiclesData body) /\ ~ Spec.wellFormed r) ->
            exists s, Updater.update rangeKeys (Updater.Body body) now db = Updater.Crashed s).
  { intros db body Hbad. unfold Updater.update.
    destruct (runAll_crashes rangeKeys now (Updater.vehiclesData body)
                (db, if (List.length (Updater.vehiclesData body) <=? 1)%nat
                     then [Log.Warnf "Found no vehicles delineated by '%s'."] else [])
                Hbad) as [s' Hs'].
    rewrite Hs'. eauto. }
  assert (Hgarbage : ~ Spec.wellFormed "garbage")
    by (unfold Spec.wellFormed; vm_compute; congruence).
  split; [ | split].
  - intros s vehicleData. apply updateVehicle_malformed.
  - exact Hbody.
  - intros db. split; [vm_compute; reflexivity | ].
    split; [unfold Spec.wellFormed; vm_compute; discriminate | ].
    split; [exact Hgarbage | ].
    apply Hbody. exists "garbage". split; [ | exact Hgarbage].
    replace (Updater.vehiclesData (Example.same ++ "eofgarbageeof"))
      with [Example.same; "garbage"] by (vm_compute; reflexivity).
    right. now left.
Qed.

(** C4 (the code departs from the claim).  [generateTimestamp] panics on a
    time token of fewer than four bytes and on a date token of fewer than
    four bytes, and on the seven-digit date of a month written without its
    leading zero; it returns, with a timestamp or an error, whenever the
    time token has four bytes or more and the date token eight or more. *)
Theorem generateTimestamp_panics_on_short_tokens :
  Timestamp.generateTimestamp "123" "11122017" = Panic
  /\ Timestamp.generateTimestamp "91902" "1122017" = Panic
  /\ (forall itrakTime itrakDate : string,
        (String.length itrakDate < 4)%nat ->
        Timestamp.generateTimestamp itrakTime itrakDate = Panic)
  /\ (forall itrakTime itrakDate : string,
        (4 <= String.length itrakTime)%nat -> (8 <= String.length itrakDate)%nat ->
        exists r, Timestamp.generateTimestamp itrakTime itrakDate = Ret r).
Proof.
  split; [vm_compute; reflexivity | ]. split; [vm_compute; reflexivity | ].
  assert (Hslice : forall s lo hi, 0 <= lo -> lo <= hi -> hi <= Strings.len s ->
            exists r, Strings.slice s lo hi = Ret r).
  { intros s lo hi H1 H2 H3. unfold Strings.slice.
    rewrite (proj2 (Z.leb_le 0 lo) H1), (proj2 (Z.leb_le lo hi) H2),
      (proj2 (Z.leb_le hi _) H3). eauto. }
  split.
  - intros itrakTime itrakDate Hlen. unfold Timestamp.generateTimestamp, Strings.slice.
    replace (4 <=? Strings.len itrakDate) with false
      by (symmetry; apply Z.leb_gt; unfold Strings.len; lia).
    reflexivity.
  - intros itrakTime itrakDate HT HD. unfold Timestamp.generateTimestamp.
    assert (HlT : 4 <= Strings.len itrakTime) by (unfold Strings.len; lia).
    assert (HlD : 8 <= Strings.len itrakDate) by (unfold Strings.len; lia).
    destruct (Hslice itrakDate 2 4) as [s1 ->]; [lia .. | ]. cbn [go_bind].
    destruct (Strconv.Atoi s1) as [day [e | ]]; [eauto | ].
    destruct (Hslice itrakDate 4 8) as [s2 ->]; [lia .. | ]. cbn [go_bind].
    destruct (Strconv.Atoi s2) as [year [e | ]]; [eauto | ].
    destruct (Hslice itrakDate 0 2) as [s3 ->]; [lia .. | ]. cbn [go_bind].
    destruct (Strconv.Atoi s3) as [monthNum [e | ]]; [eauto | ].
    destruct (Hslice itrakTime 0 (Strings.len itrakTime - 4)) as [s4 ->]; [lia .. | ].
    cbn [go_bind].
    destruct (Strconv.Atoi s4) as [hour [e | ]]; [eauto | ].
    destruct (Hslice itrakTime (Strings.len itrakTime - 4) (Strings.len itrakTime - 2))
      as [s5 ->]; [lia .. | ]. cbn [go_bind].
    destruct (Strconv.Atoi s5) as [minute [e | ]]; [eauto | ].
    destruct (Hslice itrakTime (Strings.len itrakTime - 2) (Strings.len itrakTime))
      as [s6 ->]; [lia .. | ]. cbn [go_bind].
    destruct (Strconv.Atoi s6) as [second [e | ]]; eauto.
Qed.

(** ** Splitting the response body *)

Module SplitFacts.
Import Strings Spec.

Lemma prefix_drop (p s : string) :
  String.prefix p s = true -> s = p ++ drop (String.length p) s.
Proof.
  revert s. induction p as [ | c p IH]; intros s Hp; [reflexivity | ].
  destruct s as [ | c' s]; [discriminate Hp | ]. cbn [String.prefix] in Hp.
  destruct (ascii_dec c c') as [<- | ]; [ | discriminate Hp].
  change (String c s = String c (p ++ drop (String.length p) s)).
  f_equal. now apply IH.
Qed.






End SplitFacts.


(** ** The grammar of the feed *)

Module GrammarFacts.
Import Regexp Updater Spec Strings Grammar.

Lemma append_assoc (a b c : string) : (a ++ b) ++ c = a ++ (b ++ c).
Proof. induction a as [ | x a IH]; [reflexivity | ]. change (String x ((a ++ b) ++ c) = String x (a ++ (b ++ c))). now rewrite IH. Qed.

Lemma length_append (a b : string) : String.length (a ++ b) = (String.length a + String.length b)%nat.
Proof. induction a as [ | x a IH]; [reflexivity | ]. change (S (String.length (a ++ b)) = S (String.length a + String.length b)). now rewrite IH. Qed.

Lemma substring_append (a b : string) : String.substring 0 (String.length a) (a ++ b) = a.
Proof. induction a as [ | x a IH]; [now destruct b | ]. change (String x (String.substring 0 (String.length a) (a ++ b)) = String x a). now rewrite IH. Qed.

Lemma consumed_append (a rest : string) : consumed (a ++ rest) rest = a.
Proof.
  unfold consumed. rewrite length_append.
  replace (String.length a + String.length rest - String.length rest)%nat with (String.length a) by lia.
  apply substring_append.
Qed.

Lemma prefix_append (p s : string) : String.prefix p (p ++ s) = true.
Proof.
  induction p as [ | c p IH]; [now destruct s | ].
  change (String.prefix (String c p) (String c (p ++ s)) = true).
  cbn [String.prefix]. destruct (ascii_dec c c); [exact IH | contradiction].
Qed.

Lemma drop_append (p s : string) : drop (String.length p) (p ++ s) = s.
Proof. induction p as [ | c p IH]; [reflexivity | exact IH]. Qed.

Lemma over_cons cls c s : over cls (String c s) = true <-> cls c = true /\ over cls s = true.
Proof. unfold over. cbn. apply andb_true_iff. Qed.

Lemma plusLoop_sound {R} (cls : ascii -> bool) (s : string) (k : string -> option R) (r : R) :
  plusLoop cls s k = Some r ->
  exists v rest, s = v ++ rest /\ over cls v = true /\ k rest = Some r.
Proof.
  induction s as [ | c s IH]; cbn [plusLoop]; intros Hr.
  - exists "", "". auto.
  - destruct (cls c) eqn:Hc; [ | exists "", (String c s); auto].
    destruct (plusLoop cls s k) as [r' | ] eqn:Hl; [ | exists "", (String c s); auto].
    destruct (IH Hr) as (v & rest & -> & Hv & Hk).
    exists (String c v), rest. repeat split; [ | exact Hk]. apply over_cons. auto.
Qed.

Lemma matchHere_Cat {R} (r1 r2 : re) s caps (k : string -> submatches -> option R) :
  matchHere (Cat r1 r2) s caps k = matchHere r1 s caps (fun rest caps' => matchHere r2 rest caps' k).
Proof. reflexivity. Qed.

Lemma matchHere_Lit {R} (l : string) s caps (k : string -> submatches -> option R) (r : R) :
  matchHere (Lit l) s caps k = Some r -> exists rest, s = l ++ rest /\ k rest caps = Some r.
Proof.
  cbn [matchHere]. destruct (String.prefix l s) eqn:Hp; [ | discriminate].
  intros Hk. exists (drop (String.length l) s). split; [now apply SplitFacts.prefix_drop | exact Hk].
Qed.

Lemma matchHere_field {R} (name tag : string) (cls : ascii -> bool) s caps
    (k : string -> submatches -> option R) (r : R) :
  matchHere (field name tag cls) s caps k = Some r ->
  exists v rest, s = tag ++ v ++ rest /\ v <> "" /\ over cls v = true
    /\ k rest (caps ++ [(name, (tag ++ v)%string); ("", v)])%list = Some r.
Proof.
  unfold field. cbn [matchHere].
  destruct (String.prefix tag s) eqn:Hp; [ | discriminate].
  apply SplitFacts.prefix_drop in Hp. set (s1 := drop (String.length tag) s) in *.
  destruct s1 as [ | c s1']; [discriminate | ].
  destruct (cls c) eqn:Hc; [ | discriminate].
  intros Hl. apply plusLoop_sound in Hl as (v & rest & -> & Hv & Hk).
  exists (String c v), rest. split; [exact Hp | ]. split; [discriminate | ].
  split; [apply over_cons; auto | ].
  rewrite Hp in Hk.
  change (String c (v ++ rest)) with (String c v ++ rest) in Hk.
  rewrite consumed_append in Hk.
  rewrite <- append_assoc, consumed_append in Hk.
  rewrite length_app in Hk. cbn [List.length] in Hk.
  rewrite <- app_assoc in Hk. cbn [app] in Hk.
  unfold submatches in *.
  rewrite (insert_app_r caps _ 1), insert_app_r_alt, Nat.sub_diag in Hk by reflexivity.
  exact Hk.
Qed.

Lemma find_sound (r : re) (s : string) (m : submatches) :
  find r s = Some m ->
  exists pre s0, s = pre ++ s0
    /\ matchHere r s0 [("", "")]
         (fun rest caps => Some (<[O := ("", consumed s0 rest)]> caps)) = Some m.
Proof.
  induction s as [ | c s IH]; cbn [find].
  - destruct (matchHere r "" _ _) as [caps | ] eqn:Hm; [ | discriminate].
    intros [= <-]. exists "", "". auto.
  - destruct (matchHere r (String c s) _ _) as [caps | ] eqn:Hm.
    + intros [= <-]. exists "", (String c s). auto.
    + intros Hf. destruct (IH Hf) as (pre & s0 & -> & Hs0).
      exists (String c pre), s0. auto.
Qed.

Tactic Notation "next_field" hyp(H) ident(v) ident(Hne) ident(Hcls) :=
  rewrite ?matchHere_Cat in H;
  apply matchHere_field in H as (v & ? & -> & Hne & Hcls & H); cbv beta in H.
Ltac next_space H :=
  rewrite ?matchHere_Cat in H;
  apply matchHere_Lit in H as (? & -> & H); cbv beta in H.

Lemma dataRegexp_sound (s : string) (m : submatches) :
  find dataRegexp s = Some m ->
  exists pre post id lat lng heading speed lock time date status,
    s = pre ++ ("Vehicle ID:" ++ id ++ " lat:" ++ lat ++ " lon:" ++ lng ++ " dir:" ++ heading
        ++ " spd:" ++ speed ++ " lck:" ++ lock ++ " time:" ++ time ++ " date:" ++ date
        ++ " trig:" ++ status) ++ post
    /\ (id <> "" /\ over digitOrDot id = true)
    /\ (lat <> "" /\ over digitDotOrMinus lat = true)
    /\ (lng <> "" /\ over digitDotOrMinus lng = true)
    /\ (heading <> "" /\ over digitDotOrMinus heading = true)
    /\ (speed <> "" /\ over digitDotOrMinus speed = true)
    /\ (lock <> "" /\ over digitDotOrMinus lock = true)
    /\ (time <> "" /\ over Strconv.isDigit time = true)
    /\ (date <> "" /\ over Strconv.isDigit date = true)
    /\ (status <> "" /\ over Strconv.isDigit status = true)
    /\ exists full,
       m = [("", full); ("id", "Vehicle ID:" ++ id); ("", id); ("lat", "lat:" ++ lat); ("", lat);
            ("lng", "lon:" ++ lng); ("", lng); ("heading", "dir:" ++ heading); ("", heading);
            ("speed", "spd:" ++ speed); ("", speed); ("lock", "lck:" ++ lock); ("", lock);
            ("time", "time:" ++ time); ("", time); ("date", "date:" ++ date); ("", date);
            ("status", "trig:" ++ status); ("", status)].
Proof.
  intros Hf. apply find_sound in Hf as (pre & s0 & -> & H).
  unfold dataRegexp in H.
  next_field H id Hid Hid'. next_space H.
  next_field H lat Hlat Hlat'. next_space H.
  next_field H lng Hlng Hlng'. next_space H.
  next_field H heading Hheading Hheading'. next_space H.
  next_field H speed Hspeed Hspeed'. next_space H.
  next_field H lock Hlock Hlock'. next_space H.
  next_field H time Htime Htime'. next_space H.
  next_field H date Hdate Hdate'. next_space H.
  next_field H status Hstatus Hstatus'.
  match type of H with Some _ = _ => idtac end.
  injection H as <-.
  match goal with |- context [status ++ ?post] => rename post into rest end.
  exists pre, rest, id, lat, lng, heading, speed, lock, time, date, status.
  split.
  { f_equal. rewrite !append_assoc. reflexivity. }
  repeat (split; [split; assumption | ]).
  eexists. cbn [app]. reflexivity.
Qed.

Lemma Index_absent (v : string) (c0 : ascii) (t : string) (cls : ascii -> bool) :
  cls c0 = false -> over cls v = true -> Index v (String c0 t) = None.
Proof.
  intros Hc0. induction v as [ | c v IH]; intros Hv; [reflexivity | ].
  apply over_cons in Hv as [Hc Hv]. cbn [Index String.prefix].
  destruct (ascii_dec c0 c) as [<- | _]; [congruence | ].
  now rewrite IH.
Qed.

Lemma replaceLoop_absent (rounds : nat) (v old : string) :
  Index v old = None -> replaceLoop rounds v old "" = v.
Proof. intros Hi. destruct rounds; cbn [replaceLoop]; [reflexivity | now rewrite Hi]. Qed.

Lemma Index_prefix (old v : string) : Index (old ++ v) old = Some O.
Proof.
  destruct (old ++ v) eqn:E; cbn [Index]; rewrite <- E, prefix_append; reflexivity.
Qed.

(** Removing the tag from a captured field leaves the value. *)
Lemma Replace_tag (c0 : ascii) (t v : string) (cls : ascii -> bool) :
  cls c0 = false -> over cls v = true -> Replace (String c0 t ++ v) (String c0 t) "" = v.
Proof.
  intros Hc0 Hv. unfold Replace.
  change (String.length (String c0 t ++ v)) with (S (String.length (t ++ v))).
  cbn [replaceLoop]. rewrite Index_prefix. cbn [Nat.add].
  rewrite drop_append.
  rewrite (replaceLoop_absent _ _ _ (Index_absent v c0 t cls Hc0 Hv)).
  destruct (String c0 t ++ v); reflexivity.
Qed.


(** The converse: a record that holds the tagged values is matched. *)

Lemma plusLoop_stops {R} (cls : ascii -> bool) (v : string) (c : ascii) (rest : string)
    (k : string -> option R) :
  over cls v = true -> cls c = false -> k (String c rest) <> None ->
  plusLoop cls (v ++ String c rest) k <> None.
Proof.
  intros Hv Hc Hk. induction v as [ | c1 v IH].
  - change ("" ++ String c rest) with (String c rest). cbn [plusLoop]. rewrite Hc. exact Hk.
  - apply over_cons in Hv as [Hc1 Hv].
    change (String c1 v ++ String c rest) with (String c1 (v ++ String c rest)).
    cbn [plusLoop]. rewrite Hc1.
    destruct (plusLoop cls (v ++ String c rest) k); [discriminate | now apply IH in Hv].
Qed.

Lemma plusLoop_total {R} (cls : ascii -> bool) (s : string) (k : string -> option R) :
  (forall rest, k rest <> None) -> plusLoop cls s k <> None.
Proof.
  intros Hk. induction s as [ | c s IH]; cbn [plusLoop]; [apply Hk | ].
  destruct (cls c); [ | apply Hk].
  destruct (plusLoop cls s k); [discriminate | apply Hk].
Qed.

Lemma plusLoop_value {R} (cls : ascii -> bool) (s : string) (k : string -> option R) (r : R) :
  plusLoop cls s k = Some r -> exists rest, k rest = Some r.
Proof. intros Hl. apply plusLoop_sound in Hl as (_ & rest & _ & _ & Hk). eauto. Qed.

Lemma matchHere_field_stops {R} (name tag : string) (cls : ascii -> bool) (v : string)
    (c : ascii) (rest : string) (caps : submatches) (k : string -> submatches -> option R) :
  v <> "" -> over cls v = true -> cls c = false ->
  k (String c rest) (caps ++ [(name, (tag ++ v)%string); ("", v)])%list <> None ->
  matchHere (field name tag cls) (tag ++ v ++ String c rest) caps k <> None.
Proof.
  intros Hne Hv Hc Hk. unfold field. cbn [matchHere].
  rewrite prefix_append, drop_append.
  destruct v as [ | c1 v]; [contradiction | ]. apply over_cons in Hv as [Hc1 Hv].
  change (String c1 v ++ String c rest) with (String c1 (v ++ String c rest)).
  cbv iota beta. rewrite Hc1. apply plusLoop_stops; [exact Hv | exact Hc | ].
  change (String c1 (v ++ String c rest)) with (String c1 v ++ String c rest).
  rewrite consumed_append. rewrite <- append_assoc, consumed_append.
  unfold submatches in *.
  rewrite length_app. cbn [List.length]. rewrite <- app_assoc. cbn [app].
  rewrite (insert_app_r caps _ 1), insert_app_r_alt, Nat.sub_diag by reflexivity.
  exact Hk.
Qed.

Lemma matchHere_field_total {R} (name tag : string) (cls : ascii -> bool) (v post : string)
    (caps : submatches) (k : string -> submatches -> option R) :
  v <> "" -> over cls v = true -> (forall rest caps', k rest caps' <> None) ->
  matchHere (field name tag cls) (tag ++ v ++ post) caps k <> None.
Proof.
  intros Hne Hv Hk. unfold field. cbn [matchHere].
  rewrite prefix_append, drop_append.
  destruct v as [ | c1 v]; [contradiction | ]. apply over_cons in Hv as [Hc1 Hv].
  change (String c1 v ++ post) with (String c1 (v ++ post)).
  cbv iota beta. rewrite Hc1. apply plusLoop_total. intros rest. apply Hk.
Qed.

Lemma matchHere_space {R} (rest : string) (caps : submatches)
    (k : string -> submatches -> option R) :
  matchHere (Lit " ") (String " " rest) caps k = k rest caps.
Proof.
  cbn [matchHere]. change (String " " rest) with (" " ++ rest).
  now rewrite prefix_append, drop_append.
Qed.

Lemma matchHere_field_space {R} (name tag : string) (cls : ascii -> bool) (r2 : re)
    (v rest : string) (caps : submatches) (k : string -> submatches -> option R) :
  v <> "" -> over cls v = true -> cls " "%char = false ->
  matchHere r2 rest (caps ++ [(name, (tag ++ v)%string); ("", v)])%list k <> None ->
  matchHere (Cat (field name tag cls) (Cat (Lit " ") r2)) (tag ++ v ++ " " ++ rest) caps k <> None.
Proof.
  intros Hne Hv Hc Hk. rewrite matchHere_Cat.
  apply matchHere_field_stops; [assumption .. | ].
  now rewrite matchHere_Cat, matchHere_space.
Qed.

Lemma find_complete (r : re) (pre s0 : string) :
  matchHere r s0 [("", "")] (fun rest caps => Some (<[O := ("", consumed s0 rest)]> caps)) <> None ->
  find r (pre ++ s0) <> None.
Proof.
  intros Hm. induction pre as [ | c pre IH].
  - change ("" ++ s0) with s0. destruct s0; cbn [find];
      match goal with |- context [matchHere r ?s ?c ?k] => destruct (matchHere r s c k) end;
      congruence.
  - change (String c pre ++ s0) with (String c (pre ++ s0)). cbn [find].
    match goal with |- context [matchHere r ?s ?c ?k] => destruct (matchHere r s c k) end;
      [discriminate | exact IH].
Qed.

Lemma dataRegexp_complete (pre post id lat lng heading speed lock time date status : string) :
  (id <> "" /\ over digitOrDot id = true) ->
  (lat <> "" /\ over digitDotOrMinus lat = true) ->
  (lng <> "" /\ over digitDotOrMinus lng = true) ->
  (heading <> "" /\ over digitDotOrMinus heading = true) ->
  (speed <> "" /\ over digitDotOrMinus speed = true) ->
  (lock <> "" /\ over digitDotOrMinus lock = true) ->
  (time <> "" /\ over Strconv.isDigit time = true) ->
  (date <> "" /\ over Strconv.isDigit date = true) ->
  (status <> "" /\ over Strconv.isDigit status = true) ->
  find dataRegexp
    (pre ++ ("Vehicle ID:" ++ id ++ " lat:" ++ lat ++ " lon:" ++ lng ++ " dir:" ++ heading
        ++ " spd:" ++ speed ++ " lck:" ++ lock ++ " time:" ++ time ++ " date:" ++ date
        ++ " trig:" ++ status) ++ post) <> None.
Proof.
  intros [? ?] [? ?] [? ?] [? ?] [? ?] [? ?] [? ?] [? ?] [? ?].
  apply find_complete. unfold dataRegexp. rewrite !append_assoc.
  do 8 (match goal with
        | |- matchHere (Cat (field ?n ?t ?c) _) _ _ _ <> None =>
            apply (matchHere_field_space n t c)
        end; [assumption | assumption | reflexivity | ]).
  apply (matchHere_field_total "status" "trig:"); [assumption | assumption | discriminate].
Qed.

Lemma fields_of_match (s : string) (m : submatches) :
  find dataRegexp s = Some m ->
  exists pre f post full,
    s = pre ++ render f ++ post /\ admissible f
    /\ m = [("", full); ("id", "Vehicle ID:" ++ fID f); ("", fID f);
            ("lat", "lat:" ++ fLat f); ("", fLat f); ("lng", "lon:" ++ fLng f); ("", fLng f);
            ("heading", "dir:" ++ fHeading f); ("", fHeading f);
            ("speed", "spd:" ++ fSpeed f); ("", fSpeed f);
            ("lock", "lck:" ++ fLock f); ("", fLock f);
            ("time", "time:" ++ fTime f); ("", fTime f);
            ("date", "date:" ++ fDate f); ("", fDate f);
            ("status", "trig:" ++ fStatus f); ("", fStatus f)].
Proof.
  intros Hf. apply dataRegexp_sound in Hf
    as (pre & post & id & lat & lng & heading & speed & lock & time & date & status
        & -> & H1 & H2 & H3 & H4 & H5 & H6 & H7 & H8 & H9 & full & ->).
  exists pre, (mkFields id lat lng heading speed lock time date status), post, full.
  split; [reflexivity | ]. split; [ | reflexivity].
  unfold admissible, value. cbn. tauto.
Qed.

(** The tokens that [update] cuts out of a matched record are the values of
    the fields. *)
Lemma tokens_of_record (vehicleData : string) :
  wellFormed vehicleData ->
  exists pre f post,
    vehicleData = pre ++ render f ++ post /\ admissible f
    /\ fieldOf vehicleData "id" "Vehicle ID:" = fID f
    /\ fieldOf vehicleData "lat" "lat:" = fLat f
    /\ fieldOf vehicleData "lng" "lon:" = fLng f
    /\ fieldOf vehicleData "heading" "dir:" = fHeading f
    /\ fieldOf vehicleData "speed" "spd:" = fSpeed f
    /\ fieldOf vehicleData "lock" "lck:" = fLock f
    /\ fieldOf vehicleData "time" "time:" = fTime f
    /\ fieldOf vehicleData "date" "date:" = fDate f.
Proof.
  unfold wellFormed, fieldOf.
  destruct (find dataRegexp vehicleData) as [m | ] eqn:Hf; [intros _ | intros []; reflexivity].
  destruct (fields_of_match _ _ Hf) as (pre & f & post & full & Hs & Hadm & ->).
  exists pre, f, post. split; [exact Hs | ]. split; [exact Hadm | ].
  destruct Hadm as ([_ H1] & [_ H2] & [_ H3] & [_ H4] & [_ H5] & [_ H6] & [_ H7] & [_ H8] & _).
  repeat split;
    match goal with
    | |- Replace (get ?r ?k) ?tag _ = ?v => change (get r k) with (tag ++ v)
    end.
  all: eapply Replace_tag; [ | eassumption]; reflexivity.
Qed.

Lemma time_and_date_are_digits (vehicleData : string) :
  wellFormed vehicleData ->
  allDigits (fieldOf vehicleData "time" "time:") = true
  /\ allDigits (fieldOf vehicleData "date" "date:") = true.
Proof.
  intros Hwf.
  destruct (tokens_of_record _ Hwf)
    as (pre & f & post & _ & Hadm & _ & _ & _ & _ & _ & _ & -> & ->).
  destruct Hadm as (_ & _ & _ & _ & _ & _ & [_ H7] & [_ H8] & _). split; assumption.
Qed.

End GrammarFacts.

Section GrammarOfTheFeed.
Import Regexp Updater Spec Strings Grammar GrammarFacts.

(** X1.  The grammar of [New] matches a record exactly when the record
    holds, somewhere, the nine tagged values in the order of the feed with
    one space between them, each value one byte or more of the class of its
    field: digits and points for the vehicle id; digits, points and minus
    signs for position, heading, speed and lock; digits for time, date and
    status. *)
Theorem grammar_matches_tagged_fields (vehicleData : string) :
  wellFormed vehicleData
  <-> exists pre f post, vehicleData = pre ++ render f ++ post /\ admissible f.
Proof.
  split.
  - intros Hwf. destruct (tokens_of_record _ Hwf) as (pre & f & post & Hs & Hadm & _). eauto.
  - intros (pre & [id lat lng heading speed lock time date status] & post & -> & Hadm).
    destruct Hadm as (H1 & H2 & H3 & H4 & H5 & H6 & H7 & H8 & H9).
    now apply dataRegexp_complete.
Qed.

(** X2.  The tokens that the goroutine cuts out of a matched record, by
    taking the named group and replacing the tag with nothing, are the values
    of the fields of a reading of the record: what stands between a tag and
    the next space. *)
Theorem tokens_are_field_values (vehicleData : string) :
  wellFormed vehicleData ->
  exists pre f post,
    vehicleData = pre ++ render f ++ post /\ admissible f
    /\ fieldOf vehicleData "id" "Vehicle ID:" = fID f
    /\ fieldOf vehicleData "lat" "lat:" = fLat f
    /\ fieldOf vehicleData "lng" "lon:" = fLng f
    /\ fieldOf vehicleData "heading" "dir:" = fHeading f
    /\ fieldOf vehicleData "speed" "spd:" = fSpeed f
    /\ fieldOf vehicleData "lock" "lck:" = fLock f
    /\ fieldOf vehicleData "time" "time:" = fTime f
    /\ fieldOf vehicleData "date" "date:" = fDate f.
Proof. apply tokens_of_record. Qed.

End GrammarOfTheFeed.

(** ** The outcomes of [generateTimestamp] *)

Module StampFacts.
Import Strconv Spec GoTime Timestamp Tokens ClockFacts Strings.

Lemma slice_ok (s : string) (lo hi : Z) :
  0 <= lo -> lo <= hi -> hi <= len s ->
  slice s lo hi = Ret (String.substring (Z.to_nat lo) (Z.to_nat (hi - lo)) s).
Proof.
  intros H1 H2 H3. unfold slice.
  now rewrite (proj2 (Z.leb_le 0 lo) H1), (proj2 (Z.leb_le lo hi) H2), (proj2 (Z.leb_le hi _) H3).
Qed.

Lemma slice_panics (s : string) (lo hi : Z) :
  lo < 0 \/ hi < lo \/ len s < hi -> slice s lo hi = Panic.
Proof.
  intros H. unfold slice.
  destruct (0 <=? lo) eqn:E1; [ | reflexivity].
  destruct (lo <=? hi) eqn:E2; [ | reflexivity].
  destruct (hi <=? len s) eqn:E3; [ | reflexivity].
  apply Z.leb_le in E1, E2, E3. lia.
Qed.

Lemma length_substring (a b : nat) (s : string) :
  (a + b <= String.length s)%nat -> String.length (String.substring a b s) = b.
Proof.
  revert a b. induction s as [ | c s IH]; intros a b Hl.
  - cbn in Hl. assert (a = O) by lia. assert (b = O) by lia. subst. reflexivity.
  - destruct a as [ | a].
    + destruct b as [ | b]; [reflexivity | ]. cbn [String.substring String.length].
      f_equal. apply IH. cbn in Hl. lia.
    + cbn [String.substring]. apply IH. cbn in Hl. lia.
Qed.

(** [Atoi] on a piece of one to eighteen digits cut from a token of digits. *)
Lemma Atoi_piece (a b : nat) (s : string) :
  allDigits s = true -> (1 <= b <= 18)%nat -> (a + b <= String.length s)%nat ->
  Atoi (String.substring a b s) = (decimal (String.substring a b s), None).
Proof.
  intros Hs Hb Hl. pose proof (length_substring a b s Hl) as Hlen.
  apply Atoi_digits.
  - intros E. rewrite E in Hlen. cbn in Hlen. lia.
  - now apply allDigits_substring.
  - lia.
Qed.

(** The month that [AddDate] and [Month] make of any number of two digits:
    the number reduced to 1..12, the year it would carry into being lost. *)
Lemma Month_wraps (m : Z) :
  0 <= m <= 99 -> Month (AddDate zeroTime 0 (Int64.i64 (m - 1)) 0) = (m - 1) mod 12 + 1.
Proof.
  intros Hm.
  assert (Hall : forallb (fun k => Month (AddDate zeroTime 0 (Int64.i64 (Z.of_nat k - 1)) 0)
                                   =? (Z.of_nat k - 1) mod 12 + 1) (seq 0 100) = true)
    by (vm_compute; reflexivity).
  rewrite forallb_forall in Hall.
  specialize (Hall (Z.to_nat m)). rewrite Z2Nat.id in Hall by lia.
  apply Z.eqb_eq, Hall, in_seq. lia.
Qed.

Lemma Atoi_error (s : string) (v : Z) (e : error) :
  Atoi s = (v, Some e) -> e = ErrSyntax "Atoi" s \/ e = ErrRange "Atoi" s.
Proof.
  unfold Atoi. destruct s as [ | c rest]; [intros [= _ <-]; now left | ].
  destruct (if (Ascii.eqb c "-" || Ascii.eqb c "+")%bool then rest else String c rest);
    [intros [= _ <-]; now left | ].
  destruct (digits 0 _) as [un | ]; [ | intros [= _ <-]; now left].
  destruct (negb _ && _); [intros [= _ <-]; now right | ].
  destruct (_ && _); [intros [= _ <-]; now right | discriminate].
Qed.

Lemma Ret_pair {A B} (a c : A) (b d : B) : Ret (a, b) = Ret (c, d) -> a = c /\ b = d.
Proof. intros [= -> ->]. auto. Qed.

Lemma Date_wall_loc (year month day hour min sec : Z) (l : Location) :
  wall (Date year month day hour min sec 0 l) = 0 /\ loc (Date year month day hour min sec 0 l) = l.
Proof.
  unfold Date. change (norm sec 0 1000000000) with (sec, 0).
  destruct (norm year _ 12) as [y m]. cbv beta iota.
  repeat match goal with |- context [norm ?a ?b ?c] => destruct (norm a b c) end.
  split; reflexivity.
Qed.

Lemma slice_nat (s : string) (a b : nat) :
  (a <= b <= String.length s)%nat ->
  slice s (Z.of_nat a) (Z.of_nat b) = Ret (String.substring a (b - a) s).
Proof.
  intros Hab. rewrite slice_ok by (unfold len; lia).
  now rewrite <- Nat2Z.inj_sub, !Nat2Z.id by lia.
Qed.

Lemma day_field (itrakDate : string) :
  allDigits itrakDate = true -> (4 <= String.length itrakDate)%nat ->
  slice itrakDate 2 4 = Ret (String.substring 2 2 itrakDate)
  /\ Atoi (String.substring 2 2 itrakDate) = (decimal (String.substring 2 2 itrakDate), None).
Proof.
  intros HD Hlen. split; [exact (slice_nat itrakDate 2 4 ltac:(lia)) | ].
  apply Atoi_piece; [assumption | lia | lia].
Qed.

(** The date part of [generateTimestamp] on a token of eight digits or more. *)
Lemma date_fields (itrakDate : string) :
  allDigits itrakDate = true -> (8 <= String.length itrakDate)%nat ->
  slice itrakDate 2 4 = Ret (String.substring 2 2 itrakDate)
  /\ Atoi (String.substring 2 2 itrakDate) = (decimal (String.substring 2 2 itrakDate), None)
  /\ slice itrakDate 4 8 = Ret (String.substring 4 4 itrakDate)
  /\ Atoi (String.substring 4 4 itrakDate) = (decimal (String.substring 4 4 itrakDate), None)
  /\ slice itrakDate 0 2 = Ret (String.substring 0 2 itrakDate)
  /\ Atoi (String.substring 0 2 itrakDate) = (decimal (String.substring 0 2 itrakDate), None)
  /\ 0 <= decimal (String.substring 0 2 itrakDate) <= 99.
Proof.
  intros HD Hlen.
  split; [exact (slice_nat itrakDate 2 4 ltac:(lia)) | ].
  split; [apply Atoi_piece; [assumption | lia | lia] | ].
  split; [exact (slice_nat itrakDate 4 8 ltac:(lia)) | ].
  split; [apply Atoi_piece; [assumption | lia | lia] | ].
  split; [exact (slice_nat itrakDate 0 2 ltac:(lia)) | ].
  split; [apply Atoi_piece; [assumption | lia | lia] | ].
  pose proof (decimal_bound _ (allDigits_substring 0 2 itrakDate HD)) as Hb.
  rewrite length_substring in Hb by lia. change (10 ^ Z.of_nat 2) with 100 in Hb. lia.
Qed.

End StampFacts.

Section TimestampOutcomes.
Import Strconv Spec GoTime Timestamp Tokens ClockFacts Strings StampFacts.

(** X3.  Whatever the tokens are, an error of [generateTimestamp] is the
    error of an [Atoi] and comes with the zero [Time]; a timestamp that comes
    without error is in UTC with no nanoseconds, so that two of them are
    [==] exactly when they are the same instant. *)
Theorem generateTimestamp_results (itrakTime itrakDate : string) (t : Time) (err : option error) :
  generateTimestamp itrakTime itrakDate = Ret (t, err) ->
  (forall e, err = Some e ->
     t = zeroTime /\ exists s, e = ErrSyntax "Atoi" s \/ e = ErrRange "Atoi" s)
  /\ (err = None ->
      loc t = UTC /\ wall t = 0
      /\ forall itrakTime' itrakDate' t',
           generateTimestamp itrakTime' itrakDate' = Ret (t', None) ->
           (Time_eqb t' t = true <-> Unix t' = Unix t)).
Proof.
  assert (Hshape : forall tm dt t0 err0, generateTimestamp tm dt = Ret (t0, err0) ->
            (forall e, err0 = Some e ->
               t0 = zeroTime /\ exists s, e = ErrSyntax "Atoi" s \/ e = ErrRange "Atoi" s)
            /\ (err0 = None -> loc t0 = UTC /\ wall t0 = 0)).
  { intros tm dt t0 err0. unfold generateTimestamp.
    repeat (match goal with
            | |- context [go_bind (slice ?s ?lo ?hi) _] =>
                destruct (slice s lo hi) as [ | ?]; cbn [go_bind]; [discriminate | ]
            | |- context [Atoi ?s] =>
                let E := fresh "E" in
                destruct (Atoi s) as [? [? | ]] eqn:E;
                [apply Atoi_error in E; intros [= <- <-]; split;
                 [intros ? [= <-]; split; [reflexivity | eauto] | discriminate] | ]
            end).
    intros Hr. apply Ret_pair in Hr as [<- <-]. split; [discriminate | ]. intros _.
    destruct (Date_wall_loc z0 (Month (AddDate zeroTime 0 (Int64.i64 (z1 - 1)) 0)) z z2 z3 z4 UTC).
    auto. }
  intros Hg. destruct (Hshape _ _ _ _ Hg) as [Herr Hok]. split; [exact Herr | ].
  intros ->. destruct (Hok eq_refl) as [Hl Hw]. repeat split; try assumption.
  - intros E. apply TimeFacts.Time_eqb_eq in E. now subst.
  - intros HU. destruct (Hshape _ _ _ _ H) as [_ Hok']. destruct (Hok' eq_refl) as [Hl' Hw'].
    apply TimeFacts.Time_eqb_eq. destruct t as [w e l], t' as [w' e' l'].
    cbn [wall ext loc] in *. unfold Unix in HU. cbn [ext] in HU. subst. f_equal. lia.
Qed.

(** The outcomes on tokens of digits, by their lengths. *)
Lemma digit_token_outcomes (itrakTime itrakDate : string) :
  allDigits itrakTime = true -> allDigits itrakDate = true ->
  let n := String.length itrakTime in
  ((String.length itrakDate < 8 \/ n < 4)%nat ->
     generateTimestamp itrakTime itrakDate = Panic)
  /\ ((8 <= String.length itrakDate)%nat -> n = 4%nat ->
      generateTimestamp itrakTime itrakDate = Ret (zeroTime, Some (ErrSyntax "Atoi" "")))
  /\ ((8 <= String.length itrakDate)%nat -> (5 <= n <= 22)%nat ->
      generateTimestamp itrakTime itrakDate
      = Ret (Date (decimal (String.substring 4 4 itrakDate))
                  ((decimal (String.substring 0 2 itrakDate) - 1) mod 12 + 1)
                  (decimal (String.substring 2 2 itrakDate))
                  (decimal (String.substring 0 (n - 4) itrakTime))
                  (decimal (String.substring (n - 4) 2 itrakTime))
                  (decimal (String.substring (n - 2) 2 itrakTime))
                  0 UTC,
             None)).
Proof.
  intros HT HD n.
  assert (Hdate : (8 <= String.length itrakDate)%nat ->
            generateTimestamp itrakTime itrakDate
            = (s <~ slice itrakTime 0 (len itrakTime - 4) ;;
               let '(hour, err) := Atoi s in
               if err is Some e then Ret (zeroTime, Some e) else
               s <~ slice itrakTime (len itrakTime - 4) (len itrakTime - 2) ;;
               let '(minute, err) := Atoi s in
               if err is Some e then Ret (zeroTime, Some e) else
               s <~ slice itrakTime (len itrakTime - 2) (len itrakTime) ;;
               let '(second, err) := Atoi s in
               if err is Some e then Ret (zeroTime, Some e) else
               Ret (Date (decimal (String.substring 4 4 itrakDate))
                         ((decimal (String.substring 0 2 itrakDate) - 1) mod 12 + 1)
                         (decimal (String.substring 2 2 itrakDate))
                         hour minute second 0 UTC, None))%go).
  { intros Hlen. destruct (date_fields itrakDate HD Hlen) as (S1 & A1 & S2 & A2 & S3 & A3 & Hm).
    unfold generateTimestamp. rewrite S1. cbn [go_bind]. rewrite A1, S2. cbn [go_bind].
    rewrite A2, S3. cbn [go_bind]. rewrite A3. now rewrite Month_wraps. }
  split; [ | split].
  - intros [Hshort | Hshort].
    + unfold generateTimestamp.
      destruct (Nat.lt_ge_cases (String.length itrakDate) 4) as [H4 | H4].
      * now rewrite slice_panics by (unfold len; lia).
      * destruct (day_field itrakDate HD H4) as [S1 A1]. rewrite S1. cbn [go_bind]. rewrite A1.
        now rewrite slice_panics by (unfold len; lia).
    + destruct (Nat.lt_ge_cases (String.length itrakDate) 8) as [H8 | H8].
      * unfold generateTimestamp.
        destruct (Nat.lt_ge_cases (String.length itrakDate) 4) as [H4 | H4].
        -- now rewrite slice_panics by (unfold len; lia).
        -- destruct (day_field itrakDate HD H4) as [S1 A1]. rewrite S1. cbn [go_bind]. rewrite A1.
           now rewrite slice_panics by (unfold len; lia).
      * rewrite (Hdate H8). now rewrite slice_panics by (unfold len; fold n; lia).
  - intros H8 Hn. rewrite (Hdate H8). unfold len. fold n. rewrite Hn.
    change (slice itrakTime 0 (Z.of_nat 4 - 4)) with (slice itrakTime (Z.of_nat 0) (Z.of_nat 0)).
    rewrite (slice_nat itrakTime 0 0) by lia.
    cbn [go_bind]. destruct itrakTime; reflexivity.
  - intros H8 Hn. rewrite (Hdate H8). unfold len. fold n.
    replace (Z.of_nat n - 4) with (Z.of_nat (n - 4)) by lia.
    replace (Z.of_nat n - 2) with (Z.of_nat (n - 2)) by lia.
    change (slice itrakTime 0) with (slice itrakTime (Z.of_nat 0)).
    rewrite (slice_nat itrakTime 0 (n - 4)) by (fold n; lia).
    rewrite (slice_nat itrakTime (n - 4) (n - 2)) by (fold n; lia).
    rewrite (slice_nat itrakTime (n - 2) n) by (fold n; lia).
    cbn [go_bind].
    replace (n - 4 - 0)%nat with (n - 4)%nat by lia.
    replace (n - 2 - (n - 4))%nat with 2%nat by lia.
    replace (n - (n - 2))%nat with 2%nat by lia.
    rewrite !Atoi_piece by (assumption || (fold n; lia)).
    reflexivity.
Qed.

(** X4.  On tokens of digits, as the grammar of the feed hands them over:
    a date token of fewer than eight digits or a time token of fewer than
    four makes [generateTimestamp] panic; a time token of exactly four digits
    leaves nothing for the hour and is rejected with the syntax error of
    [Atoi] on the empty string; with five to twenty-two digits the result is
    the date built from the fields, the number of the month reduced to 1..12
    without carry into the year. *)
Theorem generateTimestamp_on_digit_tokens (itrakTime itrakDate : string) :
  allDigits itrakTime = true -> allDigits itrakDate = true ->
  let n := String.length itrakTime in
  ((String.length itrakDate < 8 \/ n < 4)%nat ->
     generateTimestamp itrakTime itrakDate = Panic)
  /\ ((8 <= String.length itrakDate)%nat -> n = 4%nat ->
      generateTimestamp itrakTime itrakDate = Ret (zeroTime, Some (ErrSyntax "Atoi" "")))
  /\ ((8 <= String.length itrakDate)%nat -> (5 <= n <= 22)%nat ->
      generateTimestamp itrakTime itrakDate
      = Ret (Date (decimal (String.substring 4 4 itrakDate))
                  ((decimal (String.substring 0 2 itrakDate) - 1) mod 12 + 1)
                  (decimal (String.substring 2 2 itrakDate))
                  (decimal (String.substring 0 (n - 4) itrakTime))
                  (decimal (String.substring (n - 4) 2 itrakTime))
                  (decimal (String.substring (n - 2) 2 itrakTime))
                  0 UTC,
             None)).
Proof. apply digit_token_outcomes. Qed.


End TimestampOutcomes.

(** ** The goroutine of one record: lookups that fail, and panics *)

Section Goroutine.
Import Updater Spec GoMath GoTime Strconv StrconvFloat Timestamp Regexp.
Import GrammarFacts StampFacts.

Context {DB : Type} `{Database DB}.
Variable rangeKeys : gmap string float -> list string.

Lemma generateTimestamp_returns (itrakTime itrakDate : string) :
  (4 <= String.length itrakTime)%nat -> (8 <= String.length itrakDate)%nat ->
  exists r, generateTimestamp itrakTime itrakDate = Ret r.
Proof.
  intros HT HD. unfold generateTimestamp.
  rewrite (slice_ok itrakDate 2 4) by (unfold Strings.len; lia). cbn [go_bind].
  destruct (Atoi _) as [day [e | ]]; [eauto | ].
  rewrite (slice_ok itrakDate 4 8) by (unfold Strings.len; lia). cbn [go_bind].
  destruct (Atoi _) as [year [e | ]]; [eauto | ].
  rewrite (slice_ok itrakDate 0 2) by (unfold Strings.len; lia). cbn [go_bind].
  destruct (Atoi _) as [monthNum [e | ]]; [eauto | ].
  rewrite (slice_ok itrakTime 0 _) by (unfold Strings.len; lia). cbn [go_bind].
  destruct (Atoi _) as [hour [e | ]]; [eauto | ].
  rewrite (slice_ok itrakTime (_ - 4) _) by (unfold Strings.len; lia). cbn [go_bind].
  destruct (Atoi _) as [minute [e | ]]; [eauto | ].
  rewrite (slice_ok itrakTime (_ - 2) _) by (unfold Strings.len; lia). cbn [go_bind].
  destruct (Atoi _) as [second [e | ]]; eauto.
Qed.


(** The lookups that end the goroutine with the store as it was. *)
Lemma updateVehicle_vehicle_lookup_fails (now : Time) (vehicleData : string) (db : DB)
    (log : list Log.entry) (vehicleID : Z) (vehicle : Vehicle.t) (e : error) :
  wellFormed vehicleData ->
  Atoi (fieldOf vehicleData "id" "Vehicle ID:") = (vehicleID, None) ->
  GetVehicleByITrakID db vehicleID = (vehicle, Some e) ->
  updateVehicle rangeKeys now vehicleData (db, log)
  = Returned
      (db, (log ++ [if e is ErrVehicleNotFound
                    then Log.Warnf "Unknown iTrak vehicle ID %d. Make sure all vehicles have been added."
                    else Log.WithError e "Unable to fetch vehicle."])%list).
Proof.
  unfold wellFormed, fieldOf.
  destruct (find dataRegexp vehicleData) as [m | ] eqn:Hfind; [ | intros []; reflexivity].
  intros _ Hid Hveh. unfold updateVehicle, firstSubmatch. rewrite Hfind.
  unfold tbind at 1. unfold lift at 1. cbv zeta.
  rewrite Hid. unfold tbind at 1. unfold query at 1. rewrite Hveh.
  destruct e; reflexivity.
Qed.

Lemma updateVehicle_last_update_fails (now : Time) (vehicleData : string) (db : DB)
    (log : list Log.entry) (vehicleID : Z) (vehicle : Vehicle.t) (speedKMH : float)
    (lastUpdate : Update.t) (e : error) :
  wellFormed vehicleData ->
  Atoi (fieldOf vehicleData "id" "Vehicle ID:") = (vehicleID, None) ->
  GetVehicleByITrakID db vehicleID = (vehicle, None) ->
  ParseFloat (fieldOf vehicleData "speed" "spd:") = (speedKMH, None) ->
  GetLastUpdateForVehicle db (Vehicle.ID vehicle) = (lastUpdate, Some e) ->
  e <> ErrUpdateNotFound ->
  updateVehicle rangeKeys now vehicleData (db, log)
  = Returned (db, (log ++ [Log.WithError e "Unable to retrieve last update."])%list).
Proof.
  unfold wellFormed, fieldOf.
  destruct (find dataRegexp vehicleData) as [m | ] eqn:Hfind; [ | intros []; reflexivity].
  intros _ Hid Hveh Hspd Hlast He. unfold updateVehicle, firstSubmatch. rewrite Hfind.
  unfold tbind at 1. unfold lift at 1. cbv zeta.
  rewrite Hid. unfold tbind at 1. unfold query at 1. rewrite Hveh.
  rewrite Hspd. unfold tbind at 1. unfold query at 1. rewrite Hlast.
  destruct e; try reflexivity. contradiction.
Qed.

Lemma updateVehicle_timestamp_panics (now : Time) (vehicleData : string) (db : DB)
    (log : list Log.entry) (vehicleID : Z) (vehicle : Vehicle.t) (speedKMH : float)
    (lastUpdate : Update.t) (elast : option error) :
  wellFormed vehicleData ->
  Atoi (fieldOf vehicleData "id" "Vehicle ID:") = (vehicleID, None) ->
  GetVehicleByITrakID db vehicleID = (vehicle, None) ->
  ParseFloat (fieldOf vehicleData "speed" "spd:") = (speedKMH, None) ->
  GetLastUpdateForVehicle db (Vehicle.ID vehicle) = (lastUpdate, elast) ->
  elast = None \/ elast = Some ErrUpdateNotFound ->
  generateTimestamp (fieldOf vehicleData "time" "time:") (fieldOf vehicleData "date" "date:")
  = Panic ->
  updateVehicle rangeKeys now vehicleData (db, log) = Panicked.
Proof.
  unfold wellFormed, fieldOf.
  destruct (find dataRegexp vehicleData) as [m | ] eqn:Hfind; [ | intros []; reflexivity].
  intros _ Hid Hveh Hspd Hlast Helast Hts.
  unfold updateVehicle, firstSubmatch. rewrite Hfind.
  unfold tbind at 1. unfold lift at 1. cbv zeta.
  rewrite Hid. unfold tbind at 1. unfold query at 1. rewrite Hveh.
  rewrite Hspd. unfold tbind at 1. unfold query at 1. rewrite Hlast.
  destruct Helast as [-> | ->]; unfold tbind at 1; unfold tret at 1;
    unfold tbind at 1; unfold lift at 1; rewrite Hts; reflexivity.
Qed.

(** What a goroutine can do to the store and to the log. *)
Lemma updateVehicle_effect (now : Time) (vehicleData : string) (db : DB) (log : list Log.entry) :
  match updateVehicle rangeKeys now vehicleData (db, log) with
  | Panicked => True
  | Returned (db', log') => db' = db /\ exists l, log' = (log ++ l)%list
  | Next _ (db', log') =>
      exists u l vehicleID,
        db' = fst (CreateUpdate db u) /\ log' = (log ++ l)%list
        /\ Update.VehicleID u = Vehicle.ID (fst (GetVehicleByITrakID db vehicleID))
        /\ Update.Created u = now
  end.
Proof.
  unfold updateVehicle, firstSubmatch.
  destruct (find dataRegexp vehicleData) as [m | ]; [ | exact I].
  unfold tbind at 1. unfold lift at 1. cbv zeta.
  destruct (Atoi _) as [vehicleID [e | ]];
    [cbn; split; [reflexivity | eauto] | ].
  unfold tbind at 1. unfold query at 1.
  destruct (GetVehicleByITrakID db vehicleID) as [vehicle [e | ]] eqn:Hveh;
    [destruct e; cbn; split; (reflexivity || eauto) | ].
  destruct (ParseFloat _) as [speedKMH [e | ]]; [cbn; split; [reflexivity | eauto] | ].
  unfold tbind at 1. unfold query at 1.
  destruct (GetLastUpdateForVehicle db (Vehicle.ID vehicle)) as [lastUpdate elast].
  assert (Htail : forall gotLastUpdate : bool,
    match
    (let* pat := lift (generateTimestamp
                         (Strings.Replace (get (namedGroups m) "time") "time:" "")
                         (Strings.Replace (get (namedGroups m) "date") "date:" "")) in
     match pat with
     | (timestamp0, Some e) =>
         logEntry (Log.WithError e "Unable to generate update timestamp.");; exit
     | (timestamp0, None) =>
         if gotLastUpdate && Time_eqb (Update.Timestamp lastUpdate) timestamp0 then exit
         else
           logEntry (Log.Debugf "Updating %s.");;
           let* pat0 := guessRoute rangeKeys now vehicle in
           match pat0 with
           | (route, Some e) =>
               logEntry (Log.WithError e "Unable to guess route for vehicle.");; exit
           | (route, None) =>
               let '(latitude, err1) :=
                 ParseFloat (Strings.Replace (get (namedGroups m) "lat") "lat:" "") in
               (if err1 is Some e then logEntry (Log.Error e) else tret ());;
               let '(longitude, err2) :=
                 ParseFloat (Strings.Replace (get (namedGroups m) "lng") "lon:" "") in
               (if err2 is Some e then logEntry (Log.Error e) else tret ());;
               let* err3 :=
                 createUpdate
                   (Update.mk 0 (Vehicle.ID vehicle) latitude longitude
                      (Strings.Replace (get (namedGroups m) "heading") "dir:" "")
                      (FormatFloat (kphToMPH speedKMH) 5)
                      (Strings.Replace (get (namedGroups m) "lock") "lck:" "")
                      timestamp0 now (Route.ID route)) in
               if err3 is Some e
               then logEntry (Log.WithError e "Could not insert vehicle update.")
               else tret ()
           end
     end)%task (db, log)
    with
    | Panicked => True
    | Returned (db', log') => db' = db /\ exists l, log' = (log ++ l)%list
    | Next _ (db', log') =>
        exists u l vehicleID,
          db' = fst (CreateUpdate db u) /\ log' = (log ++ l)%list
          /\ Update.VehicleID u = Vehicle.ID (fst (GetVehicleByITrakID db vehicleID))
          /\ Update.Created u = now
    end).
  { intros got. unfold tbind at 1. unfold lift at 1.
    destruct (generateTimestamp _ _) as [ | [timestamp [e | ]]]; [exact I | | ].
    { cbn. split; [reflexivity | eauto]. }
    destruct (got && Time_eqb (Update.Timestamp lastUpdate) timestamp).
    { cbn. split; [reflexivity | ]. exists []. now rewrite app_nil_r. }
    unfold tbind at 1. unfold logEntry at 1. unfold tbind at 1. unfold guessRoute.
    destruct (GuessRouteForVehicle rangeKeys db now vehicle) as [[route [e | ]] l].
    { cbn. split; [reflexivity | ]. rewrite <- !app_assoc. eauto. }
    destruct (ParseFloat (Strings.Replace (get (namedGroups m) "lat") "lat:" ""))
      as [latitude [e1 | ]];
    destruct (ParseFloat (Strings.Replace (get (namedGroups m) "lng") "lon:" ""))
      as [longitude [e2 | ]];
    unfold tbind, logEntry, createUpdate, tret;
    match goal with
    | |- context [CreateUpdate db ?u] =>
        destruct (CreateUpdate db u) as [db' [e3 | ]] eqn:Hc;
        exists u; eexists; exists vehicleID; rewrite Hc, Hveh;
        (split; [reflexivity | ]); (split; [ | split; reflexivity]);
        rewrite <- ?app_assoc; reflexivity
    end. }
  destruct elast as [e | ].
  - destruct e; try (cbn; split; [reflexivity | eauto]).
    unfold tbind at 1. unfold tret at 1. apply Htail.
  - unfold tbind at 1. unfold tret at 1. apply Htail.
Qed.


Lemma short_tokens_panic (itrakTime itrakDate : string) :
  allDigits itrakTime = true -> allDigits itrakDate = true ->
  (String.length itrakTime < 4 \/ String.length itrakDate < 8)%nat ->
  generateTimestamp itrakTime itrakDate = Panic.
Proof.
  intros HT HD Hshort.
  apply (proj1 (digit_token_outcomes itrakTime itrakDate HT HD)). tauto.
Qed.

(** X5.  A goroutine panics in two cases and no other: the grammar does not
    match its record; or the record is matched, its vehicle is known, its
    speed parses, the query for the last update succeeds or finds nothing,
    and the time token has fewer than four digits or the date token fewer
    than eight, so that [generateTimestamp] slices out of range. *)
Theorem goroutine_panics_exactly_when (now : Time) (vehicleData : string) (db : DB)
    (log : list Log.entry) :
  updateVehicle rangeKeys now vehicleData (db, log) = Panicked
  <-> ~ wellFormed vehicleData
      \/ (wellFormed vehicleData
          /\ exists vehicleID vehicle speedKMH lastUpdate elast,
               Atoi (fieldOf vehicleData "id" "Vehicle ID:") = (vehicleID, None)
               /\ GetVehicleByITrakID db vehicleID = (vehicle, None)
               /\ ParseFloat (fieldOf vehicleData "speed" "spd:") = (speedKMH, None)
               /\ GetLastUpdateForVehicle db (Vehicle.ID vehicle) = (lastUpdate, elast)
               /\ (elast = None \/ elast = Some ErrUpdateNotFound)
               /\ (String.length (fieldOf vehicleData "time" "time:") < 4
                   \/ String.length (fieldOf vehicleData "date" "date:") < 8)%nat).
Proof.
  split.
  - intros Hp.
    destruct (find dataRegexp vehicleData) as [m | ] eqn:Hfind;
      [ | left; unfold wellFormed; rewrite Hfind; auto].
    assert (Hwf : wellFormed vehicleData) by (unfold wellFormed; rewrite Hfind; discriminate).
    right. split; [exact Hwf | ].
    destruct (Atoi (fieldOf vehicleData "id" "Vehicle ID:")) as [vehicleID [e | ]] eqn:Hid.
    { rewrite (updateVehicle_bad_id rangeKeys now vehicleData db log _ _ Hwf Hid) in Hp.
      discriminate. }
    destruct (GetVehicleByITrakID db vehicleID) as [vehicle [e | ]] eqn:Hveh.
    { rewrite (updateVehicle_vehicle_lookup_fails now vehicleData db log _ _ _ Hwf Hid Hveh) in Hp.
      discriminate. }
    destruct (ParseFloat (fieldOf vehicleData "speed" "spd:")) as [speedKMH [e | ]] eqn:Hspd.
    { rewrite (updateVehicle_bad_speed rangeKeys now vehicleData db log _ _ _ _ Hwf Hid Hveh Hspd)
        in Hp. discriminate. }
    destruct (GetLastUpdateForVehicle db (Vehicle.ID vehicle)) as [lastUpdate elast] eqn:Hlast.
    assert (Helast : elast = None \/ elast = Some ErrUpdateNotFound).
    { destruct elast as [e | ]; [ | now left].
      assert (He : e = ErrUpdateNotFound \/ e <> ErrUpdateNotFound)
        by (destruct e; (now left) || (right; discriminate)).
      destruct He as [-> | He]; [now right | ].
      rewrite (updateVehicle_last_update_fails now vehicleData db log _ _ _ _ _
                 Hwf Hid Hveh Hspd Hlast He) in Hp. discriminate. }
    exists vehicleID, vehicle, speedKMH, lastUpdate, elast. repeat (split; [reflexivity || assumption | ]).
    destruct (Nat.lt_ge_cases (String.length (fieldOf vehicleData "time" "time:")) 4)
      as [HT | HT]; [now left | ].
    destruct (Nat.lt_ge_cases (String.length (fieldOf vehicleData "date" "date:")) 8)
      as [HD | HD]; [now right | exfalso].
    destruct (generateTimestamp_returns _ _ HT HD) as [[timestamp [e | ]] Hts].
    + rewrite (updateVehicle_bad_timestamp rangeKeys now vehicleData db log _ _ _ _ _ _ _
                 Hwf Hid Hveh Hspd Hlast Helast Hts) in Hp. discriminate.
    + rewrite (updateVehicle_known rangeKeys now vehicleData db log _ _ _ _ _ _
                 Hwf Hid Hveh Hspd Hlast Helast Hts) in Hp.
      destruct (_ && _); [discriminate | ].
      destruct (GuessRouteForVehicle rangeKeys db now vehicle) as [[route [e | ]] l];
        [discriminate | ].
      destruct (CreateUpdate db _); discriminate.
  - intros [Hbad | (Hwf & vehicleID & vehicle & speedKMH & lastUpdate & elast
                    & Hid & Hveh & Hspd & Hlast & Helast & Hshort)].
    + now apply updateVehicle_malformed.
    + destruct (time_and_date_are_digits _ Hwf) as [HT HD].
      eapply updateVehicle_timestamp_panics; try eassumption.
      now apply short_tokens_panic.
Qed.


(** X6.  What a goroutine does to the store and to the log, whatever its
    record and whatever the store answers: unless it panics, it either
    returns with the store as it was, or runs to its end with the store that
    one call of [CreateUpdate] has returned, for an update of the vehicle
    that was looked up, created [now]; the log is only added to. *)
Theorem goroutine_writes_at_most_once (now : Time) (vehicleData : string) (db : DB)
    (log : list Log.entry) :
  match updateVehicle rangeKeys now vehicleData (db, log) with
  | Panicked => True
  | Returned (db', log') => db' = db /\ exists l, log' = (log ++ l)%list
  | Next _ (db', log') =>
      exists u l vehicleID,
        db' = fst (CreateUpdate db u) /\ log' = (log ++ l)%list
        /\ Update.VehicleID u = Vehicle.ID (fst (GetVehicleByITrakID db vehicleID))
        /\ Update.Created u = now
  end.
Proof. apply updateVehicle_effect. Qed.

(** X7.  A lookup that fails ends the goroutine with the store as it was and
    one line in the log: a warning when the vehicle is not known, an error
    when the query for the vehicle fails otherwise, and an error when the
    query for the last update fails with anything but [ErrUpdateNotFound]. *)
Theorem failed_lookup_ends_the_goroutine (now : Time) (vehicleData : string) (db : DB)
    (log : list Log.entry) (vehicleID : Z) :
  wellFormed vehicleData ->
  Atoi (fieldOf vehicleData "id" "Vehicle ID:") = (vehicleID, None) ->
  (forall vehicle e,
     GetVehicleByITrakID db vehicleID = (vehicle, Some e) ->
     updateVehicle rangeKeys now vehicleData (db, log)
     = Returned
         (db, (log ++ [if e is ErrVehicleNotFound
                       then Log.Warnf
                              "Unknown iTrak vehicle ID %d. Make sure all vehicles have been added."
                       else Log.WithError e "Unable to fetch vehicle."])%list))
  /\ (forall vehicle speedKMH lastUpdate e,
        GetVehicleByITrakID db vehicleID = (vehicle, None) ->
        ParseFloat (fieldOf vehicleData "speed" "spd:") = (speedKMH, None) ->
        GetLastUpdateForVehicle db (Vehicle.ID vehicle) = (lastUpdate, Some e) ->
        e <> ErrUpdateNotFound ->
        updateVehicle rangeKeys now vehicleData (db, log)
        = Returned (db, (log ++ [Log.WithError e "Unable to retrieve last update."])%list)).
Proof.
  intros Hwf Hid. split.
  - intros vehicle e Hveh. eapply updateVehicle_vehicle_lookup_fails; eassumption.
  - intros vehicle speedKMH lastUpdate e Hveh Hspd Hlast He.
    eapply updateVehicle_last_update_fails; eassumption.
Qed.

(** X8.  The error of the query for the recent updates is what
    [GuessRouteForVehicle] returns when the query comes back with fewer than
    five rows, and it ends the goroutine: the failure is logged and nothing
    is handed to [CreateUpdate]. *)
Theorem failed_updates_query_abandons_record (now : Time) (vehicleData : string) (db : DB)
    (log : list Log.entry) (vehicleID : Z) (vehicle : Vehicle.t) (speedKMH : float)
    (lastUpdate : Update.t) (elast : option error) (timestamp : Time)
    (updates : list Update.t) (e : error) :
  wellFormed vehicleData ->
  Atoi (fieldOf vehicleData "id" "Vehicle ID:") = (vehicleID, None) ->
  GetVehicleByITrakID db vehicleID = (vehicle, None) ->
  ParseFloat (fieldOf vehicleData "speed" "spd:") = (speedKMH, None) ->
  GetLastUpdateForVehicle db (Vehicle.ID vehicle) = (lastUpdate, elast) ->
  elast = None /\ Update.Timestamp lastUpdate <> timestamp \/ elast = Some ErrUpdateNotFound ->
  generateTimestamp (fieldOf vehicleData "time" "time:") (fieldOf vehicleData "date" "date:")
  = Ret (timestamp, None) ->
  GetUpdatesForVehicleSince db (Vehicle.ID vehicle) (Add now (Minute * -15))
  = (updates, Some e) ->
  (List.length updates < 5)%nat ->
  let guessLog :=
    ((if snd (GetRoutes db) is Some e1 then [Log.Error e1] else [])
       ++ [Log.Debugf "%v has too few recent updates (%d) to guess route."])%list in
  GuessRouteForVehicle rangeKeys db now vehicle = (Route.zero, Some e, guessLog)
  /\ updateVehicle rangeKeys now vehicleData (db, log)
     = Returned (db, (log ++ [Log.Debugf "Updating %s."] ++ guessLog
                        ++ [Log.WithError e "Unable to guess route for vehicle."])%list).
Proof.
  intros Hwf Hid Hveh Hspd Hlast Hnew Hts Hq Hlen guessLog.
  assert (Hguess : GuessRouteForVehicle rangeKeys db now vehicle = (Route.zero, Some e, guessLog)).
  { unfold GuessRouteForVehicle, guessLog. destruct (GetRoutes db) as [routes e1]. rewrite Hq.
    cbn [snd]. apply Nat.ltb_lt in Hlen. now rewrite Hlen. }
  split; [exact Hguess | ].
  assert (Helast : elast = None \/ elast = Some ErrUpdateNotFound)
    by (destruct Hnew as [[-> _] | ->]; auto).
  rewrite (updateVehicle_known rangeKeys now vehicleData db log _ _ _ _ _ _
             Hwf Hid Hveh Hspd Hlast Helast Hts).
  replace ((if elast is None then true else false)
           && Time_eqb (Update.Timestamp lastUpdate) timestamp) with false.
  2:{ destruct Hnew as [[-> Hne] | ->]; [ | reflexivity]. cbn [andb]. symmetry.
      apply not_true_is_false. intros E. now apply TimeFacts.Time_eqb_eq in E. }
  now rewrite Hguess.
Qed.

End Goroutine.

(** ** A cycle on the in-memory store *)

Module CycleFacts.
Import Updater Spec GoTime Stored.

Lemma appended_refl (db : MemDB.t) : appended db db [].
Proof.
  unfold appended. rewrite app_nil_r. cbn [List.length].
  do 5 (split; [reflexivity || lia | ]). intros [ | i] row; discriminate.
Qed.

Lemma appended_createUpdate (db : MemDB.t) (u : Update.t) :
  exists row, appended db (fst (MemDB.createUpdate db u)) [row]
    /\ Update.VehicleID row = Update.VehicleID u
    /\ Update.Timestamp row = Update.Timestamp u.
Proof.
  unfold MemDB.createUpdate. cbn [fst].
  exists (Update.mk (MemDB.nextID db) (Update.VehicleID u) (Update.Latitude u)
            (Update.Longitude u) (Update.Heading u) (Update.Speed u) "" (Update.Timestamp u)
            (MemDB.current_timestamp db) "").
  split; [ | split; reflexivity].
  unfold appended. cbn [MemDB.vehicles MemDB.routes MemDB.current_timestamp MemDB.updates
                          MemDB.nextID List.length].
  do 5 (split; [reflexivity || lia | ]).
  intros [ | [ | i]] row; try discriminate. intros [= <-]. cbn. repeat split. lia.
Qed.

Lemma appended_trans (db db1 db2 : MemDB.t) (a1 a2 : list Update.t) :
  appended db db1 a1 -> appended db1 db2 a2 -> appended db db2 (a1 ++ a2).
Proof.
  intros (Hv1 & Hr1 & Hc1 & Hu1 & Hn1 & Hrow1) (Hv2 & Hr2 & Hc2 & Hu2 & Hn2 & Hrow2).
  unfold appended. rewrite Hv2, Hr2, Hc2, Hu2, Hn2, Hu1, Hn1, length_app, <- app_assoc.
  do 5 (split; [congruence || lia | ]).
  intros i row Hn. destruct (Nat.lt_ge_cases i (List.length a1)) as [Hi | Hi].
  - rewrite nth_error_app1 in Hn by exact Hi. now apply Hrow1.
  - rewrite nth_error_app2 in Hn by exact Hi.
    destruct (Hrow2 _ _ Hn) as (Hid & Hcr & Hl & Hro).
    repeat split; try congruence. lia.
Qed.


Section OnTheStore.
Variable rangeKeys : gmap string float -> list string.

Lemma updateVehicle_appends (now : Time) (vehicleData : string) (db : MemDB.t)
    (log : list Log.entry) :
  match updateVehicle rangeKeys now vehicleData (db, log) with
  | Panicked => True
  | Returned (db', _) | Next _ (db', _) =>
      exists added, appended db db' added /\ (List.length added <= 1)%nat
  end.
Proof.
  pose proof (updateVehicle_effect rangeKeys now vehicleData db log) as He.
  destruct (updateVehicle rangeKeys now vehicleData (db, log)) as [ | [db' log'] | [] [db' log']].
  - exact I.
  - destruct He as [-> _]. exists []. split; [apply appended_refl | cbn; lia].
  - destruct He as (u & l & vehicleID & -> & _).
    destruct (appended_createUpdate db u) as (row & Hrow & _).
    exists [row]. split; [exact Hrow | cbn; lia].
Qed.

Lemma runAll_appends (now : Time) (records : list string) (db : MemDB.t) (log : list Log.entry) :
  exists db' log' added,
    appended db db' added /\ (List.length added <= List.length records)%nat
    /\ (runAll rangeKeys now records (db, log) = Crashed (db', log')
        \/ runAll rangeKeys now records (db, log) = Finished (db', log')).
Proof.
  revert db log. induction records as [ | r records IH]; intros db log.
  - exists db, log, []. split; [apply appended_refl | ]. split; [cbn; lia | now right].
  - cbn [runAll]. pose proof (updateVehicle_appends now r db log) as Hr.
    destruct (updateVehicle rangeKeys now r (db, log)) as [ | [db1 log1] | [] [db1 log1]].
    + exists db, log, []. split; [apply appended_refl | ]. split; [cbn; lia | now left].
    + destruct Hr as (a1 & Ha1 & Hl1).
      destruct (IH db1 log1) as (db' & log' & a2 & Ha2 & Hl2 & Hrun).
      exists db', log', (a1 ++ a2)%list. split; [eapply appended_trans; eassumption | ].
      split; [rewrite length_app; cbn [List.length]; lia | exact Hrun].
    + destruct Hr as (a1 & Ha1 & Hl1).
      destruct (IH db1 log1) as (db' & log' & a2 & Ha2 & Hl2 & Hrun).
      exists db', log', (a1 ++ a2)%list. split; [eapply appended_trans; eassumption | ].
      split; [rewrite length_app; cbn [List.length]; lia | exact Hrun].
Qed.

Lemma prune_pruned (now : Time) (db : MemDB.t) (log : list Log.entry) :
  fst (prune now (db, log)) = pruned now db.
Proof.
  unfold prune. cbn [DeleteUpdatesBefore MemDB_Database]. unfold MemDB.deleteUpdatesBefore.
  destruct (0 <? _); reflexivity.
Qed.

(** What a cycle does to the store. *)
Lemma update_appends_then_prunes (feed : fetch) (now : Time) (db : MemDB.t) :
  match feed with
  | GetFailed e | ReadFailed e => exists log, update rangeKeys feed now db = Finished (db, log)
  | Body body =>
      exists db1 added log,
        appended db db1 added
        /\ (List.length added <= List.length (vehiclesData body))%nat
        /\ (update rangeKeys feed now db = Crashed (db1, log)
            \/ update rangeKeys feed now db = Finished (pruned now db1, log))
  end.
Proof.
  destruct feed as [e | e | body]; [cbn; eauto .. | ].
  unfold update.
  destruct (runAll_appends now (vehiclesData body) db
              (if (List.length (vehiclesData body) <=? 1)%nat
               then [Log.Warnf "Found no vehicles delineated by '%s'."] else []))
    as (db1 & log1 & added & Happ & Hlen & [-> | ->]).
  - exists db1, added, log1. auto.
  - exists db1, added, (snd (prune now (db1, (log1 ++ [Log.Debugf "Updated vehicles."])%list))).
    split; [exact Happ | ]. split; [exact Hlen | right].
    rewrite <- (prune_pruned now db1 (log1 ++ [Log.Debugf "Updated vehicles."])%list).
    now destruct (prune now _).
Qed.

End OnTheStore.

End CycleFacts.

Section CycleOnTheStore.
Import Updater Spec GoTime Stored CycleFacts.

Variable rangeKeys : gmap string float -> list string.

(** X9.  A cycle leaves the vehicles and the routes of the store alone.  When
    the feed cannot be fetched or read the store is as it was, nothing being
    pruned.  Otherwise the cycle appends at most one row for each record of
    the body, each with a fresh id and the store's clock as time of creation,
    and then, unless a goroutine has brought the process down, deletes the
    rows created before the cutoff of one month. *)
Theorem cycle_appends_then_prunes (feed : fetch) (now : Time) (db : MemDB.t) :
  match feed with
  | GetFailed e | ReadFailed e => exists log, update rangeKeys feed now db = Finished (db, log)
  | Body body =>
      exists db1 added log,
        appended db db1 added
        /\ (List.length added <= List.length (vehiclesData body))%nat
        /\ (update rangeKeys feed now db = Crashed (db1, log)
            \/ update rangeKeys feed now db = Finished (pruned now db1, log))
  end.
Proof. apply update_appends_then_prunes. Qed.

(** X10.  After a cycle that has run to its end no row of the store was
    created before the cutoff, the same day of the month before [now]; every
    row that was in the store and is not older than the cutoff is still
    there, and so are the vehicles and the routes. *)
Theorem finished_cycle_has_pruned (now : Time) (body : string) (db db' : MemDB.t)
    (log' : list Log.entry) :
  update rangeKeys (Body body) now db = Finished (db', log') ->
  (forall u, In u (MemDB.updates db') ->
     Before (Update.Created u) (AddDate now 0 (-1) 0) = false)
  /\ (forall u, In u (MemDB.updates db) ->
        Before (Update.Created u) (AddDate now 0 (-1) 0) = false ->
        In u (MemDB.updates db'))
  /\ MemDB.vehicles db' = MemDB.vehicles db /\ MemDB.routes db' = MemDB.routes db.
Proof.
  intros Hrun.
  destruct (update_appends_then_prunes rangeKeys (Body body) now db)
    as (db1 & added & log & (Hv & Hr & _ & Hu & _) & _ & [Hc | Hf]);
    rewrite Hrun in *; [discriminate | ].
  injection Hf as -> _. unfold pruned. cbn [MemDB.updates MemDB.vehicles MemDB.routes].
  repeat split; try assumption.
  - intros u Hin. apply List.filter_In in Hin as [_ Hk]. unfold kept in Hk.
    now apply negb_true_iff in Hk.
  - intros u Hin Hk. apply List.filter_In. split.
    + rewrite Hu. apply in_or_app. now left.
    + unfold kept. now rewrite Hk.
Qed.

End CycleOnTheStore.

(** ** The queries of the in-memory store *)

Module QueryFacts.
Import GoTime MemDB Ordered.

Lemma Before_asym (t u : Time) : Before t u = true -> Before u t = false.
Proof.
  unfold Before. rewrite orb_true_iff, andb_true_iff, orb_false_iff, andb_false_iff,
    !Z.ltb_lt, !Z.ltb_ge, !Z.eqb_eq, Z.eqb_neq. lia.
Qed.

Lemma notBefore_trans (t u v : Time) :
  Before t u = false -> Before u v = false -> Before t v = false.
Proof.
  unfold Before. rewrite !orb_false_iff, !andb_false_iff, !Z.ltb_ge, !Z.eqb_neq. lia.
Qed.

Lemma Before_irrefl (t : Time) : Before t t = false.
Proof. unfold Before. rewrite orb_false_iff, andb_false_iff, !Z.ltb_ge. lia. Qed.

Lemma insertByCreated_perm (u : Update.t) (l : list Update.t) :
  Permutation (insertByCreated u l) (u :: l).
Proof.
  induction l as [ | v l IH]; cbn [insertByCreated]; [reflexivity | ].
  destruct (Before _ _); [ | reflexivity].
  rewrite IH. apply perm_swap.
Qed.

Lemma orderByCreatedDesc_perm (l : list Update.t) : Permutation (orderByCreatedDesc l) l.
Proof.
  unfold orderByCreatedDesc. induction l as [ | u l IH]; cbn [fold_right]; [reflexivity | ].
  rewrite insertByCreated_perm. now constructor.
Qed.

Lemma insertByCreated_sorted (u : Update.t) (l : list Update.t) :
  StronglySorted notOlder l -> StronglySorted notOlder (insertByCreated u l).
Proof.
  induction l as [ | v l IH]; intros Hs; cbn [insertByCreated].
  - repeat constructor.
  - apply StronglySorted_inv in Hs as [Hl Hv].
    destruct (Before (Update.Created u) (Update.Created v)) eqn:E.
    + constructor; [now apply IH | ].
      rewrite List.Forall_forall in Hv |- *. intros x Hx.
      apply (Permutation_in _ (insertByCreated_perm u l)) in Hx as [<- | Hx].
      * now apply Before_asym.
      * now apply Hv.
    + constructor; [now constructor | ].
      constructor; [exact E | ].
      rewrite List.Forall_forall in Hv |- *. intros x Hx.
      exact (notBefore_trans _ _ _ E (Hv x Hx)).
Qed.

Lemma orderByCreatedDesc_sorted (l : list Update.t) :
  StronglySorted notOlder (orderByCreatedDesc l).
Proof.
  unfold orderByCreatedDesc. induction l as [ | u l IH]; cbn [fold_right]; [constructor | ].
  now apply insertByCreated_sorted.
Qed.

Lemma orderByCreatedDesc_In (l : list Update.t) (u : Update.t) :
  In u (orderByCreatedDesc l) <-> In u l.
Proof.
  split; apply Permutation_in; [ | symmetry]; apply orderByCreatedDesc_perm.
Qed.

(** The head of the ordered rows is not older than any of them. *)
Lemma orderByCreatedDesc_head (l : list Update.t) (u : Update.t) (rest : list Update.t) :
  orderByCreatedDesc l = u :: rest ->
  In u l /\ forall u', In u' l -> notOlder u u'.
Proof.
  intros Ho. pose proof (orderByCreatedDesc_sorted l) as Hs.
  rewrite Ho in Hs. apply StronglySorted_inv in Hs as [_ Hu].
  split.
  - apply orderByCreatedDesc_In. rewrite Ho. now left.
  - intros u' Hu'. apply orderByCreatedDesc_In in Hu'. rewrite Ho in Hu'.
    destruct Hu' as [<- | Hu']; [apply Before_irrefl | ].
    rewrite List.Forall_forall in Hu. now apply Hu.
Qed.

End QueryFacts.

Section Queries.
Import GoTime MemDB Ordered QueryFacts.

(** X11.  The query for the last update of a vehicle answers with
    [ErrUpdateNotFound] and the zero update exactly when the store holds no
    row of the vehicle; otherwise with a row of the vehicle that none of its
    rows was created after. *)
Theorem last_update_is_newest_of_vehicle (db : MemDB.t) (vehicleID : Z) :
  match getLastUpdateForVehicle db vehicleID with
  | (u, None) =>
      In u (updates db) /\ Update.VehicleID u = vehicleID
      /\ forall u', In u' (updates db) -> Update.VehicleID u' = vehicleID -> notOlder u u'
  | (u, Some e) =>
      e = ErrUpdateNotFound /\ u = Update.zero
      /\ forall u', In u' (updates db) -> Update.VehicleID u' <> vehicleID
  end.
Proof.
  unfold getLastUpdateForVehicle.
  destruct (orderByCreatedDesc _) as [ | u rest] eqn:Ho.
  - split; [reflexivity | ]. split; [reflexivity | ]. intros u' Hin Hv.
    assert (Hu' : In u' (orderByCreatedDesc
                           (List.filter (fun u => Update.VehicleID u =? vehicleID) (updates db)))).
    { apply orderByCreatedDesc_In, List.filter_In. split; [exact Hin | now apply Z.eqb_eq]. }
    rewrite Ho in Hu'. destruct Hu'.
  - destruct (orderByCreatedDesc_head _ _ _ Ho) as [Hin Hmax].
    apply List.filter_In in Hin as [Hin Hv]. apply Z.eqb_eq in Hv.
    repeat split; try assumption.
    intros u' Hu' Hv'. apply Hmax, List.filter_In. split; [exact Hu' | now apply Z.eqb_eq].
Qed.

(** X12.  The query for the updates of a vehicle since a time never fails; it
    answers with the rows of the vehicle created strictly after that time,
    each once, the newest first. *)
Theorem updates_since_are_newest_first (db : MemDB.t) (vehicleID : Z) (since : Time) :
  let rows := fst (getUpdatesForVehicleSince db vehicleID since) in
  snd (getUpdatesForVehicleSince db vehicleID since) = None
  /\ (forall u, In u rows
        <-> In u (updates db) /\ Update.VehicleID u = vehicleID
            /\ Before since (Update.Created u) = true)
  /\ Permutation rows
       (List.filter (fun u => (Update.VehicleID u =? vehicleID) && After (Update.Created u) since)
          (updates db))
  /\ StronglySorted notOlder rows.
Proof.
  cbn. split; [reflexivity | ]. split; [ | split].
  - intros u. rewrite orderByCreatedDesc_In, List.filter_In, andb_true_iff, Z.eqb_eq.
    unfold After. tauto.
  - apply orderByCreatedDesc_perm.
  - apply orderByCreatedDesc_sorted.
Qed.

(** X13.  Deleting the updates created before a time never fails; it removes
    the rows created before that time and no other, reports how many they
    were, and deletes nothing when it is asked again. *)
Theorem delete_before_counts_and_settles (db : MemDB.t) (before : Time) :
  let db' := fst (deleteUpdatesBefore db before) in
  let deleted := fst (snd (deleteUpdatesBefore db before)) in
  snd (snd (deleteUpdatesBefore db before)) = None
  /\ (forall u, In u (updates db')
        <-> In u (updates db) /\ Before (Update.Created u) before = false)
  /\ deleted
     = Z.of_nat (List.length
                   (List.filter (fun u => Before (Update.Created u) before) (updates db)))
  /\ Z.of_nat (List.length (updates db')) = Z.of_nat (List.length (updates db)) - deleted
  /\ deleteUpdatesBefore db' before = (db', (0, None)).
Proof.
  cbn. split; [reflexivity | ]. split; [ | split; [ | split]].
  - intros u. rewrite List.filter_In, negb_true_iff. tauto.
  - induction (updates db) as [ | u l IH]; [reflexivity | ].
    cbn [List.filter]. destruct (Before _ _); cbn [negb List.length]; lia.
  - lia.
  - unfold deleteUpdatesBefore. cbn [updates vehicles routes nextID current_timestamp].
    assert (Hf : forall l : list Update.t,
              List.filter (fun u => negb (Before (Update.Created u) before))
                (List.filter (fun u => negb (Before (Update.Created u) before)) l)
              = List.filter (fun u => negb (Before (Update.Created u) before)) l).
    { induction l as [ | u l IH]; [reflexivity | ]. cbn [List.filter].
      destruct (negb _) eqn:E; [ | exact IH]. cbn [List.filter]. now rewrite E, IH. }
    rewrite Hf. repeat f_equal. lia.
Qed.

(** X14.  A row that [CreateUpdate] has written is what the query for the
    last update of its vehicle returns next, provided the clock of the store
    has moved on since the vehicle's other rows were created: the row holds
    the position, heading, speed and timestamp that were handed over, the
    next id and the reading of the clock, and neither lock nor route. *)
Theorem created_update_is_last_update (db : MemDB.t) (u : Update.t) :
  (forall r, In r (updates db) -> Update.VehicleID r = Update.VehicleID u ->
     Before (Update.Created r) (current_timestamp db) = true) ->
  snd (createUpdate db u) = None
  /\ getLastUpdateForVehicle (fst (createUpdate db u)) (Update.VehicleID u)
     = (Update.mk (nextID db) (Update.VehicleID u) (Update.Latitude u) (Update.Longitude u)
          (Update.Heading u) (Update.Speed u) "" (Update.Timestamp u) (current_timestamp db) "",
        None).
Proof.
  intros Hold. split; [reflexivity | ].
  unfold createUpdate, getLastUpdateForVehicle. cbn [fst updates].
  rewrite List.filter_app. cbn [List.filter Update.VehicleID]. rewrite Z.eqb_refl.
  destruct (StoreFacts.orderByCreatedDesc_newest
              (List.filter (fun r => Update.VehicleID r =? Update.VehicleID u) (updates db))
              (Update.mk (nextID db) (Update.VehicleID u) (Update.Latitude u) (Update.Longitude u)
                 (Update.Heading u) (Update.Speed u) "" (Update.Timestamp u)
                 (current_timestamp db) "")) as [rest Hrest].
  - intros r Hr. apply List.filter_In in Hr as [Hr Hv]. apply Z.eqb_eq in Hv.
    cbn [Update.Created]. now apply Hold.
  - now rewrite Hrest.
Qed.

End Queries.

(** ** Routes that cannot be guessed *)

Module GuessFacts.
Import Updater Spec GoMath FloatFacts Selection Scoring Position.
Local Open Scope float_scope.

Lemma stuck_add_r (x y : float) : stuck y -> stuck (x + y).
Proof.
  rewrite !stuck_SF, FloatAxioms.add_spec.
  intros [-> | ->]; destruct (Prim2SF x) as [ | [] | | ]; simpl; auto.
Qed.

Lemma nonfinite_SF (x : float) :
  nonfinite x <-> (exists s, Prim2SF x = S754_infinity s) \/ Prim2SF x = S754_nan.
Proof.
  split.
  - intros [-> | [-> | ->]]; [left; exists false | left; exists true | right]; reflexivity.
  - intros [[[] E] | E].
    + right. left. apply Prim2SF_inj. now rewrite E.
    + left. apply Prim2SF_inj. now rewrite E.
    + right. right. apply Prim2SF_inj. now rewrite E.
Qed.

Lemma nonfinite_sub (x y : float) : nonfinite x -> nonfinite (x - y).
Proof.
  rewrite !nonfinite_SF, FloatAxioms.sub_spec.
  intros [[s ->] | ->]; destruct (Prim2SF y) as [ | s' | | ]; simpl; eauto.
  destruct s, s'; simpl; eauto.
Qed.

Lemma stuck_Pow_2 (x : float) : nonfinite x -> stuck (Pow_2 x).
Proof. intros [-> | [-> | ->]]; vm_compute; auto. Qed.

Lemma stuck_Sqrt (x : float) : stuck x -> stuck (Sqrt x).
Proof. intros [-> | ->]; vm_compute; auto. Qed.

Lemma stuck_distance (lat lng : float) (c : Coord.t) :
  nonfinite lat \/ nonfinite lng -> stuck (distance lat lng c).
Proof.
  intros Hp. unfold distance. apply stuck_Sqrt. destruct Hp as [Hp | Hp].
  - apply stuck_add, stuck_Pow_2, nonfinite_sub, Hp.
  - apply stuck_add_r, stuck_Pow_2, nonfinite_sub, Hp.
Qed.

(** From a position that is no number nothing is nearer than [+Inf]. *)
Lemma nearestDistance_nonfinite (lat lng : float) (coords : list Coord.t) :
  nonfinite lat \/ nonfinite lng -> nearestDistance lat lng coords = Inf.
Proof.
  intros Hp. unfold nearestDistance. induction coords as [ | c coords IH]; [reflexivity | ].
  cbn [fold_left]. now rewrite (stuck_not_ltb _ _ (stuck_distance lat lng c Hp)).
Qed.

Lemma capped_far : (if 0.003 <? Inf then Inf + 50 else Inf) = infinity.
Proof. reflexivity. Qed.

Lemma capped_nonfinite (route : Route.t) (update : Update.t) :
  nonfinite (Update.Latitude update) \/ nonfinite (Update.Longitude update) ->
  capped route update = infinity.
Proof. intros Hp. unfold capped. rewrite nearestDistance_nonfinite by exact Hp. apply capped_far. Qed.

Lemma capped_no_path (route : Route.t) (update : Update.t) :
  Route.Coords route = [] -> capped route update = infinity.
Proof. intros Hc. unfold capped. rewrite Hc. apply capped_far. Qed.

(** One update whose term for a route is [+Inf] leaves the entry of the
    route at [+Inf] or NaN. *)
Lemma stuck_scoreRoute_far (update : Update.t) (rd : gmap string float) (route : Route.t) :
  capped route update = infinity ->
  stuck (dist (scoreRoute update rd route) (Route.ID route)).
Proof.
  intros Hc. rewrite dist_scoreRoute, Hc. destruct (decide _) as [_ | []]; [ | reflexivity].
  destruct (Route.Enabled route); apply stuck_add_infinity.
Qed.

Lemma stuck_routes_far (update : Update.t) (routes : list Route.t) (rd : gmap string float)
    (id : string) :
  stuck (dist rd id)
  \/ (exists r, In r routes /\ Route.ID r = id /\ capped r update = infinity) ->
  stuck (dist (fold_left (scoreRoute update) routes rd) id).
Proof.
  revert rd. induction routes as [ | r1 routes IH]; intros rd Hs.
  - destruct Hs as [Hs | (r & [] & _)]. exact Hs.
  - cbn [fold_left]. apply IH. destruct Hs as [Hs | (r & [<- | Hin] & Hid & Hc)].
    + left. now apply stuck_scoreRoute.
    + left. subst id. now apply stuck_scoreRoute_far.
    + right. exists r. auto.
Qed.

Lemma stuck_accumulate_far (routes : list Route.t) (updates : list Update.t)
    (rd : gmap string float) (r : Route.t) (u : Update.t) :
  In u updates -> In r routes -> capped r u = infinity ->
  stuck (dist (accumulate routes updates rd) (Route.ID r)).
Proof.
  intros Hu Hr Hc. unfold accumulate.
  assert (Hkeep : forall us rd', stuck (dist rd' (Route.ID r)) ->
            stuck (dist (fold_left (fun rd update => fold_left (scoreRoute update) routes rd)
                           us rd') (Route.ID r))).
  { induction us as [ | u' us IH]; intros rd' Hs; [exact Hs | ].
    cbn [fold_left]. apply IH, stuck_routes. now left. }
  revert rd. induction updates as [ | u' updates IH]; intros rd; [destruct Hu | ].
  cbn [fold_left]. destruct Hu as [-> | Hu].
  - apply Hkeep, stuck_routes_far. right. exists r. auto.
  - now apply IH.
Qed.

(** The keys of the map of distances are ids of routes. *)
Lemma scoreRoute_keys (update : Update.t) (rd : gmap string float) (route : Route.t) (k : string) :
  scoreRoute update rd route !! k <> None -> k = Route.ID route \/ rd !! k <> None.
Proof.
  unfold scoreRoute. cbv zeta. rewrite lookup_insert.
  destruct (decide (Route.ID route = k)) as [<- | Hne]; [now left | ].
  destruct (negb _); [ | now right].
  rewrite lookup_insert. destruct (decide (Route.ID route = k)); [contradiction | now right].
Qed.

Lemma routes_keys (update : Update.t) (routes : list Route.t) (rd : gmap string float) (k : string) :
  fold_left (scoreRoute update) routes rd !! k <> None ->
  In k (map Route.ID routes) \/ rd !! k <> None.
Proof.
  revert rd. induction routes as [ | r routes IH]; intros rd Hk; [now right | ].
  cbn [fold_left] in Hk. cbn [map]. destruct (IH _ Hk) as [Hin | Hin]; [left; now right | ].
  destruct (scoreRoute_keys _ _ _ _ Hin) as [-> | Hrd]; [left; now left | now right].
Qed.

Lemma accumulate_keys (routes : list Route.t) (updates : list Update.t) (rd : gmap string float)
    (k : string) :
  accumulate routes updates rd !! k <> None -> In k (map Route.ID routes) \/ rd !! k <> None.
Proof.
  unfold accumulate. revert rd. induction updates as [ | u updates IH]; intros rd Hk; [now right | ].
  cbn [fold_left] in Hk. destruct (IH _ Hk) as [Hin | Hin]; [now left | ].
  now apply routes_keys in Hin.
Qed.

Lemma zeroDistances_keys (routes : list Route.t) (k : string) :
  zeroDistances routes !! k <> None -> In k (map Route.ID routes).
Proof.
  unfold zeroDistances.
  assert (Hg : forall rd : gmap string float,
            fold_left (fun rd route => <[Route.ID route := 0]> rd) routes rd !! k <> None ->
            In k (map Route.ID routes) \/ rd !! k <> None).
  { induction routes as [ | r routes IH]; intros rd Hk; [now right | ].
    cbn [fold_left] in Hk. cbn [map]. destruct (IH _ Hk) as [Hin | Hin]; [left; now right | ].
    rewrite lookup_insert in Hin.
    destruct (decide (Route.ID r = k)) as [-> | _]; [left; now left | now right]. }
  intros Hk. destruct (Hg ∅ Hk) as [Hin | Hin]; [exact Hin | ].
  now rewrite lookup_empty in Hin.
Qed.

Lemma routeDistances_keys (routes : list Route.t) (updates : list Update.t) (k : string) :
  accumulate routes updates (zeroDistances routes) !! k <> None ->
  exists r, In r routes /\ Route.ID r = k.
Proof.
  intros Hk. apply accumulate_keys in Hk as [Hin | Hin];
    [ | apply zeroDistances_keys in Hin];
    apply in_map_iff in Hin as (r & Hr & Hin); eauto.
Qed.

(** Without an average below [+Inf] the selection returns no key. *)
Lemma selectMin_none (l : list (string * float)) :
  (forall id d, In (id, d) l -> (d <? Inf) = false) -> selectMin l = (Inf, "").
Proof.
  intros Hnone. rewrite selectMin_twoPass. unfold twoPass.
  destruct (findMin_spec l) as (Hdown & _ & Hin).
  destruct (findMin l) as [m i]. cbn [fst snd] in *.
  destruct Hin as [[= -> ->] | Hin]; [reflexivity | ].
  destruct Hdown as [Hlt | ->]; [ | reflexivity].
  rewrite (Hnone _ _ Hin) in Hlt. discriminate.
Qed.

End GuessFacts.

Section GuessRouteEdges.
Import Updater Spec GoMath GoTime FloatFacts Selection Scoring Position GuessFacts.
Local Open Scope float_scope.

Context {DB : Type} `{Database DB}.
Variable rangeKeys : gmap string float -> list string.

(** X15.  A route without coordinates is never selected: the key that
    [GuessRouteForVehicle] looks up is the key of no listed route with an
    empty path, however the other routes score. *)
Theorem route_without_path_never_selected (db : DB) (now : Time) (vehicle : Vehicle.t)
    (route : Route.t) (err : option error) (log : list Log.entry) :
  GuessRouteForVehicle rangeKeys db now vehicle = (route, err, log) ->
  route = Route.zero
  \/ exists id, id <> "" /\ GetRoute db id = (route, err)
       /\ forall r, In r (fst (GetRoutes db)) -> Route.ID r = id -> Route.Coords r <> [].
Proof.
  unfold GuessRouteForVehicle.
  destruct (GetRoutes db) as [routes e1]. cbn [fst].
  destruct (GetUpdatesForVehicleSince _ _ _) as [updates e2].
  destruct (List.length updates <? 5)%nat eqn:Hlen; [intros [= <- _ _]; now left | ].
  set (rd := accumulate routes updates (zeroDistances routes)).
  set (l := averages rd (List.length updates) (rangeKeys rd)).
  pose proof (selectMin_key l) as Hkey.
  destruct (selectMin l) as [minDistance minRouteID]. cbn [fst snd] in Hkey.
  destruct (String.eqb minRouteID "") eqn:Hid; [intros [= <- _ _]; now left | ].
  apply String.eqb_neq in Hid. destruct (Hkey Hid) as [Hin Hlt].
  intros Hres. right. exists minRouteID. repeat split; [exact Hid | | ].
  - destruct (GetRoute db minRouteID) as [route' [e | ]]; now inversion Hres.
  - intros r Hr Hrid Hpath.
    assert (Hs : stuck minDistance).
    { rewrite (averages_In _ _ _ _ _ Hin). apply stuck_div_of_uint63.
      rewrite <- Hrid. destruct updates as [ | u updates]; [discriminate Hlen | ].
      apply (stuck_accumulate_far routes (u :: updates) _ r u); [now left | exact Hr | ].
      now apply capped_no_path. }
    rewrite (stuck_not_ltb _ _ Hs) in Hlt. discriminate.
Qed.

(** When no key of the map has an average below [+Inf], the guess is the
    empty route. *)
Lemma guess_of_hopeless_scores (db : DB) (now : Time) (vehicle : Vehicle.t)
    (routes : list Route.t) (e1 : option error) (updates : list Update.t) (e2 : option error) :
  GetRoutes db = (routes, e1) ->
  GetUpdatesForVehicleSince db (Vehicle.ID vehicle) (Add now (Minute * -15)) = (updates, e2) ->
  (5 <= List.length updates)%nat ->
  (forall k, In k (rangeKeys (accumulate routes updates (zeroDistances routes))) ->
     stuck (dist (accumulate routes updates (zeroDistances routes)) k)) ->
  GuessRouteForVehicle rangeKeys db now vehicle
  = (Route.zero, None,
     ((if e1 is Some e then [Log.Error e] else [])
        ++ [Log.Debugf "%v not on route; distance from nearest: %v"])%list).
Proof.
  intros Hroutes Hupdates Hlen Hall. unfold GuessRouteForVehicle. rewrite Hroutes, Hupdates.
  replace (List.length updates <? 5)%nat with false by (symmetry; apply Nat.ltb_ge; lia).
  rewrite selectMin_none; [reflexivity | ].
  intros id d Hd. pose proof (averages_In _ _ _ _ _ Hd) as ->.
  apply stuck_not_ltb, stuck_div_of_uint63, Hall.
  unfold averages in Hd. apply in_map_iff in Hd as (k & [= <- _] & Hk). exact Hk.
Qed.

(** X16.  One stored position that is no number spoils the guess: when the
    latitude or the longitude of any of the five or more recent updates is an
    infinity or NaN, every route scores [+Inf] or NaN and the guess is the
    empty route, without error, wherever the other updates are. *)
Theorem position_that_is_no_number_gives_no_route (db : DB) (now : Time) (vehicle : Vehicle.t)
    (updates : list Update.t) (e2 : option error) (u : Update.t) :
  (forall m k, In k (rangeKeys m) -> m !! k <> None) ->
  GetUpdatesForVehicleSince db (Vehicle.ID vehicle) (Add now (Minute * -15)) = (updates, e2) ->
  (5 <= List.length updates)%nat ->
  In u updates ->
  nonfinite (Update.Latitude u) \/ nonfinite (Update.Longitude u) ->
  GuessRouteForVehicle rangeKeys db now vehicle
  = (Route.zero, None,
     ((if snd (GetRoutes db) is Some e then [Log.Error e] else [])
        ++ [Log.Debugf "%v not on route; distance from nearest: %v"])%list).
Proof.
  intros Hkeys Hupdates Hlen Hu Hp.
  destruct (GetRoutes db) as [routes e1] eqn:Hroutes. cbn [snd].
  apply (guess_of_hopeless_scores db now vehicle routes e1 updates e2); try assumption.
  intros k Hk. apply Hkeys, routeDistances_keys in Hk as (r & Hr & <-).
  apply (stuck_accumulate_far routes updates _ r u); [exact Hu | exact Hr | ].
  now apply capped_nonfinite.
Qed.

(** X17.  A failure to list the routes is logged and goes no further: with no
    route listed and five or more recent updates, the guess is the empty
    route and a nil error, so that the record is stored without a route. *)
Theorem no_routes_no_guess (db : DB) (now : Time) (vehicle : Vehicle.t) (e1 : option error) :
  (forall m k, In k (rangeKeys m) -> m !! k <> None) ->
  GetRoutes db = ([], e1) ->
  (5 <= List.length
          (fst (GetUpdatesForVehicleSince db (Vehicle.ID vehicle) (Add now (Minute * -15)))))%nat ->
  GuessRouteForVehicle rangeKeys db now vehicle
  = (Route.zero, None,
     ((if e1 is Some e then [Log.Error e] else [])
        ++ [Log.Debugf "%v not on route; distance from nearest: %v"])%list).
Proof.
  intros Hkeys Hroutes Hlen.
  destruct (GetUpdatesForVehicleSince db _ _) as [updates e2] eqn:Hupdates. cbn [fst] in Hlen.
  apply (guess_of_hopeless_scores db now vehicle [] e1 updates e2); try assumption.
  intros k Hk. apply Hkeys, routeDistances_keys in Hk as (r & [] & _).
Qed.

(** X18.  The route that [GuessRouteForVehicle] looks up is one of the routes
    it has listed: the key handed to [GetRoute] is the id of a route that
    [GetRoutes] returned. *)
Theorem looked_up_route_is_listed (db : DB) (now : Time) (vehicle : Vehicle.t)
    (route : Route.t) (err : option error) (log : list Log.entry) :
  (forall m k, In k (rangeKeys m) -> m !! k <> None) ->
  GuessRouteForVehicle rangeKeys db now vehicle = (route, err, log) ->
  route = Route.zero
  \/ exists r, In r (fst (GetRoutes db)) /\ Route.ID r <> ""
       /\ GetRoute db (Route.ID r) = (route, err).
Proof.
  intros Hkeys. unfold GuessRouteForVehicle.
  destruct (GetRoutes db) as [routes e1]. cbn [fst].
  destruct (GetUpdatesForVehicleSince _ _ _) as [updates e2].
  destruct (List.length updates <? 5)%nat eqn:Hlen; [intros [= <- _ _]; now left | ].
  set (rd := accumulate routes updates (zeroDistances routes)).
  set (l := averages rd (List.length updates) (rangeKeys rd)).
  pose proof (selectMin_key l) as Hkey.
  destruct (selectMin l) as [minDistance minRouteID]. cbn [fst snd] in Hkey.
  destruct (String.eqb minRouteID "") eqn:Hid; [intros [= <- _ _]; now left | ].
  apply String.eqb_neq in Hid. destruct (Hkey Hid) as [Hin _].
  intros Hres. right.
  unfold l, averages in Hin. apply in_map_iff in Hin as (k & [= -> _] & Hk).
  apply Hkeys, routeDistances_keys in Hk as (r & Hr & <-).
  exists r. repeat split; [exact Hr | exact Hid | ].
  destruct (GetRoute db (Route.ID r)) as [route' [e | ]]; now inversion Hres.
Qed.

End GuessRouteEdges.

(** ** The records of a body *)

Module SplitParts.
Import Strings GrammarFacts.

Lemma prefix_mono (p a b : string) : String.prefix p a = true -> String.prefix p (a ++ b) = true.
Proof.
  revert a. induction p as [ | c p IH]; intros a Hp; [now destruct (a ++ b) | ].
  destruct a as [ | c' a]; [discriminate Hp | ].
  change (String c' a ++ b) with (String c' (a ++ b)). cbn [String.prefix] in Hp |- *.
  destruct (ascii_dec c c'); [now apply IH | discriminate Hp].
Qed.

Lemma substring_drop (m : nat) (s : string) : s = String.substring 0 m s ++ drop m s.
Proof.
  revert s. induction m as [ | m IH]; intros s.
  - now destruct s.
  - destruct s as [ | c s]; [reflexivity | ].
    cbn [String.substring drop]. change (String c s = String c (String.substring 0 m s ++ drop m s)).
    f_equal. apply IH.
Qed.

(** Nothing in front of the first occurrence holds the separator. *)
Lemma Index_before (s : string) (c0 : ascii) (t : string) (m : nat) :
  Index s (String c0 t) = Some m -> Index (String.substring 0 m s) (String c0 t) = None.
Proof.
  revert m. induction s as [ | c s IH]; intros m.
  - cbn. discriminate.
  - cbn [Index]. destruct (String.prefix (String c0 t) (String c s)) eqn:Hp.
    + intros [= <-]. reflexivity.
    + destruct (Index s (String c0 t)) as [m' | ] eqn:Hi; [ | discriminate].
      intros [= <-]. cbn [String.substring Index].
      destruct (String.prefix (String c0 t) (String c (String.substring 0 m' s))) eqn:Hp'.
      * apply (prefix_mono _ _ (drop m' s)) in Hp'.
        change (String c (String.substring 0 m' s) ++ drop m' s)
          with (String c (String.substring 0 m' s ++ drop m' s)) in Hp'.
        rewrite <- substring_drop in Hp'. congruence.
      * now rewrite (IH m' eq_refl).
Qed.

Lemma length_drop_le (n : nat) (s : string) :
  (String.length (drop n s) <= String.length s - n)%nat.
Proof.
  revert s. induction n as [ | n IH]; intros s; [cbn; lia | ].
  destruct s as [ | c s]; [cbn; lia | ]. cbn [drop String.length]. specialize (IH s). lia.
Qed.

Lemma prefix_length (p s : string) :
  String.prefix p s = true -> (String.length p <= String.length s)%nat.
Proof.
  revert s. induction p as [ | c p IH]; intros s Hp; [cbn; lia | ].
  destruct s as [ | c' s]; [discriminate Hp | ]. cbn [String.prefix] in Hp.
  destruct (ascii_dec c c'); [ | discriminate Hp]. apply IH in Hp. cbn [String.length]. lia.
Qed.

Lemma Index_lt (s sep : string) (m : nat) :
  Index s sep = Some m -> (m + String.length sep <= String.length s)%nat.
Proof.
  revert m. induction s as [ | c s IH]; intros m; cbn [Index].
  - destruct (String.prefix sep "") eqn:Hp; [ | discriminate].
    intros [= <-]. now apply prefix_length in Hp.
  - destruct (String.prefix sep (String c s)) eqn:Hp.
    + intros [= <-]. now apply prefix_length in Hp.
    + destruct (Index s sep) as [m' | ]; [ | discriminate].
      intros [= <-]. specialize (IH m' eq_refl). cbn [String.length]. lia.
Qed.

(** With as many rounds as the string has bytes, no part holds the separator. *)
Lemma genSplit_parts (rounds : nat) (s : string) (c0 : ascii) (t : string) (part : string) :
  (String.length s <= rounds)%nat ->
  In part (genSplit rounds s (String c0 t)) -> Index part (String c0 t) = None.
Proof.
  revert s. induction rounds as [ | r IH]; intros s Hlen.
  - destruct s; [ | cbn in Hlen; lia]. cbn. intros [<- | []]. reflexivity.
  - cbn [genSplit]. destruct (Index s (String c0 t)) as [m | ] eqn:Hi.
    + intros [<- | Hin]; [now apply Index_before | ].
      apply (IH (drop (m + String.length (String c0 t)) s)); [ | exact Hin].
      pose proof (length_drop_le (m + String.length (String c0 t)) s) as Hd.
      pose proof (Index_lt _ _ _ Hi) as Hm. cbn [String.length] in *. lia.
    + intros [<- | []]. exact Hi.
Qed.

End SplitParts.

Section Records.
Import Updater Spec GoTime Strings SplitParts.

(** X19.  No part of a split body holds the delimiter: the body is cut at
    every [eof], a record handed to a goroutine never contains one, and
    neither does the part that is dropped. *)
Theorem no_record_holds_the_delimiter (body part : string) :
  In part (Split body "eof") -> Index part "eof" = None.
Proof. apply genSplit_parts. lia. Qed.

End Records.

Module FrameFacts.
Import Strings GrammarFacts SplitParts Feed.

(** The delimiter does not overlap itself: where it does not begin within a
    string, it does not begin there either when the string is followed by
    the delimiter. *)
Lemma prefix_eof_append (c : ascii) (s rest : string) :
  String.prefix "eof" (String c s) = false ->
  String.prefix "eof" (String c s ++ "eof" ++ rest) = false.
Proof.
  intros Hp.
  destruct s as [ | c2 [ | c3 s]].
  - change (String c "" ++ "eof" ++ rest) with (String c (String "e" (String "o" (String "f" rest)))).
    cbn [String.prefix]. destruct (ascii_dec "e" c); [ | reflexivity].
    destruct (ascii_dec "o" "e"); [discriminate | reflexivity].
  - change (String c (String c2 "") ++ "eof" ++ rest)
      with (String c (String c2 (String "e" (String "o" (String "f" rest))))).
    cbn [String.prefix]. destruct (ascii_dec "e" c); [ | reflexivity].
    destruct (ascii_dec "o" c2); [ | reflexivity].
    destruct (ascii_dec "f" "e"); [discriminate | reflexivity].
  - change (String c (String c2 (String c3 s)) ++ "eof" ++ rest)
      with (String c (String c2 (String c3 (s ++ "eof" ++ rest)))).
    cbn [String.prefix] in Hp |- *.
    destruct (ascii_dec "e" c); [ | reflexivity].
    destruct (ascii_dec "o" c2); [ | reflexivity].
    destruct (ascii_dec "f" c3); [ | reflexivity].
    destruct s; discriminate Hp.
Qed.

Lemma Index_framed (r rest : string) :
  Index r "eof" = None -> Index (r ++ "eof" ++ rest) "eof" = Some (String.length r).
Proof.
  induction r as [ | c r IH]; intros Hr.
  - change ("" ++ "eof" ++ rest) with ("eof" ++ rest). apply Index_prefix.
  - cbn [Index] in Hr.
    destruct (String.prefix "eof" (String c r)) eqn:Hp; [discriminate | ].
    destruct (Index r "eof") eqn:Hi; [discriminate | ].
    pose proof (prefix_eof_append c r rest Hp) as Hp'.
    change (String c r ++ "eof" ++ rest) with (String c (r ++ "eof" ++ rest)) in Hp' |- *.
    cbn [Index]. rewrite Hp', IH by reflexivity. reflexivity.
Qed.

(** Rounds beyond the length of the string change nothing. *)
Lemma genSplit_rounds (n m : nat) (s : string) (c0 : ascii) (t : string) :
  (String.length s <= n)%nat -> (String.length s <= m)%nat ->
  genSplit n s (String c0 t) = genSplit m s (String c0 t).
Proof.
  revert m s. induction n as [ | n IH]; intros m s Hn Hm.
  - destruct s; [ | cbn in Hn; lia]. destruct m; reflexivity.
  - destruct m as [ | m].
    + destruct s; [reflexivity | cbn in Hm; lia].
    + cbn [genSplit]. destruct (Index s (String c0 t)) as [k | ] eqn:Hi; [ | reflexivity].
      f_equal.
      pose proof (length_drop_le (k + String.length (String c0 t)) s) as Hd.
      pose proof (Index_lt _ _ _ Hi) as Hk. cbn [String.length] in *.
      apply IH; lia.
Qed.

Lemma Split_framed (r rest : string) :
  Index r "eof" = None -> Split (r ++ "eof" ++ rest) "eof" = r :: Split rest "eof".
Proof.
  intros Hr. unfold Split.
  rewrite !length_append. change (String.length "eof") with 3%nat.
  replace (String.length r + (3 + String.length rest))%nat
    with (S (String.length r + 2 + String.length rest)) by lia.
  cbn [genSplit]. rewrite (Index_framed r rest Hr).
  rewrite substring_append. f_equal.
  change (String.length "eof") with 3%nat.
  rewrite <- append_assoc.
  replace (String.length r + 3)%nat with (String.length (r ++ "eof"))
    by (rewrite length_append; reflexivity).
  rewrite drop_append. apply genSplit_rounds; lia.
Qed.

Lemma Split_plain (s : string) : Index s "eof" = None -> Split s "eof" = [s].
Proof. intros Hs. unfold Split. destruct (String.length s); cbn [genSplit]; now rewrite ?Hs. Qed.

Lemma Split_records (records : list string) (last : string) :
  (forall r, In r records -> Index r "eof" = None) ->
  Split (framed records last) "eof" = (records ++ Split last "eof")%list.
Proof.
  induction records as [ | r records IH]; intros Hr; [reflexivity | ].
  cbn [framed fold_right]. rewrite Split_framed by (apply Hr; now left).
  fold (framed records last). rewrite IH by (intros r' Hr'; apply Hr; now right).
  reflexivity.
Qed.

End FrameFacts.

Section Framing.
Import Updater Spec GoTime Strings SplitParts FrameFacts Feed.

(** X20.  Framing and splitting are inverse: for records that do not hold the
    delimiter, the body made of each record followed by [eof], and then of a
    remainder without [eof], is split into exactly those records, in order,
    the remainder being what is dropped. *)
Theorem framed_records_are_recovered (records : list string) (last : string) :
  (forall r, In r records -> Index r "eof" = None) ->
  Index last "eof" = None ->
  Split (framed records last) "eof" = (records ++ [last])%list
  /\ vehiclesData (framed records last) = records.
Proof.
  intros Hr Hlast.
  assert (Hs : Split (framed records last) "eof" = (records ++ [last])%list)
    by (rewrite Split_records, Split_plain by assumption; reflexivity).
  split; [exact Hs | ].
  unfold vehiclesData. rewrite Hs, length_app. cbn [List.length].
  replace (List.length records + 1 - 1)%nat with (List.length records) by lia.
  rewrite firstn_app, Nat.sub_diag, firstn_all. cbn [firstn]. apply app_nil_r.
Qed.

Context {DB : Type} `{Database DB}.
Variable rangeKeys : gmap string float -> list string.

(** X21.  A body that holds exactly one record is processed like any other,
    yet the cycle first logs the warning that no vehicle was found: the
    goroutine of the record runs on a log that holds the warning, and the
    cycle goes on to prune unless the goroutine panics. *)
Theorem single_record_is_processed_after_warning (r last : string) (now : Time) (db : DB) :
  Index r "eof" = None -> Index last "eof" = None ->
  update rangeKeys (Body (r ++ "eof" ++ last)) now db
  = match updateVehicle rangeKeys now r
            (db, [Log.Warnf "Found no vehicles delineated by '%s'."]) with
    | Panicked => Crashed (db, [Log.Warnf "Found no vehicles delineated by '%s'."])
    | Returned (db', log') | Next _ (db', log') =>
        Finished (prune now (db', log' ++ [Log.Debugf "Updated vehicles."])%list)
    end.
Proof.
  intros Hr Hlast.
  assert (Hdata : vehiclesData (r ++ "eof" ++ last) = [r]).
  { unfold vehiclesData. now rewrite (Split_framed r last Hr), (Split_plain last Hlast). }
  unfold update. rewrite Hdata. cbn [List.length Nat.leb runAll].
  destruct (updateVehicle _ _ _ _) as [ | [db' log'] | [] [db' log']]; reflexivity.
Qed.

End Framing.

(** ** Clock fields out of range, and vehicle ids with points *)

Module RollFacts.
Import GoTime Int64 ClockFacts Calendar.

(** [norm] on a low part that is not negative: quotient and remainder. *)
Lemma norm_carry (hi lo base : Z) :
  0 <= lo < 2 ^ 62 -> 0 < base -> 0 <= hi < 2 ^ 62 ->
  norm hi lo base = (hi + lo / base, lo mod base).
Proof.
  intros Hlo Hb Hhi. unfold norm.
  replace (lo <? 0) with false by (symmetry; apply Z.ltb_ge; lia).
  pose proof (Z.div_mod lo base ltac:(lia)) as Hdm.
  pose proof (Z.mod_pos_bound lo base Hb) as Hr.
  assert (Hq : 0 <= lo / base <= lo)
    by (split; [apply Z.div_pos; lia | apply Z.div_le_upper_bound; nia]).
  change (2 ^ 62) with 4611686018427387904 in *.
  destruct (base <=? lo) eqn:E.
  - rewrite Z.quot_div_nonneg by lia.
    rewrite !i64_small by (change (2 ^ 63) with 9223372036854775808; nia).
    f_equal. nia.
  - apply Z.leb_gt in E. rewrite Z.div_small, Z.mod_small by lia. f_equal. lia.
Qed.


Lemma daysTo_bound (year month : Z) :
  0 <= year <= 9999 -> 100000000000000 <= daysTo year month <= 110000000000000.
Proof.
  intros Hy. unfold daysTo. cbv zeta.
  pose proof (daysBefore_bound (month - 1)) as Hdb.
  set (y0 := year - absoluteZeroYear).
  assert (Hy0 : 292277022399 <= y0 <= 292277032398) by (unfold y0, absoluteZeroYear; lia).
  unfold daysPer400Years, daysPer100Years, daysPer4Years.
  destruct (isLeap year && (3 <=? month)); Z.div_mod_to_equations; lia.
Qed.

(** The seconds since 1970 of a date whose fields are in range, the day of
    the month apart. *)
Lemma Unix_Date (year month day hour min sec : Z) :
  0 <= year <= 9999 -> 1 <= month <= 12 -> 0 <= day <= 10 ^ 13 ->
  0 <= hour < 24 -> 0 <= min < 60 -> 0 <= sec < 60 ->
  Unix (Date year month day hour min sec 0 UTC)
  = (daysTo year month + (day - 1)) * 86400 + hour * 3600 + min * 60 + sec
    + (absoluteToInternal + internalToUnix).
Proof.
  intros Hy Hm Hd Hh Hmi Hs.
  pose proof (daysTo_bound year month Hy) as Hdt.
  unfold Unix, Date.
  rewrite (i64_small (month - 1)) by lia.
  rewrite (norm_id year (month - 1) 12) by lia.
  rewrite (norm_id sec 0 1000000000) by lia.
  rewrite (norm_id min sec 60) by lia.
  rewrite (norm_id hour min 60) by lia.
  rewrite (norm_id day hour 24) by lia.
  cbv zeta. cbn [ext].
  replace (month - 1 + 1) with month by lia.
  rewrite (u64_small (year - absoluteZeroYear)) by (unfold absoluteZeroYear; lia).
  change (10 ^ 13) with 10000000000000 in Hd.
  fold (daysTo year month) in Hdt.
  match goal with
  | |- context [u64 (?d + (day - 1))] =>
      replace d with (daysTo year month)
        by (unfold daysTo; cbv zeta; destruct (isLeap year && (3 <=? month)); reflexivity)
  end.
  assert (H64 : 2 ^ 64 = 18446744073709551616) by reflexivity.
  assert (H63 : 2 ^ 63 = 9223372036854775808) by reflexivity.
  rewrite (u64_small (daysTo year month + (day - 1))) by lia.
  unfold secondsPerDay, secondsPerHour, secondsPerMinute.
  rewrite (u64_small ((daysTo year month + (day - 1)) * 86400)) by lia.
  rewrite (u64_small ((daysTo year month + (day - 1)) * 86400 + _)) by lia.
  unfold internalToAbsolute, internalToUnix. unfold absoluteToInternal, unixToInternal.
  rewrite (i64_small ((daysTo year month + (day - 1)) * 86400 + _ + _)) by lia.
  rewrite i64_small by lia. lia.
Qed.

(** [Date] on fields that are not negative: the seconds beyond 59 carry into
    the minutes, the minutes into the hours, the hours beyond 23 into the
    days. *)
Lemma Date_carries (year month day hour min sec : Z) (l : Location) :
  0 <= day < 2 ^ 60 -> 0 <= hour < 2 ^ 60 -> 0 <= min < 2 ^ 60 -> 0 <= sec < 2 ^ 60 ->
  let min1 := min + sec / 60 in
  let hour1 := hour + min1 / 60 in
  Date year month day hour min sec 0 l
  = Date year month (day + hour1 / 24) (hour1 mod 24) (min1 mod 60) (sec mod 60) 0 l.
Proof.
  intros Hd Hh Hmi Hs. cbv zeta.
  change (2 ^ 60) with 1152921504606846976 in *.
  assert (H62 : 2 ^ 62 = 4611686018427387904) by reflexivity.
  assert (Hq1 : 0 <= sec / 60 <= sec)
    by (split; [apply Z.div_pos; lia | apply Z.div_le_upper_bound; lia]).
  remember (min + sec / 60) as min1 eqn:Emin1.
  assert (Hq2 : 0 <= min1 / 60 <= min1)
    by (split; [apply Z.div_pos; lia | apply Z.div_le_upper_bound; lia]).
  remember (hour + min1 / 60) as hour1 eqn:Ehour1.
  assert (Hq3 : 0 <= hour1 / 24 <= hour1)
    by (split; [apply Z.div_pos; lia | apply Z.div_le_upper_bound; lia]).
  pose proof (Z.mod_pos_bound sec 60 ltac:(lia)).
  pose proof (Z.mod_pos_bound min1 60 ltac:(lia)).
  pose proof (Z.mod_pos_bound hour1 24 ltac:(lia)).
  unfold Date.
  destruct (norm year (i64 (month - 1)) 12) as [y m].
  rewrite !(norm_id _ 0 1000000000) by lia.
  assert (T1 : 0 <= sec < 2 ^ 62) by (change (2 ^ 62) with 4611686018427387904; lia).
  assert (T2 : 0 < 60) by lia.
  assert (T3 : 0 <= min < 2 ^ 62) by (change (2 ^ 62) with 4611686018427387904; lia).
  rewrite (norm_carry min sec 60 T1 T2 T3), <- Emin1.
  assert (T4 : 0 <= min1 < 2 ^ 62) by (change (2 ^ 62) with 4611686018427387904; lia).
  assert (T5 : 0 <= hour < 2 ^ 62) by (change (2 ^ 62) with 4611686018427387904; lia).
  rewrite (norm_carry hour min1 60 T4 T2 T5), <- Ehour1.
  assert (T6 : 0 <= hour1 < 2 ^ 62) by (change (2 ^ 62) with 4611686018427387904; lia).
  assert (T7 : 0 < 24) by lia.
  assert (T8 : 0 <= day < 2 ^ 62) by (change (2 ^ 62) with 4611686018427387904; lia).
  rewrite (norm_carry day hour1 24 T6 T7 T8).
  rewrite (norm_id _ (sec mod 60) 60) by lia.
  rewrite (norm_id _ (min1 mod 60) 60) by lia.
  rewrite (norm_id _ (hour1 mod 24) 24) by lia.
  reflexivity.
Qed.

(** The seconds since 1970 of a date with any hour, minute and second that
    are not negative: those of its midnight plus the seconds of the clock. *)
Lemma Unix_rolls_over (year month day hour min sec : Z) :
  0 <= year <= 9999 -> 1 <= month <= 12 -> 0 <= day <= 99 ->
  0 <= hour < 10 ^ 14 -> 0 <= min <= 99 -> 0 <= sec <= 99 ->
  Unix (Date year month day hour min sec 0 UTC)
  = Unix (Date year month day 0 0 0 0 UTC) + 3600 * hour + 60 * min + sec.
Proof.
  intros Hy Hm Hd Hh Hmi Hs.
  change (10 ^ 14) with 100000000000000 in Hh.
  rewrite Date_carries by (change (2 ^ 60) with 1152921504606846976; lia).
  cbv zeta.
  assert (Hq1 : 0 <= sec / 60 <= sec)
    by (split; [apply Z.div_pos; lia | apply Z.div_le_upper_bound; lia]).
  pose proof (Z.div_mod sec 60 ltac:(lia)).
  pose proof (Z.mod_pos_bound sec 60 ltac:(lia)).
  remember (min + sec / 60) as min1 eqn:Emin1.
  assert (Hq2 : 0 <= min1 / 60 <= min1)
    by (split; [apply Z.div_pos; lia | apply Z.div_le_upper_bound; lia]).
  pose proof (Z.div_mod min1 60 ltac:(lia)).
  pose proof (Z.mod_pos_bound min1 60 ltac:(lia)).
  remember (hour + min1 / 60) as hour1 eqn:Ehour1.
  assert (Hq3 : 0 <= hour1 / 24 <= hour1)
    by (split; [apply Z.div_pos; lia | apply Z.div_le_upper_bound; lia]).
  pose proof (Z.div_mod hour1 24 ltac:(lia)).
  pose proof (Z.mod_pos_bound hour1 24 ltac:(lia)).
  rewrite !Unix_Date by (change (10 ^ 13) with 10000000000000; lia).
  lia.
Qed.

End RollFacts.

Section RollOver.
Import Strconv Spec GoTime Timestamp Tokens ClockFacts Strings StampFacts RollFacts.

(** X22.  [generateTimestamp] checks no range: on tokens of digits, an hour
    beyond 23 and minutes and seconds beyond 59 are not rejected but carried
    over.  The timestamp lies, after the midnight that begins the day of the
    date token, as many seconds as the hour, minute and second of the time
    token add up to. *)
Theorem clock_fields_carry_over (itrakTime itrakDate : string) :
  allDigits itrakTime = true -> allDigits itrakDate = true ->
  (8 <= String.length itrakDate)%nat ->
  (5 <= String.length itrakTime <= 18)%nat ->
  let n := String.length itrakTime in
  let year := decimal (String.substring 4 4 itrakDate) in
  let month := (decimal (String.substring 0 2 itrakDate) - 1) mod 12 + 1 in
  let day := decimal (String.substring 2 2 itrakDate) in
  let hour := decimal (String.substring 0 (n - 4) itrakTime) in
  let minute := decimal (String.substring (n - 4) 2 itrakTime) in
  let second := decimal (String.substring (n - 2) 2 itrakTime) in
  exists t,
    generateTimestamp itrakTime itrakDate = Ret (t, None)
    /\ Unix t = Unix (Date year month day 0 0 0 0 UTC) + 3600 * hour + 60 * minute + second.
Proof.
  intros HT HD HlenD HlenT n year month day hour minute second.
  eexists. split.
  - apply (proj2 (proj2 (digit_token_outcomes itrakTime itrakDate HT HD))); [exact HlenD | ].
    fold n. lia.
  - fold n year month day hour minute second.
    assert (Hsub : forall a b s, allDigits s = true -> (a + b <= String.length s)%nat ->
              0 <= decimal (String.substring a b s) < 10 ^ Z.of_nat b).
    { intros a b s Hs Hl.
      pose proof (decimal_bound _ (allDigits_substring a b s Hs)) as Hb.
      now rewrite length_substring in Hb by exact Hl. }
    pose proof (Hsub 4 4 itrakDate HD ltac:(lia))%nat as Hy.
    pose proof (Hsub 2 2 itrakDate HD ltac:(lia))%nat as Hd.
    pose proof (Hsub 0 (n - 4) itrakTime HT ltac:(fold n; lia))%nat as Hh.
    pose proof (Hsub (n - 4) 2 itrakTime HT ltac:(fold n; lia))%nat as Hmi.
    pose proof (Hsub (n - 2) 2 itrakTime HT ltac:(fold n; lia))%nat as Hs.
    fold year in Hy. fold day in Hd. fold hour in Hh. fold minute in Hmi. fold second in Hs.
    change (10 ^ Z.of_nat 4) with 10000 in Hy. change (10 ^ Z.of_nat 2) with 100 in Hd, Hmi, Hs.
    assert (Hpow : 10 ^ Z.of_nat (n - 4) <= 10 ^ 14) by (apply Z.pow_le_mono_r; lia).
    pose proof (Z.mod_pos_bound (decimal (String.substring 0 2 itrakDate) - 1) 12 ltac:(lia)).
    apply Unix_rolls_over; lia.
Qed.

End RollOver.

Module IDFacts.
Import Strconv Grammar Updater.

Lemma digits_none (s : string) (acc : Z) :
  over isDigit s = false -> digits acc s = None.
Proof.
  revert acc. induction s as [ | c s IH]; intros acc; [discriminate | ].
  unfold over. cbn [list_ascii_of_string forallb digits].
  destruct (isDigit c); [apply IH | reflexivity].
Qed.

(** [Atoi] on a token of digits and points that holds a point. *)
Lemma Atoi_point (s : string) :
  value digitOrDot s -> over isDigit s = false -> Atoi s = (0, Some (ErrSyntax "Atoi" s)).
Proof.
  intros [Hne Hcls] Hdot. destruct s as [ | c rest]; [contradiction | ].
  apply GrammarFacts.over_cons in Hcls as [Hc _].
  assert (Hsign : Ascii.eqb c "-" = false /\ Ascii.eqb c "+" = false).
  { unfold digitOrDot in Hc. apply orb_true_iff in Hc as [Hc | Hc].
    - apply Tokens.isDigit_spec in Hc. tauto.
    - apply Ascii.eqb_eq in Hc. subst c. split; reflexivity. }
  destruct Hsign as [Hm Hp]. unfold Atoi. rewrite Hm, Hp. cbn [orb].
  now rewrite digits_none.
Qed.

End IDFacts.

Section VehicleID.
Import Updater Spec GoTime Strconv Grammar GrammarFacts IDFacts.

Context {DB : Type} `{Database DB}.
Variable rangeKeys : gmap string float -> list string.

(** X23.  The grammar admits points in the vehicle id, [Atoi] does not: a
    matched record whose id token holds a point ends its goroutine with the
    store as it was and the syntax error of [Atoi] as the one line it adds to
    the log. *)
Theorem vehicle_id_with_point_is_not_looked_up (now : Time) (vehicleData : string) (db : DB)
    (log : list Log.entry) :
  wellFormed vehicleData ->
  allDigits (fieldOf vehicleData "id" "Vehicle ID:") = false ->
  updateVehicle rangeKeys now vehicleData (db, log)
  = Returned
      (db, (log ++ [Log.WithError (ErrSyntax "Atoi" (fieldOf vehicleData "id" "Vehicle ID:"))
                      "Unable to parse vehicle ID to int from string."])%list).
Proof.
  intros Hwf Hdot.
  apply (updateVehicle_bad_id rangeKeys now vehicleData db log 0); [exact Hwf | ].
  apply Atoi_point; [ | exact Hdot].
  destruct (tokens_of_record _ Hwf) as (pre & f & post & _ & Hadm & -> & _).
  apply Hadm.
Qed.

End VehicleID.

(** ** The properties on the example store *)

Section Examples.
Import Updater Spec GoMath GoTime Strconv StrconvFloat Timestamp Regexp Example.

Ltac run := vm_compute; reflexivity.

(** C1, counterexample to the claim as stated: the store holds an update of
    09:19:02, the record carries 09:19:01, and a second row is stored. *)
Lemma earlier_sample_is_stored :
  GetLastUpdateForVehicle once 7 = (seen 1 (at_ 9 19 5), None)
  /\ generateTimestamp (fieldOf earlier "time" "time:") (fieldOf earlier "date" "date:")
     = Ret (at_ 9 19 1, None)
  /\ Before (at_ 9 19 1) (Update.Timestamp (seen 1 (at_ 9 19 5))) = true
  /\ option_map (map Update.Timestamp) (storedAfter (updateVehicle keys now earlier (once, [])))
     = Some [at_ 9 19 2; at_ 9 19 1].
Proof. repeat split; run. Qed.

(** The comparison is [==] on [time.Time], not [Equal]: the record of
    09:19:02 is stored again when the stored timestamp is the same instant
    with another location. *)
Lemma same_instant_other_location_is_stored :
  Unix (Update.Timestamp (seenLocal 1 (at_ 9 19 5))) = Unix (at_ 9 19 2)
  /\ Time_eqb (Update.Timestamp (seenLocal 1 (at_ 9 19 5))) (at_ 9 19 2) = false
  /\ option_map (map (fun u => Unix (Update.Timestamp u)))
       (storedAfter (updateVehicle keys now same (onceLocal, [])))
     = Some [1510478342; 1510478342].
Proof. repeat split; run. Qed.

(** C1, the amended statement at work: a later sample is stored once, and
    feeding it again changes nothing. *)
Lemma only_equal_timestamp_is_dropped_witness :
  exists db' log' row,
    updateVehicle keys now later (once, []) = Next tt (db', log')
    /\ MemDB.updates db' = (MemDB.updates once ++ [row])%list
    /\ Update.Timestamp row = at_ 9 19 12
    /\ Update.VehicleID row = 7
    /\ updateVehicle keys now later (db', log') = Returned (db', log').
Proof.
  assert (Hwf : wellFormed later) by (unfold wellFormed; vm_compute; discriminate).
  destruct (only_equal_timestamp_is_dropped keys now now later once [] 1831394611 shuttle
              10.5%float (seen 1 (at_ 9 19 5)) (at_ 9 19 12) Hwf)
    as [_ Hstored]; [run .. | ].
  destruct Hstored as (db' & log' & row & Hrun & Hrows & Hts & Hv & Hagain).
  - vm_compute. intros [=].
  - run.
  - exists db', log', row. repeat split; try assumption.
    apply Hagain. intros u [<- | []] _. run.
Defined.

(** C3 at the first token pair of the test. *)
Lemma generateTimestamp_digit_tokens_witness :
  exists t,
    generateTimestamp "91902" "11122017" = Ret (t, None)
    /\ t = Date 2017 11 12 9 19 2 0 UTC
    /\ loc t = UTC
    /\ (9 < 24 -> 19 < 60 -> 2 < 60 -> Clock t = (9, 19, 2)).
Proof.
  refine (proj2 (proj2 generateTimestamp_digit_tokens) "91902" "11122017" _ _ _ _ _).
  - run.
  - run.
  - run.
  - left. reflexivity.
  - split; vm_compute; discriminate.
Defined.

(** C5 on the store that holds one update. *)
Lemma too_few_updates_no_route_witness :
  GuessRouteForVehicle keys once now shuttle
  = (Route.zero, None, [Log.Debugf "%v has too few recent updates (%d) to guess route."]).
Proof.
  refine (too_few_updates_no_route keys once now shuttle [seen 1 (at_ 9 19 5)] _ _).
  - run.
  - cbn. lia.
Defined.

(** C7 on the same store: the disabled west route passes through every
    reported position, and the east route is returned. *)
Lemma disabled_route_never_selected_witness :
  east = Route.zero
  \/ exists id, id <> "" /\ GetRoute busy id = (east, None)
       /\ forall r, In r (fst (GetRoutes busy)) -> Route.ID r = id -> Route.Enabled r = true.
Proof.
  refine (disabled_route_never_selected keys busy now shuttle east None
            [Log.Debugf "%v on %s route."] _).
  run.
Defined.

(** C8 on the two averages of that store, in both orders. *)
Lemma selectMin_is_two_pass_witness :
  (fst (selectMin [("east", 0.0010000000000047748%float); ("west", infinity)])
   =? fst (selectMin [("west", infinity); ("east", 0.0010000000000047748%float)]))%float = true
  /\ (5 <? fst (selectMin [("east", 0.0010000000000047748%float); ("west", infinity)]))%float
     = (5 <? fst (selectMin [("west", infinity); ("east", 0.0010000000000047748%float)]))%float.
Proof.
  refine (proj2 (proj2 (proj2 (proj2 (proj2
            (selectMin_is_two_pass [("west", infinity); ("east", 0.0010000000000047748%float)])))))
            [("east", 0.0010000000000047748%float); ("west", infinity)] _).
  apply perm_swap.
Defined.


(** C10, counterexample to the claim as stated: a latitude of 310 digits
    matches the grammar and fails to parse, and the row that is stored
    holds [+Inf], not zero. *)
Lemma huge_latitude_is_stored_as_infinity :
  wellFormed huge
  /\ snd (ParseFloat (fieldOf huge "lat" "lat:"))
     = Some (ErrRange "ParseFloat" (fieldOf huge "lat" "lat:"))
  /\ option_map (map Update.Latitude) (storedAfter (updateVehicle keys now huge (fresh, [])))
     = Some [infinity]
  /\ Leibniz.eqb infinity 0 = false.
Proof.
  split; [unfold wellFormed; vm_compute; discriminate | ]. repeat split; run.
Qed.

(** C10, the amended statement at work: two minus signs for a latitude. *)
Lemma position_parse_error_is_only_logged_witness :
  In (Log.Error (ErrSyntax "ParseFloat" "--")) (positionLog dashes)
  /\ (ErrSyntax "ParseFloat" "--" = ErrSyntax "ParseFloat" (fieldOf dashes "lat" "lat:")
        /\ Update.Latitude (builtUpdate dashes shuttle 10.5 (at_ 9 19 12) now Route.zero)
           = 0%float
      \/ ErrSyntax "ParseFloat" "--" = ErrRange "ParseFloat" (fieldOf dashes "lat" "lat:")
        /\ (Update.Latitude (builtUpdate dashes shuttle 10.5 (at_ 9 19 12) now Route.zero)
            = infinity
            \/ Update.Latitude (builtUpdate dashes shuttle 10.5 (at_ 9 19 12) now Route.zero)
               = neg_infinity)).
Proof.
  assert (Hwf : wellFormed dashes) by (unfold wellFormed; vm_compute; discriminate).
  assert (Hnew : @None error = None
                 /\ Update.Timestamp (seen 1 (at_ 9 19 5)) <> at_ 9 19 12
                 \/ @None error = Some ErrUpdateNotFound)
    by (left; split; [reflexivity | vm_compute; intros [=]]).
  destruct (proj1 (position_parse_error_is_only_logged keys now dashes once [] Hwf)
              1831394611 shuttle 10.5%float (seen 1 (at_ 9 19 5)) None (at_ 9 19 12)
              Route.zero [Log.Debugf "%v has too few recent updates (%d) to guess route."])
    as (_ & _ & _ & Hlat & _); [run | run | run | run | exact Hnew | run | run | ].
  apply Hlat. run.
Defined.

End Examples.

(** ** The further properties on the example stores *)

Section FurtherExamples.
Import Updater Spec GoMath GoTime Strconv StrconvFloat Timestamp Regexp Example.
Import Grammar Stored Ordered Position Cases.

Ltac run := vm_compute; reflexivity.

(** The order of iteration of the examples walks the keys of the map. *)
Lemma keys_are_keys (m : gmap string float) (k : string) : In k (keys m) -> m !! k <> None.
Proof.
  unfold keys. rewrite <- list_elem_of_In, list_elem_of_fmap.
  intros ([k' v] & -> & Hin). apply elem_of_map_to_list in Hin. cbn. congruence.
Qed.

(** X1: the record [later] holds the nine tagged values. *)
Lemma grammar_matches_tagged_fields_witness : wellFormed later.
Proof.
  apply (proj2 (grammar_matches_tagged_fields later)).
  exists "", laterFields, "". split; [run | ].
  unfold admissible, value. cbn [fID fLat fLng fHeading fSpeed fLock fTime fDate fStatus laterFields].
  repeat split; (discriminate || run).
Defined.

(** X2 on the record [later]. *)
Lemma tokens_are_field_values_witness :
  exists pre f post,
    later = pre ++ render f ++ post /\ admissible f
    /\ fieldOf later "id" "Vehicle ID:" = fID f
    /\ fieldOf later "lat" "lat:" = fLat f
    /\ fieldOf later "lng" "lon:" = fLng f
    /\ fieldOf later "heading" "dir:" = fHeading f
    /\ fieldOf later "speed" "spd:" = fSpeed f
    /\ fieldOf later "lock" "lck:" = fLock f
    /\ fieldOf later "time" "time:" = fTime f
    /\ fieldOf later "date" "date:" = fDate f.
Proof.
  apply (tokens_are_field_values later). unfold wellFormed. vm_compute. discriminate.
Defined.

(** X3 on the first pair of tokens of the test. *)
Lemma generateTimestamp_results_witness :
  loc (at_ 9 19 2) = UTC /\ wall (at_ 9 19 2) = 0
  /\ (Time_eqb (Date 2017 11 12 9 19 12 0 UTC) (at_ 9 19 2) = true
      <-> Unix (Date 2017 11 12 9 19 12 0 UTC) = Unix (at_ 9 19 2)).
Proof.
  destruct (generateTimestamp_results "91902" "11122017" (at_ 9 19 2) None) as [_ Hok]; [run | ].
  destruct (Hok eq_refl) as (Hl & Hw & Heq).
  split; [exact Hl | ]. split; [exact Hw | ].
  apply (Heq "91912" "11122017"). run.
Defined.

(** X4: a time of three digits, a time of four, and the thirteenth month. *)
Lemma generateTimestamp_on_digit_tokens_witness :
  generateTimestamp "123" "11122017" = Panic
  /\ generateTimestamp "1902" "11122017" = Ret (zeroTime, Some (ErrSyntax "Atoi" ""))
  /\ generateTimestamp "91902" "13122017" = Ret (Date 2017 1 12 9 19 2 0 UTC, None).
Proof.
  split; [ | split].
  - apply (proj1 (generateTimestamp_on_digit_tokens "123" "11122017" eq_refl eq_refl)).
    right. cbn. lia.
  - apply (proj1 (proj2 (generateTimestamp_on_digit_tokens "1902" "11122017" eq_refl eq_refl))).
    + cbn. lia.
    + reflexivity.
  - apply (proj2 (proj2 (generateTimestamp_on_digit_tokens "91902" "13122017" eq_refl eq_refl))).
    + cbn. lia.
    + cbn. lia.
Defined.

(** X7: a vehicle the store does not know, and a query for the last update
    that fails. *)
Lemma failed_lookup_ends_the_goroutine_witness :
  updateVehicle keys now stranger (once, [])
  = Returned
      (once, [Log.Warnf "Unknown iTrak vehicle ID %d. Make sure all vehicles have been added."])
  /\ updateVehicle keys now later (lastLost, [])
     = Returned (lastLost, [Log.WithError Outage.refused "Unable to retrieve last update."]).
Proof.
  split.
  - refine (proj1 (failed_lookup_ends_the_goroutine keys now stranger once [] 42 _ _)
              Vehicle.zero ErrVehicleNotFound _).
    + unfold wellFormed. vm_compute. discriminate.
    + run.
    + run.
  - refine (proj2 (failed_lookup_ends_the_goroutine keys now later lastLost [] 1831394611 _ _)
              shuttle 10.5%float Update.zero Outage.refused _ _ _ _).
    + unfold wellFormed. vm_compute. discriminate.
    + run.
    + run.
    + run.
    + run.
    + discriminate.
Defined.

(** X8 on the store whose query for the recent updates fails. *)
Lemma failed_updates_query_abandons_record_witness :
  GuessRouteForVehicle keys recentLost now shuttle
  = (Route.zero, Some Outage.refused,
     [Log.Debugf "%v has too few recent updates (%d) to guess route."])
  /\ updateVehicle keys now later (recentLost, [])
     = Returned
         (recentLost,
          [Log.Debugf "Updating %s.";
           Log.Debugf "%v has too few recent updates (%d) to guess route.";
           Log.WithError Outage.refused "Unable to guess route for vehicle."]).
Proof.
  refine (failed_updates_query_abandons_record keys now later recentLost [] 1831394611 shuttle
            10.5%float (seen 1 (at_ 9 19 5)) None (at_ 9 19 12) [] Outage.refused
            _ _ _ _ _ _ _ _ _).
  - unfold wellFormed. vm_compute. discriminate.
  - run.
  - run.
  - run.
  - run.
  - left. split; [reflexivity | vm_compute; intros [=]].
  - run.
  - run.
  - cbn. lia.
Defined.

(** X10: a cycle without records on a store that holds a row of two months
    before. *)
Lemma finished_cycle_has_pruned_witness :
  (forall u, In u [seen 2 (at_ 9 19 5)] ->
     Before (Update.Created u) (AddDate now 0 (-1) 0) = false)
  /\ (forall u, In u (MemDB.updates stale) ->
        Before (Update.Created u) (AddDate now 0 (-1) 0) = false ->
        In u [seen 2 (at_ 9 19 5)])
  /\ [shuttle] = MemDB.vehicles stale /\ [east; west] = MemDB.routes stale.
Proof.
  refine (finished_cycle_has_pruned keys now "Service Unavailable" stale
            (MemDB.mk [shuttle] [east; west] [seen 2 (at_ 9 19 5)] 3 (at_ 9 19 15))
            [Log.Warnf "Found no vehicles delineated by '%s'."; Log.Debugf "Updated vehicles.";
             Log.Debugf "Removed %d old updates."] _).
  run.
Defined.

(** X14: an update written to the store [once]. *)
Lemma created_update_is_last_update_witness :
  snd (MemDB.createUpdate once (builtUpdate later shuttle 10.5 (at_ 9 19 12) now east)) = None
  /\ MemDB.getLastUpdateForVehicle
       (fst (MemDB.createUpdate once (builtUpdate later shuttle 10.5 (at_ 9 19 12) now east))) 7
     = (Update.mk 2 7 42.73043 (-73.67667) "270" "6.52440" "" (at_ 9 19 12) (at_ 9 19 15) "", None).
Proof.
  refine (created_update_is_last_update once
            (builtUpdate later shuttle 10.5 (at_ 9 19 12) now east) _).
  intros r [<- | []] _. run.
Defined.

(** X15: the depot, a route without coordinates, is listed first. *)
Lemma route_without_path_never_selected_witness :
  east = Route.zero
  \/ exists id, id <> "" /\ GetRoute withDepot id = (east, None)
       /\ forall r, In r (fst (GetRoutes withDepot)) -> Route.ID r = id -> Route.Coords r <> [].
Proof.
  refine (route_without_path_never_selected keys withDepot now shuttle east None
            [Log.Debugf "%v on %s route."] _).
  run.
Defined.

(** X16: the third of five recent updates has an infinite latitude. *)
Lemma position_that_is_no_number_gives_no_route_witness :
  GuessRouteForVehicle keys spoiled now shuttle
  = (Route.zero, None, [Log.Debugf "%v not on route; distance from nearest: %v"]).
Proof.
  refine (position_that_is_no_number_gives_no_route keys spoiled now shuttle
            (fst (GetUpdatesForVehicleSince spoiled 7 (Add now (Minute * -15)))) None
            (adrift 3 (at_ 9 17 5)) keys_are_keys _ _ _ _).
  - run.
  - apply Nat.leb_le. run.
  - vm_compute. right. right. left. reflexivity.
  - left. left. reflexivity.
Defined.

(** X17: five recent updates and no route. *)
Lemma no_routes_no_guess_witness :
  GuessRouteForVehicle keys routeless now shuttle
  = (Route.zero, None, [Log.Debugf "%v not on route; distance from nearest: %v"]).
Proof.
  refine (no_routes_no_guess keys routeless now shuttle None keys_are_keys _ _).
  - run.
  - apply Nat.leb_le. run.
Defined.

(** X18 on the store that holds five updates. *)
Lemma looked_up_route_is_listed_witness :
  east = Route.zero
  \/ exists r, In r (fst (GetRoutes busy)) /\ Route.ID r <> ""
       /\ GetRoute busy (Route.ID r) = (east, None).
Proof.
  refine (looked_up_route_is_listed keys busy now shuttle east None
            [Log.Debugf "%v on %s route."] keys_are_keys _).
  run.
Defined.

(** X19 on the body of two records. *)
Lemma no_record_holds_the_delimiter_witness : Strings.Index "garbage" "eof" = None.
Proof.
  apply (no_record_holds_the_delimiter (same ++ "eofgarbageeof") "garbage").
  vm_compute. right. left. reflexivity.
Defined.

(** X20 on the two records of the body that crashes the cycle. *)
Lemma framed_records_are_recovered_witness :
  Strings.Split (same ++ "eofgarbageeof") "eof" = [same; "garbage"; ""]
  /\ vehiclesData (same ++ "eofgarbageeof") = [same; "garbage"].
Proof.
  refine (framed_records_are_recovered [same; "garbage"] "" _ _).
  - intros r [<- | [<- | []]]; run.
  - run.
Defined.

(** X21 on a body that holds the record [later] and nothing else. *)
Lemma single_record_is_processed_after_warning_witness :
  update keys (Body (later ++ "eof" ++ "")) now once
  = match updateVehicle keys now later
            (once, [Log.Warnf "Found no vehicles delineated by '%s'."]) with
    | Panicked => Crashed (once, [Log.Warnf "Found no vehicles delineated by '%s'."])
    | Returned (db', log') | Next _ (db', log') =>
        Finished (prune now (db', log' ++ [Log.Debugf "Updated vehicles."])%list)
    end.
Proof.
  refine (single_record_is_processed_after_warning keys later "" now once _ _).
  - run.
  - run.
Defined.

(** X22: the time token 25:61:99. *)
Lemma clock_fields_carry_over_witness :
  exists t,
    generateTimestamp "256199" "11122017" = Ret (t, None)
    /\ Unix t = Unix (Date 2017 11 12 0 0 0 0 UTC) + 3600 * 25 + 60 * 61 + 99.
Proof.
  refine (clock_fields_carry_over "256199" "11122017" _ _ _ _).
  - run.
  - run.
  - cbn. lia.
  - cbn. lia.
Defined.

(** X23 on a record whose vehicle id is 18.3. *)
Lemma vehicle_id_with_point_is_not_looked_up_witness :
  updateVehicle keys now dotted (once, [])
  = Returned
      (once, [Log.WithError (ErrSyntax "Atoi" "18.3")
                "Unable to parse vehicle ID to int from string."]).
Proof.
  refine (vehicle_id_with_point_is_not_looked_up keys now dotted once [] _ _).
  - unfold wellFormed. vm_compute. discriminate.
  - run.
Defined.

End FurtherExamples.
